(** * bpftune: the tuner framework of libbpftune.c

    A shallow embedding of [src/libbpftune.c]: the tuner registry
    ([bpftuner_init], [bpftuner_fini], [bpftune_tuner]), the ring-buffer
    event callback ([bpftune_ringbuf_event_read]) and the polling loop
    around it, the namespace switch ([bpftune_netns_set]), the sysctl read
    and write paths, the tunables and their scenario counters, the
    per-tuner namespace list and the discovery of namespaces
    ([bpftune_netns_info], [bpftune_netns_find],
    [bpftune_netns_init_all]), and the two log sinks as far as they decide
    whether a message is formatted.

    The C code is stateful: it talks to the kernel (namespaces, /proc/sys
    files, descriptors, errno), to the dynamic loader, and it keeps
    process-wide globals.  All of that is one explicit [state]; a C
    function becomes a computation in the monad [M], which threads the
    state, records the observable calls in a trace and can stop with a
    [fault] where the C program would leave defined behaviour (a call
    through a null pointer, a store past the end of an array, a format
    whose string conversion finds no string among the arguments). *)

From Stdlib Require Import ZArith NArith String Ascii List Bool Lia.
From stdpp Require Import base option list gmap strings pretty.

(** ** Constants *)

(** <errno.h> *)
Definition EPERM  : Z := 1.
Definition ENOENT : Z := 2.
Definition EBADF  : Z := 9.
Definition ENOMEM : Z := 12.
Definition EACCES : Z := 13.
Definition EINVAL : Z := 22.

(** <syslog.h> *)
Definition LOG_ERR   : Z := 3.
Definition LOG_INFO  : Z := 6.
Definition LOG_DEBUG : Z := 7.

(** <stdio.h> *)
Definition EOF : Z := -1.

(** Modelled from the spec: libbpftune.h is not among the sources; a
    tunable has one to three numeric components, and the read path scans
    exactly three conversions into the value buffer. *)
Definition BPFTUNE_MAX_VALUES : nat := 3.

(** ** Data model

    The struct declarations are those of libbpftune.h, which is not among
    the sources; each record below has the fields libbpftune.c reads or
    writes, under the names it uses.

    Integers: a [long] value of a tunable is a [Z] (the code copies and
    compares such values and does no arithmetic on them); statuses and
    descriptors ([int]) are [Z]; indices, ids and sizes ([unsigned int],
    [size_t], [__u8]) are [nat]; a namespace cookie ([unsigned long]) is an
    [N]; an occurrence counter ([unsigned long]) is an [N] incremented
    modulo 2^64. *)

(** A network namespace of the kernel model, and the address of a
    heap-allocated [struct bpftuner]. *)
Definition netns := nat.
Definition loc := nat.

(** What a sysctl file under /proc/sys shows when it is scanned: numbers,
    or something [%ld] does not match. *)
Inductive token := TNum (z : Z) | TJunk.

Record sysfile := SysFile {
  f_content : list token;
  f_writable : bool
}.

(** Modelled from the spec: [enum bpftune_state] of libbpftune.h, with the
    two lifecycle states the spec names.  [calloc] leaves a tuner in the
    zero state, [BPFTUNE_INACTIVE]. *)
Inductive bpftune_state := BPFTUNE_INACTIVE | BPFTUNE_ACTIVE.

Global Instance bpftune_state_eq_dec : EqDecision bpftune_state.
Proof. solve_decision. Defined.

(** Modelled from the spec: [enum bpftunable_type] of libbpftune.h.  The
    code tests for [BPFTUNABLE_SYSCTL], the one setting class the spec
    names; [BPFTUNABLE_OTHER] stands for any other value of the field. *)
Inductive bpftunable_type := BPFTUNABLE_SYSCTL | BPFTUNABLE_OTHER.

Global Instance bpftunable_type_eq_dec : EqDecision bpftunable_type.
Proof. solve_decision. Defined.

(** [struct bpftunable_desc], the fields libbpftune.c reads. *)
Record bpftunable_desc := Desc {
  d_type : bpftunable_type;
  d_name : string;
  d_namespaced : bool;
  d_num_values : nat
}.

Record bpftunable_scenario := Scenario {
  sc_name : string;
  sc_description : string
}.

(** [struct bpftunable_stats]: two rows of [unsigned long] counters indexed
    by scenario; a slot never incremented reads zero. *)
Record bpftunable_stats := Stats {
  global_ns : gmap nat N;
  nonglobal_ns : gmap nat N
}.

Record bpftunable := Tunable {
  desc : bpftunable_desc;
  initial_values : list Z;
  current_values : list Z;
  stats : bpftunable_stats
}.

(** A function pointer obtained from [dlsym]: the shared object it lives
    in and the symbol. A null pointer is [None]. *)
Definition fnptr := (string * string)%type.

(** [struct bpftuner].  The array pairs (tunables, num_tunables) and
    (scenarios, num_scenarios) are lists.  The embedded list head
    [tuner->netns] is [netns_cookie] with the chain [netns.next, ...] kept
    as the list of the cookies of the nodes after the head. *)
Record bpftuner := Tuner {
  handle : option string;
  name : string;
  id : nat;
  state_ : bpftune_state;
  init : option fnptr;
  fini : option fnptr;
  event_handler : option fnptr;
  ring_buffer_map_fd : Z;
  tunables : list bpftunable;
  scenarios : list bpftunable_scenario;
  netns_cookie : N;
  netns_next : list N
}.

(** What [calloc(1, sizeof( *tuner))] returns. *)
Definition zero_tuner : bpftuner :=
  {| handle := None; name := EmptyString; id := 0; state_ := BPFTUNE_INACTIVE;
     init := None; fini := None; event_handler := None;
     ring_buffer_map_fd := 0; tunables := []; scenarios := [];
     netns_cookie := 0%N; netns_next := [] |}.

(** [struct bpftune_event], the fixed header of a ring-buffer record. *)
Record bpftune_event := Event {
  tuner_id : nat;
  scenario_id : nat;
  ev_netns_cookie : N;
  payload : list Z
}.

(** A tuner's shared object.  The three entry points are module code, which
    is outside libbpftune.c: each is given by what it does to the tuner
    structure it is handed, and [init] also by the status it returns.  An
    entry point the object does not export is [None]. *)
Record dso := Dso {
  dso_init : option (bpftuner -> bpftuner * Z);
  dso_fini : option (bpftuner -> bpftuner);
  dso_event_handler : option (bpftuner -> bpftune_event -> bpftuner)
}.

(** ** Observable calls *)

Inductive logarg := AInt (z : Z) | AStr (s : string) | AErr (errnum : Z).

Inductive event :=
| EvLog (level : Z) (fmt : string) (args : list logarg)
| EvSetns (fd : Z) (ok : bool)
| EvFopen (path : string) (mode : string) (ok : bool)
| EvFprintf (path : string) (v : Z)
| EvCall (tuner : loc) (entry : string).

(** ** The state of the process and of the kernel it runs on *)

Record state := State {
  (* kernel *)
  cur_netns : netns;                       (* namespace of the calling thread *)
  fds : gmap Z netns;                      (* open namespace descriptors *)
  next_fd : Z;                             (* the descriptor the next open returns *)
  self_ns_ok : bool;                       (* can /proc/self/ns/net be opened *)
  files : gmap (netns * string) sysfile;   (* /proc/sys, per namespace *)
  errno : Z;
  (* loader and allocator *)
  objects : gmap string dso;               (* what dlopen can resolve *)
  handles : list string;                   (* objects currently dlopen'ed *)
  calloc_ok : bool;
  heap : gmap loc bpftuner;
  next_loc : loc;
  (* globals of libbpftune.c *)
  g_ring_buffer_map_fd : Z;
  bpftune_tuners : list (option loc);
  bpftune_num_tuners : nat;
  netns_cookie_supported : bool;
  global_netns_cookie : N;
  (* what the program did, oldest first *)
  trace : list event
}.

Definition set_cur_netns (v : netns) (s : state) : state :=
  State v (fds s) (next_fd s) (self_ns_ok s) (files s) (errno s) (objects s)
        (handles s) (calloc_ok s) (heap s) (next_loc s) (g_ring_buffer_map_fd s)
        (bpftune_tuners s) (bpftune_num_tuners s) (netns_cookie_supported s)
        (global_netns_cookie s) (trace s).

Definition set_fds (v : gmap Z netns) (s : state) : state :=
  State (cur_netns s) v (next_fd s) (self_ns_ok s) (files s) (errno s) (objects s)
        (handles s) (calloc_ok s) (heap s) (next_loc s) (g_ring_buffer_map_fd s)
        (bpftune_tuners s) (bpftune_num_tuners s) (netns_cookie_supported s)
        (global_netns_cookie s) (trace s).

Definition set_next_fd (v : Z) (s : state) : state :=
  State (cur_netns s) (fds s) v (self_ns_ok s) (files s) (errno s) (objects s)
        (handles s) (calloc_ok s) (heap s) (next_loc s) (g_ring_buffer_map_fd s)
        (bpftune_tuners s) (bpftune_num_tuners s) (netns_cookie_supported s)
        (global_netns_cookie s) (trace s).

Definition set_files (v : gmap (netns * string) sysfile) (s : state) : state :=
  State (cur_netns s) (fds s) (next_fd s) (self_ns_ok s) v (errno s) (objects s)
        (handles s) (calloc_ok s) (heap s) (next_loc s) (g_ring_buffer_map_fd s)
        (bpftune_tuners s) (bpftune_num_tuners s) (netns_cookie_supported s)
        (global_netns_cookie s) (trace s).

Definition set_errno (v : Z) (s : state) : state :=
  State (cur_netns s) (fds s) (next_fd s) (self_ns_ok s) (files s) v (objects s)
        (handles s) (calloc_ok s) (heap s) (next_loc s) (g_ring_buffer_map_fd s)
        (bpftune_tuners s) (bpftune_num_tuners s) (netns_cookie_supported s)
        (global_netns_cookie s) (trace s).

Definition set_handles (v : list string) (s : state) : state :=
  State (cur_netns s) (fds s) (next_fd s) (self_ns_ok s) (files s) (errno s) (objects s)
        v (calloc_ok s) (heap s) (next_loc s) (g_ring_buffer_map_fd s)
        (bpftune_tuners s) (bpftune_num_tuners s) (netns_cookie_supported s)
        (global_netns_cookie s) (trace s).

Definition set_heap (v : gmap loc bpftuner) (s : state) : state :=
  State (cur_netns s) (fds s) (next_fd s) (self_ns_ok s) (files s) (errno s) (objects s)
        (handles s) (calloc_ok s) v (next_loc s) (g_ring_buffer_map_fd s)
        (bpftune_tuners s) (bpftune_num_tuners s) (netns_cookie_supported s)
        (global_netns_cookie s) (trace s).

Definition set_next_loc (v : loc) (s : state) : state :=
  State (cur_netns s) (fds s) (next_fd s) (self_ns_ok s) (files s) (errno s) (objects s)
        (handles s) (calloc_ok s) (heap s) v (g_ring_buffer_map_fd s)
        (bpftune_tuners s) (bpftune_num_tuners s) (netns_cookie_supported s)
        (global_netns_cookie s) (trace s).

Definition set_bpftune_tuners (v : list (option loc)) (s : state) : state :=
  State (cur_netns s) (fds s) (next_fd s) (self_ns_ok s) (files s) (errno s) (objects s)
        (handles s) (calloc_ok s) (heap s) (next_loc s) (g_ring_buffer_map_fd s)
        v (bpftune_num_tuners s) (netns_cookie_supported s)
        (global_netns_cookie s) (trace s).

Definition set_bpftune_num_tuners (v : nat) (s : state) : state :=
  State (cur_netns s) (fds s) (next_fd s) (self_ns_ok s) (files s) (errno s) (objects s)
        (handles s) (calloc_ok s) (heap s) (next_loc s) (g_ring_buffer_map_fd s)
        (bpftune_tuners s) v (netns_cookie_supported s)
        (global_netns_cookie s) (trace s).

Definition set_trace (v : list event) (s : state) : state :=
  State (cur_netns s) (fds s) (next_fd s) (self_ns_ok s) (files s) (errno s) (objects s)
        (handles s) (calloc_ok s) (heap s) (next_loc s) (g_ring_buffer_map_fd s)
        (bpftune_tuners s) (bpftune_num_tuners s) (netns_cookie_supported s)
        (global_netns_cookie s) v.

(** ** The monad *)

Inductive fault :=
| NullCall        (* call through a null function pointer *)
| NullDeref       (* read or write through a null or dangling pointer *)
| OutOfBounds     (* access past the end of an array *)
| BadVarArg.      (* a [%s] conversion fetches an argument that is no string *)

Inductive result (A : Type) :=
| Ret (a : A) (s : state)
| Fault (f : fault) (s : state).
Arguments Ret {A} a s.
Arguments Fault {A} f s.

Definition M (A : Type) : Type := state -> result A.

Definition ret {A} (a : A) : M A := fun s => Ret a s.

Definition bind {A B} (c : M A) (k : A -> M B) : M B :=
  fun s => match c s with
           | Ret a s' => k a s'
           | Fault f s' => Fault f s'
           end.

Definition crash {A} (f : fault) : M A := fun s => Fault f s.
Definition gets {A} (p : state -> A) : M A := fun s => Ret (p s) s.
Definition modify (u : state -> state) : M unit := fun s => Ret tt (u s).

Declare Scope m_scope.
Delimit Scope m_scope with M.
Bind Scope m_scope with M.
Notation "x <- c ;; k" := (bind c (fun x => k))
  (at level 100, c at next level, right associativity) : m_scope.
Notation "c ;; k" := (bind c (fun _ => k))
  (at level 100, right associativity) : m_scope.
Local Open Scope m_scope.

(** [for (i = from; i < from + count; i++) body(i)] *)
Fixpoint for_loop (from count : nat) (body : nat -> M unit) : M unit :=
  match count with
  | 0 => ret tt
  | S c => body from ;; for_loop (S from) c body
  end.

Definition emits (es : list event) (s : state) : state := set_trace (trace s ++ es) s.
Definition emit (e : event) (s : state) : state := emits [e] s.

(** [bpftune_log(level, fmt, ...)]: the call is recorded with its level,
    format and arguments, whatever the sink ([bpftune_logfn]) then does
    with the message. *)
Definition bpftune_log (level : Z) (fmt : string) (args : list logarg) : M unit :=
  modify (emit (EvLog level fmt args)).

(** The sink is the global [bpftune_logfn], the level the global
    [bpftune_loglevel]; only [bpftune_set_log] assigns them.  The two
    sinks of libbpftune.c are [bpftune_log_stderr], which hands the format
    and the arguments to [vfprintf] when [level <= bpftune_loglevel] and
    does nothing otherwise, and [bpftune_log_syslog], which hands them to
    [vsnprintf] whatever the level.  A sink from outside the library is
    given by whether it reads the arguments by the format. *)
Inductive logfn :=
| bpftune_log_stderr
| bpftune_log_syslog
| extern_logfn (reads_format : bool).

Record logger := Logger {
  bpftune_logfn : logfn;
  bpftune_loglevel : Z
}.

(** The initialisers of the two globals. *)
Definition default_logger : logger := Logger bpftune_log_stderr LOG_INFO.

(** Whether a message of that level has its arguments fetched by its
    format. *)
Definition formats (lg : logger) (level : Z) : bool :=
  match bpftune_logfn lg with
  | bpftune_log_stderr => (level <=? bpftune_loglevel lg)%Z
  | bpftune_log_syslog => true
  | extern_logfn reads_format => reads_format
  end.

(** A call of [bpftune_log] whose format has a [%s] conversion that finds
    no string: an integer was passed in its place, or nothing at all.  The
    call is made as written; a sink that fetches the arguments by the
    format then reads through what is no pointer to a string, which is
    where the program leaves defined behaviour.  (A conversion that
    fetches an integer of another width than the one passed prints a wrong
    number at worst; such calls are plain [bpftune_log] calls.) *)
Definition bpftune_log_mismatch (lg : logger) (level : Z) (fmt : string)
    (args : list logarg) : M unit :=
  bpftune_log level fmt args ;;
  if formats lg level then crash BadVarArg else ret tt.

(** ** The kernel and the C library, as far as libbpftune.c calls them *)

(** [open("/proc/self/ns/net", O_RDONLY | O_CLOEXEC)]: a new descriptor for
    the namespace the thread is in, or -1 with errno set. *)
Definition sys_open_self_ns : M Z := fun s =>
  if self_ns_ok s
  then Ret (next_fd s)
           (set_next_fd (next_fd s + 1) (set_fds (<[next_fd s := cur_netns s]> (fds s)) s))
  else Ret (-1)%Z (set_errno ENOENT s).

(** [setns(fd, CLONE_NEWNET)]: moves the thread into the namespace the
    descriptor refers to; fails on a descriptor that is not open. *)
Definition sys_setns (fd : Z) : M Z := fun s =>
  match fds s !! fd with
  | Some ns => Ret 0%Z (emit (EvSetns fd true) (set_cur_netns ns s))
  | None => Ret (-1)%Z (emit (EvSetns fd false) (set_errno EBADF s))
  end.

(** [close(fd)] *)
Definition sys_close (fd : Z) : M unit := fun s =>
  match fds s !! fd with
  | Some _ => Ret tt (set_fds (delete fd (fds s)) s)
  | None => Ret tt (set_errno EBADF s)
  end.

(** [fopen(path, "r")]: the file of that path in the namespace the thread
    is in. *)
Definition sys_fopen_r (path : string) : M (option (list token)) := fun s =>
  match files s !! (cur_netns s, path) with
  | Some f => Ret (Some (f_content f)) (emit (EvFopen path "r" true) s)
  | None => Ret None (emit (EvFopen path "r" false) (set_errno ENOENT s))
  end.

(** [fopen(path, "w")]: the stream is named by the namespace and the path
    it was opened under.  Files behave as regular files do: opening for
    writing truncates, and what is written is what a later scan reads.
    What the kernel makes of a write to a sysctl is not the program's to
    decide; a statement that needs the values to read back says so. *)
Definition sys_fopen_w (path : string) : M (option (netns * string)) := fun s =>
  match files s !! (cur_netns s, path) with
  | Some f =>
      if f_writable f
      then Ret (Some (cur_netns s, path))
               (emit (EvFopen path "w" true)
                     (set_files (<[(cur_netns s, path) := SysFile [] true]> (files s)) s))
      else Ret None (emit (EvFopen path "w" false) (set_errno EACCES s))
  | None => Ret None (emit (EvFopen path "w" false) (set_errno ENOENT s))
  end.

(** [fprintf(fp, "%ld ", v)] *)
Definition sys_fprintf_ld (fp : netns * string) (v : Z) : M unit := fun s =>
  match files s !! fp with
  | Some f =>
      Ret tt (emit (EvFprintf (snd fp) v)
                   (set_files (<[fp := SysFile (f_content f ++ [TNum v]) (f_writable f)]> (files s)) s))
  | None => Ret tt (emit (EvFprintf (snd fp) v) s)
  end.

(** The longest prefix of at most [n] numbers. *)
Fixpoint scan_longs (n : nat) (ts : list token) : list Z :=
  match n, ts with
  | S n', TNum z :: ts' => z :: scan_longs n' ts'
  | _, _ => []
  end.

(** [fscanf(fp, "%ld %ld %ld", ...)]: the number of conversions and the
    values converted; [EOF] when the input ends before the first one. *)
Definition fscanf3 (ts : list token) : Z * list Z :=
  match ts with
  | [] => (EOF, [])
  | _ => let vs := scan_longs 3 ts in (Z.of_nat (length vs), vs)
  end.

(** The caller's array after its first slots were assigned. *)
Definition store_prefix (vs buf : list Z) : list Z := vs ++ drop (length vs) buf.

(** [a[i]] of an array of [long].  C defines no value for a read past the
    end of the array and the model gives 0 there: what is proved of a
    value read this way holds of the C program for an index inside the
    array. *)
Definition long_at (a : list Z) (i : nat) : Z := nth i a 0%Z.

(** ** Sysctl paths *)

Definition BPFTUNE_PROC_SYS : string := "/proc/sys/".

Fixpoint string_map (f : ascii -> ascii) (s : string) : string :=
  match s with
  | EmptyString => EmptyString
  | String c s' => String (f c) (string_map f s')
  end.

Definition dot_to_slash (c : ascii) : ascii :=
  if Ascii.eqb c "." then "/"%char else c.

(** [snprintf] keeps at most [path_sz - 1] characters; the loop then turns
    every dot of the result into a slash. *)
Definition bpftune_sysctl_name_to_path (name : string) (path_sz : nat) : string :=
  string_map dot_to_slash
    (String.substring 0 (path_sz - 1) (String.append BPFTUNE_PROC_SYS name)).

(** ** Namespace switch *)

(** [bpftune_netns_set(new_fd, orig_fd)].  [want_orig] says whether
    [orig_fd] is non-null; the result is the status and what [*orig_fd]
    holds afterwards. *)
Definition bpftune_netns_set (new_fd : Z) (want_orig : bool) : M (Z * Z) :=
  if (new_fd =? 0)%Z then ret (0%Z, 0%Z)
  else
    fd <- sys_open_self_ns ;;
    err <- (if (fd <? 0)%Z
            then e <- gets errno ;;
                 bpftune_log LOG_ERR "could not get current netns fd(%d): %s\n"
                             [AInt fd; AErr e] ;;
                 ret (- e)%Z
            else r <- sys_setns new_fd ;;
                 if (r <? 0)%Z
                 then e <- gets errno ;;
                      sys_close fd ;;
                      bpftune_log LOG_ERR "could not %ssetns(%d): %s\n"
                                  [AStr (if want_orig then "" else "restore");
                                   AInt new_fd; AErr e] ;;
                      ret (- e)%Z
                 else ret r) ;;
    if (err =? 0)%Z && want_orig
    then ret (err, fd)
    else sys_close fd ;; ret (err, 0%Z).

(** ** Sysctl read and write *)

(** [bpftune_sysctl_read(netns_fd, name, values)]: the returned count and
    the caller's [values] array afterwards. *)
Definition bpftune_sysctl_read (netns_fd : Z) (name : string) (values : list Z)
  : M (Z * list Z) :=
  let path := bpftune_sysctl_name_to_path name 512 in
  so <- bpftune_netns_set netns_fd true ;;
  let err := fst so in
  let orig_netns_fd := snd so in
  if (err <? 0)%Z then ret (err, values)
  else
    fp <- sys_fopen_r path ;;
    r <- match fp with
         | None =>
             e <- gets errno ;;
             bpftune_log LOG_ERR "could not open %s (netns fd %d) for reading: %s\n"
                         [AStr path; AInt netns_fd; AErr e] ;;
             ret (0%Z, values)
         | Some content =>
             let num_values := fst (fscanf3 content) in
             let values' := store_prefix (snd (fscanf3 content)) values in
             e <- gets errno ;;
             let err := if (num_values =? 0)%Z then (- ENOENT)%Z
                        else if (num_values <? 0)%Z then (- e)%Z
                        else err in
             if negb (err =? 0)%Z
             then bpftune_log LOG_ERR "could not read from %s: %s\n"
                              [AStr path; AErr (- err)] ;;
                  ret (num_values, values')
             else for_loop 0 (Z.to_nat num_values)
                    (fun i => bpftune_log LOG_DEBUG "Read %s[%d] = %ld\n"
                                [AStr name; AInt (Z.of_nat i); AInt (long_at values' i)]) ;;
                  ret (num_values, values')
         end ;;
    (* out: restore, then [return num_values]; [err] is not read again *)
    bpftune_netns_set orig_netns_fd false ;;
    ret r.

(** The index at which the comparison loop of [bpftune_sysctl_write]
    stops: the first [i < num_values] with [old_values[i] != values[i]],
    or [num_values]. *)
Fixpoint mismatch_from (i count : nat) (old_values values : list Z) : nat :=
  match count with
  | 0 => i
  | S c => if (long_at old_values i =? long_at values i)%Z
           then mismatch_from (S i) c old_values values
           else i
  end.

(** [bpftune_sysctl_write(netns_fd, name, num_values, values)].  [out] is
    the code at the label [out:], which restores the namespace and ends in
    [return 0]: the [err] assigned before each [goto out] is not read
    there.  [old_values] is not initialised in C; the comparison reads
    only slots the scan assigned. *)
Definition bpftune_sysctl_write (netns_fd : Z) (name : string)
    (num_values : nat) (values : list Z) : M Z :=
  let path := bpftune_sysctl_name_to_path name 512 in
  bpftune_log LOG_DEBUG "writing sysctl '%s' for netns_fd %d\n"
              [AStr path; AInt netns_fd] ;;
  so <- bpftune_netns_set netns_fd true ;;
  let err := fst so in
  let orig_netns_fd := snd so in
  if (err <? 0)%Z then ret err
  else
    let out : M Z := (bpftune_netns_set orig_netns_fd false ;; ret 0%Z) in
    (* If value is already set to val, do nothing. *)
    rd <- bpftune_sysctl_read 0 name (replicate BPFTUNE_MAX_VALUES 0%Z) ;;
    let old_num_values := fst rd in
    let old_values := snd rd in
    if (old_num_values <? 0)%Z then out
    else if (Z.of_nat num_values =? old_num_values)%Z
            && (mismatch_from 0 num_values old_values values =? num_values)
    then ret 0%Z
    else
      fp <- sys_fopen_w path ;;
      match fp with
      | None =>
          e <- gets errno ;;
          bpftune_log LOG_DEBUG "could not open %s for writing: %s\n"
                      [AStr path; AErr e] ;;
          out
      | Some fp =>
          for_loop 0 num_values (fun i => sys_fprintf_ld fp (long_at values i)) ;;
          for_loop 0 num_values
            (fun i => bpftune_log LOG_DEBUG "Wrote %s[%d] = %ld\n"
                        [AStr name; AInt (Z.of_nat i); AInt (long_at values i)]) ;;
          out
      end.

(** ** Heap, loader and allocator *)

(** Reading and writing [*tuner]. *)
Definition load_tuner (l : loc) : M bpftuner := fun s =>
  match heap s !! l with
  | Some t => Ret t s
  | None => Fault NullDeref s
  end.

Definition store_tuner (l : loc) (t : bpftuner) : M unit := fun s =>
  match heap s !! l with
  | Some _ => Ret tt (set_heap (<[l := t]> (heap s)) s)
  | None => Fault NullDeref s
  end.

(** [calloc(1, sizeof(struct bpftuner))] *)
Definition calloc_tuner : M (option loc) := fun s =>
  if calloc_ok s
  then Ret (Some (next_loc s))
           (set_next_loc (S (next_loc s)) (set_heap (<[next_loc s := zero_tuner]> (heap s)) s))
  else Ret None (set_errno ENOMEM s).

(** [free(tuner)] *)
Definition free_tuner (l : loc) : M unit :=
  modify (fun s => set_heap (delete l (heap s)) s).

(** [dlopen(path, RTLD_NOW | RTLD_GLOBAL)]: the handle is the path. *)
Definition dlopen (path : string) : M (option string) := fun s =>
  match objects s !! path with
  | Some _ => Ret (Some path) (set_handles (path :: handles s) s)
  | None => Ret None s
  end.

Fixpoint remove_one (h : string) (hs : list string) : list string :=
  match hs with
  | [] => []
  | x :: r => if String.eqb x h then r else x :: remove_one h r
  end.

Definition dlclose (h : string) : M unit :=
  modify (fun s => set_handles (remove_one h (handles s)) s).

Definition exports (d : dso) (sym : string) : bool :=
  if String.eqb sym "init" then bool_decide (is_Some (dso_init d))
  else if String.eqb sym "fini" then bool_decide (is_Some (dso_fini d))
  else if String.eqb sym "event_handler" then bool_decide (is_Some (dso_event_handler d))
  else false.

(** [dlsym(handle, sym)] *)
Definition dlsym (h : string) (sym : string) : M (option fnptr) :=
  gets (fun s => match objects s !! h with
                 | Some d => if exports d sym then Some (h, sym) else None
                 | None => None
                 end).

(** The calls through the three function pointers of a tuner.  A null
    pointer is a fault. *)
Definition call_init (p : option fnptr) (tuner : loc) : M Z :=
  match p with
  | None => crash NullCall
  | Some f =>
      o <- gets objects ;;
      match o !! fst f ≫= dso_init with
      | None => crash NullCall
      | Some body =>
          modify (emit (EvCall tuner "init")) ;;
          t <- load_tuner tuner ;;
          store_tuner tuner (fst (body t)) ;;
          ret (snd (body t))
      end
  end.

Definition call_fini (p : option fnptr) (tuner : loc) : M unit :=
  match p with
  | None => crash NullCall
  | Some f =>
      o <- gets objects ;;
      match o !! fst f ≫= dso_fini with
      | None => crash NullCall
      | Some body =>
          modify (emit (EvCall tuner "fini")) ;;
          t <- load_tuner tuner ;;
          store_tuner tuner (body t)
      end
  end.

Definition call_event_handler (p : option fnptr) (tuner : loc) (ev : bpftune_event)
  : M unit :=
  match p with
  | None => crash NullCall
  | Some f =>
      o <- gets objects ;;
      match o !! fst f ≫= dso_event_handler with
      | None => crash NullCall
      | Some body =>
          modify (emit (EvCall tuner "event_handler")) ;;
          t <- load_tuner tuner ;;
          store_tuner tuner (body t ev)
      end
  end.

(** ** Tunables and scenario accounting *)

(** [bpftuner_tunable(tuner, index)]: the tunable, or null. *)
Definition bpftuner_tunable (t : bpftuner) (index : nat) : option bpftunable :=
  if index <? length (tunables t) then tunables t !! index else None.

(** [row[scenario]] of a counter row. *)
Definition counter (row : gmap nat N) (scenario : nat) : N :=
  default 0%N (row !! scenario).

(** [++] on an [unsigned long]. *)
Definition ulong_incr (c : N) : N := ((c + 1) mod 2 ^ 64)%N.

Definition stats_incr (st : bpftunable_stats) (scenario : nat) (global : bool)
  : bpftunable_stats :=
  if global
  then Stats (<[scenario := ulong_incr (counter (global_ns st) scenario)]> (global_ns st))
             (nonglobal_ns st)
  else Stats (global_ns st)
             (<[scenario := ulong_incr (counter (nonglobal_ns st) scenario)]> (nonglobal_ns st)).

Definition set_stats (st : bpftunable_stats) (t : bpftunable) : bpftunable :=
  Tunable (desc t) (initial_values t) (current_values t) st.

Definition set_current_values (vs : list Z) (t : bpftunable) : bpftunable :=
  Tunable (desc t) (initial_values t) vs (stats t).

Definition set_tunables (ts : list bpftunable) (t : bpftuner) : bpftuner :=
  Tuner (handle t) (name t) (id t) (state_ t) (init t) (fini t) (event_handler t)
        (ring_buffer_map_fd t) ts (scenarios t) (netns_cookie t) (netns_next t).

Definition set_state (st : bpftune_state) (t : bpftuner) : bpftuner :=
  Tuner (handle t) (name t) (id t) st (init t) (fini t) (event_handler t)
        (ring_buffer_map_fd t) (tunables t) (scenarios t) (netns_cookie t) (netns_next t).

Definition set_id (i : nat) (t : bpftuner) : bpftuner :=
  Tuner (handle t) (name t) i (state_ t) (init t) (fini t) (event_handler t)
        (ring_buffer_map_fd t) (tunables t) (scenarios t) (netns_cookie t) (netns_next t).

Definition set_netns_next (ns : list N) (t : bpftuner) : bpftuner :=
  Tuner (handle t) (name t) (id t) (state_ t) (init t) (fini t) (event_handler t)
        (ring_buffer_map_fd t) (tunables t) (scenarios t) (netns_cookie t) ns.

(** Assignment through the pointer [bpftuner_tunable] returned. *)
Definition update_tunable (tuner : loc) (index : nat) (f : bpftunable -> bpftunable)
  : M unit :=
  tn <- load_tuner tuner ;;
  match tunables tn !! index with
  | None => crash NullDeref
  | Some t => store_tuner tuner (set_tunables (<[index := f t]> (tunables tn)) tn)
  end.

(** [bpftuner_tunable_stats_update(tunable, scenario, global_ns)], on the
    tunable [index] of [tuner]. *)
Definition bpftuner_tunable_stats_update (tuner : loc) (index scenario : nat)
    (global : bool) : M unit :=
  update_tunable tuner index (fun t => set_stats (stats_incr (stats t) scenario global) t) ;;
  tn <- load_tuner tuner ;;
  match tunables tn !! index with
  | None => crash NullDeref
  | Some t =>
      bpftune_log LOG_DEBUG " updated stat for tunable %s, scenario %d: %lu\n"
        [AStr (d_name (desc t)); AInt (Z.of_nat scenario);
         AInt (Z.of_N (if global then counter (global_ns (stats t)) scenario
                       else counter (nonglobal_ns (stats t)) scenario))]
  end.

Definition set_desc (d : bpftunable_desc) (t : bpftunable) : bpftunable :=
  Tunable d (initial_values t) (current_values t) (stats t).

Definition set_initial_values (vs : list Z) (t : bpftunable) : bpftunable :=
  Tunable (desc t) vs (current_values t) (stats t).

Definition set_scenarios (scs : list bpftunable_scenario) (t : bpftuner) : bpftuner :=
  Tuner (handle t) (name t) (id t) (state_ t) (init t) (fini t) (event_handler t)
        (ring_buffer_map_fd t) (tunables t) scs (netns_cookie t) (netns_next t).

(** One element of [calloc(num_descs, sizeof(struct bpftunable))]. *)
Definition zero_tunable : bpftunable :=
  Tunable (Desc BPFTUNABLE_OTHER EmptyString false 0)
          (replicate BPFTUNE_MAX_VALUES 0%Z) (replicate BPFTUNE_MAX_VALUES 0%Z)
          (Stats ∅ ∅).

(** The loop of [bpftuner_tunables_init] from descriptor [i] on; a failed
    read leaves the loop with its status.  The report of a wrong count
    has the format ["error reading tunable '%s'; expected %d values, got
    %d"] and the two counts as its arguments: its [%s] fetches an int. *)
Fixpoint tunables_init_loop (lg : logger) (tuner : loc) (num_descs i : nat)
    (descs : list bpftunable_desc) : M Z :=
  match descs with
  | [] => ret 0%Z
  | d :: rest =>
      bpftune_log LOG_DEBUG "handling desc %ld/%ld\n"
                  [AInt (Z.of_nat i); AInt (Z.of_nat num_descs)] ;;
      update_tunable tuner i (set_desc d) ;;
      if negb (bool_decide (d_type d = BPFTUNABLE_SYSCTL))
      then tunables_init_loop lg tuner num_descs (S i) rest
      else
        tn <- load_tuner tuner ;;
        match tunables tn !! i with
        | None => crash NullDeref
        | Some t =>
            rd <- bpftune_sysctl_read 0 (d_name d) (current_values t) ;;
            update_tunable tuner i (set_current_values (snd rd)) ;;
            let num_values := fst rd in
            if (num_values <? 0)%Z
            then bpftune_log LOG_ERR "error reading tunable '%s': %s\n"
                             [AStr (d_name d); AErr (- num_values)] ;;
                 ret num_values
            else if negb (num_values =? Z.of_nat (d_num_values d))%Z
            then bpftune_log_mismatch lg LOG_ERR
                   "error reading tunable '%s'; expected %d values, got %d\n"
                   [AInt (Z.of_nat (d_num_values d)); AInt num_values] ;;
                 ret (- EINVAL)%Z
            else
              update_tunable tuner i (fun t' => set_initial_values (current_values t') t') ;;
              tunables_init_loop lg tuner num_descs (S i) rest
        end
  end.

(** [bpftuner_tunables_init(tuner, num_descs, descs, num_scenarios,
    scenarios)]; the two counts are the lengths of the two arrays. *)
Definition bpftuner_tunables_init (lg : logger) (tuner : loc)
    (descs : list bpftunable_desc) (scenarios : list bpftunable_scenario) : M Z :=
  tn <- load_tuner tuner ;;
  store_tuner tuner (set_scenarios scenarios tn) ;;
  ok <- gets calloc_ok ;;
  if negb ok
  then bpftune_log LOG_DEBUG "no memory to alloc tunables for %s\n" [AStr (name tn)] ;;
       ret (- ENOMEM)%Z
  else
    tn <- load_tuner tuner ;;
    store_tuner tuner (set_tunables (replicate (length descs) zero_tunable) tn) ;;
    tunables_init_loop lg tuner (length descs) 0 descs.

(** [bpftuner_num_tunables(tuner)] *)
Definition bpftuner_num_tunables (tuner : loc) : M nat :=
  tn <- load_tuner tuner ;; ret (length (tunables tn)).

(** [bpftuner_tunables_fini(tuner)] *)
Definition bpftuner_tunables_fini (tuner : loc) : M unit :=
  tn <- load_tuner tuner ;; store_tuner tuner (set_tunables [] tn).

(** The text the summary builds by [snprintf(s, ..., "%ld ", v)] and
    [strcat] over the first [n] values. *)
Fixpoint format_longs (i n : nat) (vs : list Z) : string :=
  match n with
  | 0 => EmptyString
  | S n' => String.append (String.append (pretty (long_at vs i)) " ")
                          (format_longs (S i) n' vs)
  end.

(** [bpftuner_scenario_log(tuner, tunable, scenario, netns_fd, summary,
    fmt, args)].  The tunable pointer is used without a null check, and
    the scenario indexes the tuner's scenario array. *)
Definition bpftuner_scenario_log (tuner : loc) (tunable scenario : nat)
    (netns_fd : Z) (summary : bool) (fmt : string) (args : list logarg) : M unit :=
  tn <- load_tuner tuner ;;
  match bpftuner_tunable tn tunable with
  | None => crash NullDeref
  | Some t =>
      let global := (netns_fd =? 0)%Z in
      if summary then
        let count := if global then counter (global_ns (stats t)) scenario
                     else counter (nonglobal_ns (stats t)) scenario in
        if (count =? 0)%N then ret tt
        else
          match scenarios tn !! scenario with
          | None => crash OutOfBounds
          | Some sc =>
              bpftune_log LOG_INFO
                "Summary: scenario '%s' occurred %ld times for tunable '%s' in %sglobal ns. %s\n"
                [AStr (sc_name sc); AInt (Z.of_N count); AStr (d_name (desc t));
                 AStr (if global then "" else "non-"); AStr (sc_description sc)] ;;
              if decide (d_type (desc t) = BPFTUNABLE_SYSCTL)
              then bpftune_log LOG_INFO "sysctl '%s' changed from (%s) -> (%s)\n"
                     [AStr (d_name (desc t));
                      AStr (format_longs 0 (d_num_values (desc t)) (initial_values t));
                      AStr (format_longs 0 (d_num_values (desc t)) (current_values t))]
              else ret tt
          end
      else
        match scenarios tn !! scenario with
        | None => crash OutOfBounds
        | Some sc =>
            bpftune_log LOG_INFO
              "Scenario '%s' occurred for tunable '%s' in %sglobal ns. %s\n"
              [AStr (sc_name sc); AStr (d_name (desc t));
               AStr (if global then "" else "non-"); AStr (sc_description sc)] ;;
            bpftune_log LOG_INFO fmt args ;;
            bpftuner_tunable_stats_update tuner tunable scenario global
        end
  end.

(** [for (i = 0; i < n; i++) current_values[i] = values[i];] *)
Fixpoint assign_values (i n : nat) (values cur : list Z) : list Z :=
  match n with
  | 0 => cur
  | S n' => assign_values (S i) n' values (<[i := long_at values i]> cur)
  end.

(** [bpftuner_tunable_sysctl_write(tuner, tunable, scenario, netns_fd,
    num_values, values, fmt, ...)] *)
Definition bpftuner_tunable_sysctl_write (tuner : loc) (tunable scenario : nat)
    (netns_fd : Z) (num_values : nat) (values : list Z)
    (fmt : string) (args : list logarg) : M Z :=
  tn <- load_tuner tuner ;;
  match bpftuner_tunable tn tunable with
  | None =>
      bpftune_log LOG_ERR "no tunable %d for tuner '%s'\n"
                  [AInt (Z.of_nat tunable); AStr (name tn)] ;;
      ret (- EINVAL)%Z
  | Some t =>
      let fd := if d_namespaced (desc t) then netns_fd else 0%Z in
      r <- bpftune_sysctl_write fd (d_name (desc t)) num_values values ;;
      if (r =? 0)%Z
      then bpftuner_scenario_log tuner tunable scenario netns_fd false fmt args ;;
           update_tunable tuner tunable
             (fun t' => set_current_values
                          (assign_values 0 (d_num_values (desc t)) values (current_values t')) t') ;;
           ret r
      else ret r
  end.

(** [bpftuner_tunable_update(tuner, tunable, scenario, netns_fd, fmt, ...)] *)
Definition bpftuner_tunable_update (tuner : loc) (tunable scenario : nat)
    (netns_fd : Z) (fmt : string) (args : list logarg) : M Z :=
  tn <- load_tuner tuner ;;
  match bpftuner_tunable tn tunable with
  | None =>
      bpftune_log LOG_ERR "no tunable %d for tuner '%s'\n"
                  [AInt (Z.of_nat tunable); AStr (name tn)] ;;
      ret (- EINVAL)%Z
  | Some _ =>
      bpftuner_scenario_log tuner tunable scenario netns_fd false fmt args ;;
      ret 0%Z
  end.

(** ** The tuner registry *)

Definition set_loaded (h : string) (rb : Z) (i f e : option fnptr) (t : bpftuner)
  : bpftuner :=
  Tuner (Some h) (name t) (id t) (state_ t) i f e rb
        (tunables t) (scenarios t) (netns_cookie t) (netns_next t).

(** [bpftune_tuners[index] = tuner] on the static array of
    [BPFTUNE_MAX_TUNERS] slots, which is the list [bpftune_tuners] of the
    state.  C has no bounds check of its own: a store past the last slot
    is a fault. *)
Definition store_slot (index : nat) (tuner : loc) : M unit := fun s =>
  if index <? length (bpftune_tuners s)
  then Ret tt (set_bpftune_tuners (<[index := Some tuner]> (bpftune_tuners s)) s)
  else Fault OutOfBounds s.

(** [bpftuner_init(path)]: the new tuner, or null. *)
Definition bpftuner_init (path : string) : M (option loc) :=
  tuner <- calloc_tuner ;;
  match tuner with
  | None =>
      bpftune_log LOG_ERR "could not allocate tuner\n" [] ;;
      ret None
  | Some tuner =>
      h <- dlopen path ;;
      match h with
      | None =>
          bpftune_log LOG_ERR "could not dlopen '%s': %s\n" [AStr path; AStr "dlerror"] ;;
          free_tuner tuner ;;
          ret None
      | Some h =>
          rb <- gets g_ring_buffer_map_fd ;;
          i <- dlsym h "init" ;;
          f <- dlsym h "fini" ;;
          e <- dlsym h "event_handler" ;;
          t <- load_tuner tuner ;;
          store_tuner tuner (set_loaded h rb i f e t) ;;
          bpftune_log LOG_DEBUG "calling init for '%s\n" [AStr path] ;;
          err <- call_init i tuner ;;
          if negb (err =? 0)%Z
          then dlclose h ;;
               bpftune_log LOG_ERR "error initializing '%s: %s\n" [AStr path; AErr (- err)] ;;
               free_tuner tuner ;;
               ret None
          else
            n <- gets bpftune_num_tuners ;;
            t <- load_tuner tuner ;;
            store_tuner tuner (set_state BPFTUNE_ACTIVE (set_id n t)) ;;
            store_slot n tuner ;;
            modify (set_bpftune_num_tuners (S n)) ;;
            bpftune_log LOG_DEBUG "sucessfully initialized tuner %s[%d]\n"
                        [AStr (name t); AInt (Z.of_nat n)] ;;
            ret (Some tuner)
      end
  end.

(** [bpftuner_fini(tuner, state)]; [tuner] may be null. *)
Definition bpftuner_fini (tuner : option loc) (st : bpftune_state) : M unit :=
  match tuner with
  | None => ret tt
  | Some tuner =>
      tn <- load_tuner tuner ;;
      if negb (bool_decide (state_ tn = BPFTUNE_ACTIVE)) then ret tt
      else
        bpftune_log LOG_DEBUG "cleaning up tuner %s with %d tunables, %d scenarios\n"
                    [AStr (name tn); AInt (Z.of_nat (length (tunables tn)));
                     AInt (Z.of_nat (length (scenarios tn)))] ;;
        (* report summary of events for tuner *)
        for_loop 0 (length (tunables tn)) (fun i =>
          for_loop 0 (length (scenarios tn)) (fun j =>
            bpftune_log LOG_DEBUG "checking scenarios for tuner %d, scenario %d\n"
                        [AInt (Z.of_nat i); AInt (Z.of_nat j)] ;;
            bpftuner_scenario_log tuner i j 0 true "" [] ;;
            bpftuner_scenario_log tuner i j 1 true "" [])) ;;
        tn <- load_tuner tuner ;;
        match fini tn with
        | Some f => call_fini (Some f) tuner
        | None => ret tt
        end ;;
        tn <- load_tuner tuner ;;
        store_tuner tuner (set_state st tn)
  end.

(** [bpftune_tuner(index)] *)
Definition bpftune_tuner (index : nat) : M (option loc) := fun s =>
  if index <? bpftune_num_tuners s
  then match bpftune_tuners s !! index with
       | Some p => Ret p s
       | None => Fault OutOfBounds s
       end
  else Ret None s.

(** [bpftune_tuner_num()] *)
Definition bpftune_tuner_num : M nat := gets bpftune_num_tuners.

(** ** The event dispatcher *)

Section Dispatcher.

(** Two constants of libbpftune.h, which is not among the sources: the
    number of slots of [bpftune_tuners] and [sizeof(struct
    bpftune_event)]. *)
Variable BPFTUNE_MAX_TUNERS : nat.
Variable sizeof_bpftune_event : nat.

(** [bpftune_ringbuf_event_read(ctx, data, size)], the callback the ring
    buffer runs for every record. *)
Definition bpftune_ringbuf_event_read (ctx : Z) (data : bpftune_event) (size : nat)
  : M Z :=
  if size <? sizeof_bpftune_event
  then bpftune_log LOG_ERR "unexpected size event %d\n" [AInt (Z.of_nat size)] ;;
       ret 0%Z
  else if BPFTUNE_MAX_TUNERS <? tuner_id data
  then bpftune_log LOG_ERR "invalid tuner id %d\n" [AInt (Z.of_nat (tuner_id data))] ;;
       ret 0%Z
  else
    tuner <- bpftune_tuner (tuner_id data) ;;
    match tuner with
    | None =>
        bpftune_log LOG_ERR "no tuner for id %d\n" [AInt (Z.of_nat (tuner_id data))] ;;
        ret 0%Z
    | Some tuner =>
        tn <- load_tuner tuner ;;
        g <- gets global_netns_cookie ;;
        bpftune_log LOG_DEBUG "event scenario [%d] for tuner %s[%d] netns %ld (%s)\n"
          [AInt (Z.of_nat (scenario_id data)); AStr (name tn); AInt (Z.of_nat (id tn));
           AInt (Z.of_N (ev_netns_cookie data));
           AStr (if negb (ev_netns_cookie data =? 0)%N
                    && negb (ev_netns_cookie data =? g)%N
                 then "non-global netns" else "global netns")] ;;
        call_event_handler (event_handler tn) tuner data ;;
        ret 0%Z
    end.

End Dispatcher.

(** ** Per-tuner namespace state *)

(** The pointers the loop reads before the first null one. *)
Fixpoint some_prefix {A} (l : list (option A)) : list A :=
  match l with
  | Some a :: r => a :: some_prefix r
  | _ => []
  end.

(** Modelled from the spec: the macro [bpftune_for_each_tuner] is defined in
    libbpftune.h, which is not among the sources.  It iterates in
    registration order: [bpftune_tuner(0)], [bpftune_tuner(1)], ... up to
    the first null result. *)
Definition for_each_tuner (s : state) : list loc :=
  some_prefix (take (bpftune_num_tuners s) (bpftune_tuners s)).

(** Modelled from the spec: the macro [bpftuner_for_each_netns] is defined
    in libbpftune.h, which is not among the sources.  It is the linear
    scan of a tuner's namespace list, from the embedded head
    [&tuner->netns] along [next], as the two loops written out in
    libbpftune.c walk it. *)
Definition for_each_netns (t : bpftuner) : list N :=
  netns_cookie t :: netns_next t.

(** Position of the first node with that cookie. *)
Fixpoint find_netns (cookie : N) (i : nat) (nodes : list N) : option nat :=
  match nodes with
  | [] => None
  | c :: r => if (cookie =? c)%N then Some i else find_netns cookie (S i) r
  end.

(** The loop of [bpftuner_netns_from_cookie] over the registered tuners;
    a node is the tuner it belongs to and its position in the list. *)
Fixpoint netns_from_cookie_loop (tuner_id : nat) (cookie : N) (ts : list loc)
  : M (option (loc * nat)) :=
  match ts with
  | [] => ret None
  | tuner :: rest =>
      tn <- load_tuner tuner ;;
      if negb (id tn =? tuner_id) then netns_from_cookie_loop tuner_id cookie rest
      else if (cookie =? 0)%N then ret (Some (tuner, 0))
      else match find_netns cookie 0 (for_each_netns tn) with
           | Some k => ret (Some (tuner, k))
           | None => netns_from_cookie_loop tuner_id cookie rest
           end
  end.

(** [bpftuner_netns_from_cookie(tuner_id, cookie)] *)
Definition bpftuner_netns_from_cookie (tuner_id : nat) (cookie : N)
  : M (option (loc * nat)) :=
  sup <- gets netns_cookie_supported ;;
  if negb sup then ret None
  else
    ts <- gets for_each_tuner ;;
    r <- netns_from_cookie_loop tuner_id cookie ts ;;
    match r with
    | Some node => ret (Some node)
    | None =>
        bpftune_log LOG_DEBUG "no tuner netns found for tuner %d, cookie %ld\n"
                    [AInt (Z.of_nat tuner_id); AInt (Z.of_N cookie)] ;;
        ret None
    end.

(** [bpftuner_netns_init(tuner, cookie)]: the new node goes after the last
    one. *)
Definition bpftuner_netns_init (tuner : loc) (cookie : N) : M unit :=
  tn <- load_tuner tuner ;;
  r <- bpftuner_netns_from_cookie (id tn) cookie ;;
  match r with
  | Some _ => ret tt
  | None =>
      ok <- gets calloc_ok ;;
      if negb ok
      then modify (set_errno ENOMEM) ;;
           bpftune_log LOG_ERR "unable to allocate netns for bpftuner: %s\n" [AErr ENOMEM]
      else
        tn <- load_tuner tuner ;;
        store_tuner tuner (set_netns_next (netns_next tn ++ [cookie]) tn)
  end.

(** The chain without its first node of that cookie, if there is one. *)
Fixpoint unlink_first (cookie : N) (nodes : list N) : option (list N) :=
  match nodes with
  | [] => None
  | c :: r => if (c =? cookie)%N then Some r
              else match unlink_first cookie r with
                   | Some r' => Some (c :: r')
                   | None => None
                   end
  end.

(** [bpftuner_netns_fini(tuner, cookie)]: a match on the embedded head
    assigns [tuner->netns.next] to itself. *)
Definition bpftuner_netns_fini (tuner : loc) (cookie : N) : M unit :=
  sup <- gets netns_cookie_supported ;;
  if negb sup then ret tt
  else
    tn <- load_tuner tuner ;;
    if (netns_cookie tn =? cookie)%N then store_tuner tuner tn
    else match unlink_first cookie (netns_next tn) with
         | Some r => store_tuner tuner (set_netns_next r tn)
         | None =>
             bpftune_log LOG_DEBUG "netns_fini: could not find netns for cookie %ld\n"
                         [AInt (Z.of_N cookie)]
         end.

(** ** Namespace discovery *)

(** More of <errno.h>. *)
Definition ENOPROTOOPT : Z := 92.

(** An entry of /proc/mounts as [getmntent] gives it, with what
    [open(mnt_dir, O_RDONLY)] does: it fails with an errno, or gives a
    descriptor of a network namespace.  Every nsfs mount that can be
    opened is taken to be one of a network namespace. *)
Record mntent := Mntent {
  mnt_type : string;
  mnt_dir : string;
  mnt_open : Z + netns
}.

(** An entry of /proc as [readdir] gives it: a name that [strtol] reads
    to its end as the decimal number of a process, or any other name. *)
Inductive dirent := DPid (pid : positive) | DOther (d_name : string).

(** What the kernel shows to the discovery of namespaces; none of it
    changes while libbpftune.c runs. *)
Record kernel := Kernel {
  k_getpid : positive;                 (* getpid() *)
  k_open_pid : positive -> Z + netns;  (* open("/proc/<pid>/ns/net"): errno or namespace *)
  k_mounts : Z + list mntent;          (* setmntent("/proc/mounts"): errno or the entries *)
  k_proc : Z + list dirent;            (* opendir("/proc"): errno or the entries *)
  k_socket : netns -> Z;               (* socket() in a namespace: 0 or the errno *)
  k_cookie : netns -> option N;        (* SO_NETNS_COOKIE of a namespace, if supported *)
  k_indeterminate : N                  (* what an uninitialised unsigned long holds *)
}.

Definition set_netns_cookie_supported (v : bool) (s : state) : state :=
  State (cur_netns s) (fds s) (next_fd s) (self_ns_ok s) (files s) (errno s) (objects s)
        (handles s) (calloc_ok s) (heap s) (next_loc s) (g_ring_buffer_map_fd s)
        (bpftune_tuners s) (bpftune_num_tuners s) v
        (global_netns_cookie s) (trace s).

Definition set_global_netns_cookie (v : N) (s : state) : state :=
  State (cur_netns s) (fds s) (next_fd s) (self_ns_ok s) (files s) (errno s) (objects s)
        (handles s) (calloc_ok s) (heap s) (next_loc s) (g_ring_buffer_map_fd s)
        (bpftune_tuners s) (bpftune_num_tuners s) (netns_cookie_supported s)
        v (trace s).

(** [for (each x of l) body(x)] *)
Fixpoint for_each {A} (l : list A) (body : A -> M unit) : M unit :=
  match l with
  | [] => ret tt
  | x :: r => body x ;; for_each r body
  end.

Section Discovery.

Variable k : kernel.
Variable lg : logger.

(** [socket(AF_INET, SOCK_STREAM, 0)] in the namespace the thread is in.
    The descriptor table of the state holds namespace descriptors; a
    socket takes a descriptor number and no entry. *)
Definition sys_socket : M Z := fun s =>
  if (k_socket k (cur_netns s) =? 0)%Z
  then Ret (next_fd s) (set_next_fd (next_fd s + 1) s)
  else Ret (-1)%Z (set_errno (k_socket k (cur_netns s)) s).

(** [getsockopt(s, SOL_SOCKET, SO_NETNS_COOKIE, &netns_cookie, ...)] on a
    socket just opened in the namespace the thread is in: the status and
    the cookie it stored, if it stored one.  A kernel without the option
    fails the call with [ENOPROTOOPT]. *)
Definition sys_getsockopt_netns_cookie : M (Z * option N) := fun s =>
  match k_cookie k (cur_netns s) with
  | Some c => Ret (0%Z, Some c) s
  | None => Ret ((-1)%Z, None) (set_errno ENOPROTOOPT s)
  end.

(** [close(s)] of a socket. *)
Definition sys_close_socket (fd : Z) : M unit := ret tt.

(** [open("/proc/<pid>/ns/net", O_RDONLY)] *)
Definition sys_open_pid_ns (pid : Z) : M Z := fun s =>
  match pid with
  | Zpos p =>
      match k_open_pid k p with
      | inr ns => Ret (next_fd s)
                      (set_next_fd (next_fd s + 1) (set_fds (<[next_fd s := ns]> (fds s)) s))
      | inl e => Ret (-1)%Z (set_errno e s)
      end
  | _ => Ret (-1)%Z (set_errno ENOENT s)
  end.

(** [setmntent("/proc/mounts", "r")] and [opendir("/proc")]: the entries,
    or the errno.  The stream and the directory take a descriptor number
    and no entry in the table of namespace descriptors, as a socket
    does; [endmntent] and [closedir] change nothing in that table. *)
Definition sys_setmntent : M (Z + list mntent) := fun s =>
  match k_mounts k with
  | inr ents => Ret (inr ents) (set_next_fd (next_fd s + 1) s)
  | inl e => Ret (inl e) (set_errno e s)
  end.

Definition sys_opendir : M (Z + list dirent) := fun s =>
  match k_proc k with
  | inr ents => Ret (inr ents) (set_next_fd (next_fd s + 1) s)
  | inl e => Ret (inl e) (set_errno e s)
  end.

(** [open(ent->mnt_dir, O_RDONLY)] *)
Definition sys_open_mnt (ent : mntent) : M Z := fun s =>
  match mnt_open ent with
  | inr ns => Ret (next_fd s)
                  (set_next_fd (next_fd s + 1) (set_fds (<[next_fd s := ns]> (fds s)) s))
  | inl e => Ret (-1)%Z (set_errno e s)
  end.

(** [bpftune_netns_cookie_supported()] *)
Definition bpftune_netns_cookie_supported : M bool :=
  s <- sys_socket ;;
  if (s <? 0)%Z
  then e <- gets errno ;;
       bpftune_log LOG_ERR "could not open socket: %s\n" [AErr e] ;;
       ret false
  else
    r <- sys_getsockopt_netns_cookie ;;
    sys_close_socket s ;;
    if (fst r <? 0)%Z
    then bpftune_log LOG_DEBUG
           "netns cookie not supported, cannot monitor per-netns events\n" [] ;;
         ret false
    else ret true.

(** [bpftune_netns_fd(netns_pid)] *)
Definition bpftune_netns_fd (netns_pid : Z) : M Z :=
  if (netns_pid =? 0)%Z then ret 0%Z
  else
    netns_fd <- sys_open_pid_ns netns_pid ;;
    if (netns_fd <? 0)%Z
    then e <- gets errno ;; ret (- e)%Z
    else ret netns_fd.

(** [bpftune_netns_info(pid, fd, cookie)].  A pointer argument is [None]
    when null and else what it points to; the result is the status and
    what [*fd] and [*cookie] hold afterwards.  The local [netns_cookie]
    is assigned by [getsockopt] on every path that reads it. *)
Definition bpftune_netns_info (pid : Z) (fd : option Z) (cookie : option N)
  : M (Z * option Z * option N) :=
  let reuse := (pid =? 0)%Z && match fd with Some v => (0 <? v)%Z | None => false end in
  netns_fd <- (if reuse then ret (default 0%Z fd) else bpftune_netns_fd pid) ;;
  if negb reuse && (netns_fd <=? 0)%Z then ret (netns_fd, fd, cookie)
  else
    let fdnew := negb reuse in
    so <- bpftune_netns_set netns_fd true ;;
    let err := fst so in
    let orig_netns_fd := snd so in
    r <- (if (err =? 0)%Z
          then
            s <- sys_socket ;;
            r <- (if (s <? 0)%Z
                  then e <- gets errno ;;
                       bpftune_log LOG_ERR "could not open socket in netns: %s\n" [AErr e] ;;
                       ret ((- e)%Z, None)
                  else
                    g <- sys_getsockopt_netns_cookie ;;
                    r <- (if (fst g <? 0)%Z
                          then e <- gets errno ;;
                               bpftune_log LOG_DEBUG "could not get SO_NETNS_COOKIE: %s\n"
                                           [AErr e] ;;
                               ret (- e)%Z
                          else ret (fst g)) ;;
                    sys_close_socket s ;;
                    ret (r, snd g)) ;;
            bpftune_netns_set orig_netns_fd false ;;
            ret r
          else
            bpftune_log LOG_DEBUG "setns failed for for fd %d\n" [AInt netns_fd] ;;
            e <- gets errno ;;
            ret ((- e)%Z, None)) ;;
    let ret_ := fst r in
    let fd' := if (ret_ =? 0)%Z && fdnew
               then match fd with Some _ => Some netns_fd | None => None end
               else fd in
    let cookie' := if (ret_ =? 0)%Z
                   then match cookie, snd r with
                        | Some _, Some c => Some c
                        | _, _ => cookie
                        end
                   else cookie in
    (if fdnew && negb (bool_decide (is_Some fd)) then sys_close netns_fd else ret tt) ;;
    (if (0 <? orig_netns_fd)%Z then sys_close orig_netns_fd else ret tt) ;;
    ret (ret_, fd', cookie').

(** [bpftune_for_each_tuner(t) bpftuner_netns_init(t, netns_cookie);] *)
Definition netns_init_each (netns_cookie : N) : M unit :=
  ts <- gets for_each_tuner ;;
  for_each ts (fun t => bpftuner_netns_init t netns_cookie).

(** The loop of [bpftune_netns_find] over the entries of /proc/mounts,
    with the locals [ret] and [netns_cookie] as they stand: a descriptor
    when the loop returns from the function, and else the locals at its
    end.  The report of a mount that was found has three conversions,
    ["found netns fd %d for cookie %ld via mnt %s"], and two arguments,
    the cookie and the mount point: its [%s] fetches an argument that
    was not passed. *)
Fixpoint find_in_mounts (cookie : N) (ents : list mntent) (ret_ : Z) (netns_cookie : N)
  : M (option Z * Z * N) :=
  match ents with
  | [] => ret (None, ret_, netns_cookie)
  | ent :: rest =>
      if negb (String.eqb (mnt_type ent) "nsfs")
      then find_in_mounts cookie rest ret_ netns_cookie
      else
        bpftune_log LOG_DEBUG "checking nsfs mnt %s\n" [AStr (mnt_dir ent)] ;;
        mntfd <- sys_open_mnt ent ;;
        if (mntfd <? 0)%Z then find_in_mounts cookie rest ret_ netns_cookie
        else
          info <- bpftune_netns_info 0 (Some mntfd) (Some netns_cookie) ;;
          let mntfd := default mntfd (snd (fst info)) in
          let netns_cookie := default netns_cookie (snd info) in
          if negb (fst (fst info) =? 0)%Z
          then sys_close mntfd ;; find_in_mounts cookie rest ret_ netns_cookie
          else
            bpftune_log_mismatch lg LOG_DEBUG
              "found netns fd %d for cookie %ld via mnt %s\n"
              [AInt (Z.of_N netns_cookie); AStr (mnt_dir ent)] ;;
            if (cookie =? 0)%N
            then sys_close mntfd ;;
                 netns_init_each netns_cookie ;;
                 find_in_mounts cookie rest 0%Z netns_cookie
            else ret (Some mntfd, mntfd, netns_cookie)
  end.

(** The loop over the entries of /proc; [netns_fd] is a local of the
    loop body, which [bpftune_netns_info] does not read for a pid other
    than 0. *)
Fixpoint find_in_proc (cookie : N) (ents : list dirent) (ret_ : Z) (netns_cookie : N)
  : M Z :=
  match ents with
  | [] => ret ret_
  | DOther _ :: rest => find_in_proc cookie rest ret_ netns_cookie
  | DPid pid :: rest =>
      info <- bpftune_netns_info (Zpos pid) (Some 0%Z) (Some netns_cookie) ;;
      let netns_fd := default 0%Z (snd (fst info)) in
      let netns_cookie := default netns_cookie (snd info) in
      if negb (fst (fst info) =? 0)%Z
      then find_in_proc cookie rest ret_ netns_cookie
      else if (cookie =? 0)%N
      then sys_close netns_fd ;;
           netns_init_each netns_cookie ;;
           find_in_proc cookie rest ret_ netns_cookie
      else if (netns_cookie =? cookie)%N
      then bpftune_log LOG_DEBUG "found netns fd %d for cookie %ld via pid %d\n"
                       [AInt netns_fd; AInt (Z.of_N netns_cookie); AInt (Zpos pid)] ;;
           ret netns_fd
      else sys_close netns_fd ;;
           find_in_proc cookie rest ret_ netns_cookie
  end.

(** [bpftune_netns_find(cookie)] *)
Definition bpftune_netns_find (cookie : N) : M Z :=
  sup <- gets netns_cookie_supported ;;
  g <- gets global_netns_cookie ;;
  if negb sup || (cookie =? 0)%N || (negb (g =? 0)%N && (cookie =? g)%N)
  then ret 0%Z
  else
    mounts <- sys_setmntent ;;
    match mounts with
    | inl e =>
        bpftune_log LOG_ERR "cannot setmntent() for /proc/mounts\n" [AErr e] ;;
        ret (- e)%Z
    | inr mounts =>
        m <- find_in_mounts cookie mounts (- ENOENT)%Z (k_indeterminate k) ;;
        match fst (fst m) with
        | Some fd => ret fd
        | None =>
            dir <- sys_opendir ;;
            match dir with
            | inl e =>
                bpftune_log LOG_ERR "could not open /proc: %s\n" [AErr e] ;;
                ret (- e)%Z
            | inr ents => find_in_proc cookie ents (snd (fst m)) (snd m)
            end
        end
    end.

(** [bpftune_netns_fd_from_cookie(cookie)] *)
Definition bpftune_netns_fd_from_cookie (cookie : N) : M Z :=
  bpftune_netns_find cookie.

(** [bpftune_netns_init_all()] *)
Definition bpftune_netns_init_all : M Z :=
  sup <- bpftune_netns_cookie_supported ;;
  modify (set_netns_cookie_supported sup) ;;
  if negb sup then ret 0%Z
  else
    info <- bpftune_netns_info (Zpos (k_getpid k)) None (Some (k_indeterminate k)) ;;
    (if (fst (fst info) =? 0)%Z
     then modify (set_global_netns_cookie (default (k_indeterminate k) (snd info))) ;;
          bpftune_log LOG_DEBUG "global netns cookie is %ld\n"
                      [AInt (Z.of_N (default (k_indeterminate k) (snd info)))]
     else ret tt) ;;
    bpftune_netns_find 0%N.

End Discovery.

(** ** The ring buffer *)








(** * Definitions for the statements *)

(** ** Reading the trace *)

(** The calls into module code (init, fini, event_handler) a trace holds. *)
Definition is_call (e : event) : bool :=
  match e with EvCall _ _ => true | _ => false end.

Definition calls (tr : list event) : list event := filter is_call tr.

(** The [fopen(path, "w")] calls, successful or not, a trace holds. *)
Definition is_open_w (e : event) : bool :=
  match e with EvFopen _ m _ => String.eqb m "w" | _ => false end.

Definition opens_for_write (tr : list event) : nat := length (filter is_open_w tr).

(** The error-level log calls a trace holds. *)
Definition is_error_log (e : event) : bool :=
  match e with EvLog l _ _ => (l =? LOG_ERR)%Z | _ => false end.

(** ** The dispatcher drops what it cannot route *)

(** The error line with which [bpftune_ringbuf_event_read] drops a record
    it cannot route. *)
Definition drop_log (max_tuners sizeof_event : nat) (data : bpftune_event) (size : nat)
  : event :=
  if size <? sizeof_event
  then EvLog LOG_ERR "unexpected size event %d\n" [AInt (Z.of_nat size)]
  else if max_tuners <? tuner_id data
  then EvLog LOG_ERR "invalid tuner id %d\n" [AInt (Z.of_nat (tuner_id data))]
  else EvLog LOG_ERR "no tuner for id %d\n" [AInt (Z.of_nat (tuner_id data))].

(** ** Example states *)

(** A state for the examples: one namespace besides the global one behind
    descriptor 5, the sysctl [net.ipv4.tcp_rmem] in both, one tuner with
    one namespaced tunable and one scenario registered at slot 0 of a
    two-slot registry. *)
Definition rmem_desc : bpftunable_desc :=
  Desc BPFTUNABLE_SYSCTL "net.ipv4.tcp_rmem" true 3.

Definition rmem_tunable : bpftunable :=
  Tunable rmem_desc [1; 1; 1]%Z [1; 1; 1]%Z (Stats {[ 0 := 2%N ]} ∅).

Definition demo_dso : dso :=
  Dso (Some (fun t => (t, 0%Z))) (Some (fun t => t)) (Some (fun t _ => t)).

(** A module that exports [init] and [event_handler] and no [fini], and
    one that exports no [init]. *)
Definition nofini_dso : dso :=
  Dso (Some (fun t => (t, 0%Z))) None (Some (fun t _ => t)).

Definition noinit_dso : dso :=
  Dso None (Some (fun t => t)) (Some (fun t _ => t)).

Definition demo_tuner : bpftuner :=
  {| handle := Some "tcp_buffer_tuner.so"; name := "tcp_buffer"; id := 0;
     state_ := BPFTUNE_ACTIVE;
     init := Some ("tcp_buffer_tuner.so", "init");
     fini := Some ("tcp_buffer_tuner.so", "fini");
     event_handler := Some ("tcp_buffer_tuner.so", "event_handler");
     ring_buffer_map_fd := 0;
     tunables := [rmem_tunable];
     scenarios := [Scenario "need to increase TCP buffer size(s)" "raise the limit"];
     netns_cookie := 0%N; netns_next := [] |}.

Definition demo_state : state :=
  {| cur_netns := 0; fds := {[ 5%Z := 1 ]}; next_fd := 6; self_ns_ok := true;
     files := {[ (0, "/proc/sys/net/ipv4/tcp_rmem") := SysFile [TNum 1; TNum 1; TNum 1] true;
                 (1, "/proc/sys/net/ipv4/tcp_rmem") := SysFile [TNum 1; TNum 1; TNum 1] true ]};
     errno := 0;
     objects := {[ "tcp_buffer_tuner.so" := demo_dso;
                   "sysctl_tuner.so" := nofini_dso;
                   "neigh_table_tuner.so" := noinit_dso ]};
     handles := ["tcp_buffer_tuner.so"];
     calloc_ok := true;
     heap := {[ 1 := demo_tuner ]};
     next_loc := 2;
     g_ring_buffer_map_fd := 0;
     bpftune_tuners := [Some 1; None];
     bpftune_num_tuners := 1;
     netns_cookie_supported := true;
     global_netns_cookie := 0%N;
     trace := [] |}.

(** ** Unload: the summary report *)

(** The counter of one bucket of a tunable. *)
Definition bucket_count (t : bpftunable) (scenario : nat) (global : bool) : N :=
  if global then counter (global_ns (stats t)) scenario
  else counter (nonglobal_ns (stats t)) scenario.

(** The summary of tunable [i], scenario [j] and one scope: nothing when
    the counter is zero, else the count line and, for a sysctl, the line
    comparing initial and current values. *)
Definition summary_of (tn : bpftuner) (i j : nat) (global : bool) : list event :=
  match tunables tn !! i, scenarios tn !! j with
  | Some t, Some sc =>
      if (bucket_count t j global =? 0)%N then []
      else
        EvLog LOG_INFO
          "Summary: scenario '%s' occurred %ld times for tunable '%s' in %sglobal ns. %s\n"
          [AStr (sc_name sc); AInt (Z.of_N (bucket_count t j global));
           AStr (d_name (desc t)); AStr (if global then "" else "non-");
           AStr (sc_description sc)]
        :: (if decide (d_type (desc t) = BPFTUNABLE_SYSCTL)
            then [EvLog LOG_INFO "sysctl '%s' changed from (%s) -> (%s)\n"
                    [AStr (d_name (desc t));
                     AStr (format_longs 0 (d_num_values (desc t)) (initial_values t));
                     AStr (format_longs 0 (d_num_values (desc t)) (current_values t))]]
            else [])
  | _, _ => []
  end.

(** What unload reports: tunables in index order, for each the scenarios
    in index order, for each the global bucket and then the non-global
    one. *)
Definition unload_report (tn : bpftuner) : list event :=
  flat_map
    (fun i =>
       flat_map
         (fun j =>
            EvLog LOG_DEBUG "checking scenarios for tuner %d, scenario %d\n"
                  [AInt (Z.of_nat i); AInt (Z.of_nat j)]
            :: summary_of tn i j true ++ summary_of tn i j false)
         (seq 0 (length (scenarios tn))))
    (seq 0 (length (tunables tn))).

(** The call of the tuner's [fini], when it has one: the tuner afterwards
    and the call recorded. [None] if the pointer does not resolve. *)
Definition fini_call (s : state) (l : loc) (tn : bpftuner)
  : option (bpftuner * list event) :=
  match fini tn with
  | None => Some (tn, [])
  | Some f =>
      match objects s !! fst f ≫= dso_fini with
      | Some body => Some (body tn, [EvCall l "fini"])
      | None => None
      end
  end.

(** ** Results of a run *)

Definition returned {A} (r : result A) : option A :=
  match r with Ret a _ => Some a | Fault _ _ => None end.

Definition final_state {A} (r : result A) : state :=
  match r with Ret _ s => s | Fault _ s => s end.

Definition faulted {A} (r : result A) : option fault :=
  match r with Ret _ _ => None | Fault f _ => Some f end.

(** ** The write path and [current_values] *)

(** The example state with the sysctl of the global namespace read-only. *)
Definition readonly_state : state :=
  set_files (<[(0, "/proc/sys/net/ipv4/tcp_rmem")
               := SysFile [TNum 1; TNum 1; TNum 1] false]> (files demo_state))
            demo_state.

Definition tunable_at (s : state) (tuner : loc) (index : nat) : option bpftunable :=
  heap s !! tuner ≫= fun t => tunables t !! index.

(** ** What the read path returns *)

(** The debug lines of a successful read. *)
Definition read_logs (name : string) (values : list Z) (n : Z) : list event :=
  map (fun i => EvLog LOG_DEBUG "Read %s[%d] = %ld\n"
                  [AStr name; AInt (Z.of_nat i); AInt (long_at values i)])
      (seq 0 (Z.to_nat n)).

(** ** Loading tuners *)

(** The tuner structure [bpftuner_init] hands to the module's [init]: the
    zeroed allocation with the handle, the shared ring-buffer descriptor
    and the three symbols filled in. *)
Definition loaded_tuner (s : state) (path : string) (d : dso) : bpftuner :=
  set_loaded path (g_ring_buffer_map_fd s)
    (if exports d "init" then Some (path, "init") else None)
    (if exports d "fini" then Some (path, "fini") else None)
    (if exports d "event_handler" then Some (path, "event_handler") else None)
    zero_tuner.

(** The example registry with both of its slots taken. *)
Definition full_state : state :=
  set_next_loc 3
    (set_heap (<[2 := set_id 1 demo_tuner]> (heap demo_state))
       (set_bpftune_num_tuners 2
          (set_bpftune_tuners [Some 1; Some 2] demo_state))).

(** ** Cookies of a tuner's namespace list *)

(** No two nodes of a tuner's namespace list carry the same cookie. *)
Definition netns_unique (s : state) : Prop :=
  forall l tn, heap s !! l = Some tn -> NoDup (for_each_netns tn).

(** The registered tuners are allocated and carry distinct ids. *)
Definition registry_ok (s : state) : Prop :=
  (forall l, l ∈ for_each_tuner s -> is_Some (heap s !! l))
  /\ (forall l1 l2 t1 t2,
        l1 ∈ for_each_tuner s -> l2 ∈ for_each_tuner s ->
        heap s !! l1 = Some t1 -> heap s !! l2 = Some t2 ->
        id t1 = id t2 -> l1 = l2).

(** The operations on namespace lists. *)
Inductive netns_op :=
| NetnsInit (tuner : loc) (cookie : N)
| NetnsFini (tuner : loc) (cookie : N).

Definition op_tuner (op : netns_op) : loc :=
  match op with NetnsInit l _ => l | NetnsFini l _ => l end.

Definition run_op (op : netns_op) : M unit :=
  match op with
  | NetnsInit l c => bpftuner_netns_init l c
  | NetnsFini l c => bpftuner_netns_fini l c
  end.

Fixpoint run_ops (ops : list netns_op) : M unit :=
  match ops with
  | [] => ret tt
  | op :: rest => run_op op ;; run_ops rest
  end.

(** The example state before [bpftune_netns_init_all] has found cookie
    support: [netns_cookie_supported] is still false. *)
Definition unsupported_state : state :=
  State (cur_netns demo_state) (fds demo_state) (next_fd demo_state)
        (self_ns_ok demo_state) (files demo_state) (errno demo_state)
        (objects demo_state) (handles demo_state) (calloc_ok demo_state)
        (heap demo_state) (next_loc demo_state) (g_ring_buffer_map_fd demo_state)
        (bpftune_tuners demo_state) (bpftune_num_tuners demo_state) false
        (global_netns_cookie demo_state) (trace demo_state).

(** The invariant the operations keep: cookie support is on, the walk
    over the registered tuners is [ts], the registry is consistent and
    cookies are unique. *)
Definition netns_inv (ts : list loc) (s : state) : Prop :=
  netns_cookie_supported s = true
  /\ for_each_tuner s = ts
  /\ registry_ok s
  /\ netns_unique s.

(** ** Idempotent writes *)

(** The path of a sysctl, as both the read and the write path compute it
    into their 512-byte buffer. *)
Definition sysctl_path (name : string) : string :=
  bpftune_sysctl_name_to_path name 512.

(** Descriptors are positive and below the next one to be handed out. *)
Definition wf_fds (s : state) : Prop :=
  (0 < next_fd s)%Z /\ forall fd ns, fds s !! fd = Some ns -> (fd < next_fd s)%Z.

(** The namespace a call with [netns_fd] operates in: the current one for
    0, else the one behind the descriptor, provided the switch can be
    made. *)
Definition target_netns (s : state) (netns_fd : Z) : option netns :=
  if (netns_fd =? 0)%Z then Some (cur_netns s)
  else if self_ns_ok s then fds s !! netns_fd
  else None.

(** The values a scan of the sysctl shows in a namespace, when it shows
    any. *)
Definition readable (s : state) (ns : netns) (path : string) : option (list Z) :=
  match files s !! (ns, path) with
  | Some f => if (0 <? fst (fscanf3 (f_content f)))%Z
              then Some (snd (fscanf3 (f_content f)))
              else None
  | None => None
  end.

(** What the read path logs after the scan, for the count [n] and the
    errno [e] found then. *)
Definition scan_logs (name path : string) (values : list Z) (n e : Z) : list event :=
  if negb ((if (n =? 0)%Z then (- ENOENT)%Z else if (n <? 0)%Z then (- e)%Z else 0%Z) =? 0)%Z
  then [EvLog LOG_ERR "could not read from %s: %s\n"
          [AStr path;
           AErr (- (if (n =? 0)%Z then (- ENOENT)%Z
                    else if (n <? 0)%Z then (- e)%Z else 0%Z))]]
  else read_logs name values n.

(** The state after a successful switch into the namespace behind
    [new_fd], and after the switch back through [orig]. *)
Definition entered (new_fd : Z) (ns : netns) (s : state) : state :=
  emit (EvSetns new_fd true)
    (set_cur_netns ns
       (set_next_fd (next_fd s + 1)
          (set_fds (<[next_fd s := cur_netns s]> (fds s)) s))).

Definition restored (orig : Z) (ns : netns) (s : state) : state :=
  emit (EvSetns orig true) (set_cur_netns ns (set_next_fd (next_fd s + 1) s)).

(** The part of [bpftune_sysctl_write] after the switch succeeded. *)
Definition write_after_switch (name : string) (num_values : nat) (values : list Z)
    (orig_netns_fd : Z) : M Z :=
  let path := bpftune_sysctl_name_to_path name 512 in
  let out : M Z := (bpftune_netns_set orig_netns_fd false ;; ret 0%Z) in
  rd <- bpftune_sysctl_read 0 name (replicate BPFTUNE_MAX_VALUES 0%Z) ;;
  let old_num_values := fst rd in
  let old_values := snd rd in
  if (old_num_values <? 0)%Z then out
  else if (Z.of_nat num_values =? old_num_values)%Z
          && (mismatch_from 0 num_values old_values values =? num_values)
  then ret 0%Z
  else
    fp <- sys_fopen_w path ;;
    match fp with
    | None =>
        e <- gets errno ;;
        bpftune_log LOG_DEBUG "could not open %s for writing: %s\n"
                    [AStr path; AErr e] ;;
        out
    | Some fp =>
        for_loop 0 num_values (fun i => sys_fprintf_ld fp (long_at values i)) ;;
        for_loop 0 num_values
          (fun i => bpftune_log LOG_DEBUG "Wrote %s[%d] = %ld\n"
                      [AStr name; AInt (Z.of_nat i); AInt (long_at values i)]) ;;
        out
    end.

(** *** The write itself *)

(** The debug lines after the values went out. *)
Definition wrote_logs (name : string) (num_values : nat) (values : list Z) : list event :=
  map (fun i => EvLog LOG_DEBUG "Wrote %s[%d] = %ld\n"
                  [AStr name; AInt (Z.of_nat i); AInt (long_at values i)])
      (seq 0 num_values).

(** The state after the sysctl [f] of the current namespace was read,
    opened for writing and given the first [num_values] of [values]. *)
Definition written (name : string) (num_values : nat) (values : list Z)
    (f : sysfile) (s : state) : state :=
  emits (EvFopen (sysctl_path name) "r" true
         :: scan_logs name (sysctl_path name)
              (store_prefix (snd (fscanf3 (f_content f))) (replicate BPFTUNE_MAX_VALUES 0%Z))
              (fst (fscanf3 (f_content f))) (errno s)
         ++ EvFopen (sysctl_path name) "w" true
         :: map (fun i => EvFprintf (sysctl_path name) (long_at values i)) (seq 0 num_values)
         ++ wrote_logs name num_values values)
    (set_files (<[(cur_netns s, sysctl_path name)
                  := SysFile (map TNum (take num_values values)) true]> (files s)) s).

(** *** What the kernel shows after a write

    The files of the model are regular files.  A sysctl is not one: what it
    shows after a write is the kernel's answer (a vector such as
    [net.ipv4.tcp_rmem] keeps its three components when one value is
    written, a value may be clamped).  [kernel_shows ns path f s] is the
    state in which the sysctl [path] of the namespace [ns] shows [f]; a
    statement about a write followed by another call is made for what the
    kernel shows in between. *)
Definition kernel_shows (ns : netns) (path : string) (f : sysfile) (s : state) : state :=
  set_files (<[(ns, path) := f]> (files s)) s.

(** The example state after one value, 5, was written to
    [net.ipv4.tcp_rmem] of the global namespace, with what the kernel
    shows then: the vector with its first component replaced. *)
Definition after_partial_write : state :=
  kernel_shows 0 "/proc/sys/net/ipv4/tcp_rmem" (SysFile [TNum 5; TNum 1; TNum 1] true)
    (final_state (bpftune_sysctl_write 0 "net.ipv4.tcp_rmem" 1 [5]%Z demo_state)).

(** ** Frames: what a run leaves alone *)

(** [keeps R c]: every run of [c] relates the state it starts in to the
    state it ends in, whether it returns or stops with a fault. *)
Definition keeps {A} (R : state -> state -> Prop) (c : M A) : Prop :=
  forall s, R s (final_state (c s)).

(** The part [p] of the state is the same before and after. *)
Definition unchanged {X} (p : state -> X) : state -> state -> Prop :=
  fun s s' => p s' = p s.

(** The [setns] calls and the [fopen] calls, successful or not, a trace
    holds. *)
Definition is_setns (e : event) : bool :=
  match e with EvSetns _ _ => true | _ => false end.

Definition setns_calls (tr : list event) : list event := filter is_setns tr.

Definition is_fopen (e : event) : bool :=
  match e with EvFopen _ _ _ => true | _ => false end.

Definition fopen_calls (tr : list event) : list event := filter is_fopen tr.

(** ** Namespace descriptors *)

(** Descriptors are well formed and none is 0 or negative: 0 is what the
    code passes for "the namespace the thread is in", and a failed [open]
    gives -1. *)
Definition fds_ok (s : state) : Prop :=
  wf_fds s /\ forall fd ns, fds s !! fd = Some ns -> (0 < fd)%Z.

(** What [bpftune_sysctl_read] gives for the sysctl file it finds, or does
    not find, into the caller's buffer [buf]. *)
Definition read_result (f : option sysfile) (buf : list Z) : Z * list Z :=
  match f with
  | None => (0%Z, buf)
  | Some f => (fst (fscanf3 (f_content f)),
               store_prefix (snd (fscanf3 (f_content f))) buf)
  end.

(** The part of [bpftune_sysctl_read] after the switch, which left [err];
    it is 0 when the switch succeeded. *)
Definition read_after_switch (name : string) (values : list Z) (netns_fd : Z)
    (err : Z) (orig_netns_fd : Z) : M (Z * list Z) :=
  let path := bpftune_sysctl_name_to_path name 512 in
  fp <- sys_fopen_r path ;;
  r <- match fp with
       | None =>
           e <- gets errno ;;
           bpftune_log LOG_ERR "could not open %s (netns fd %d) for reading: %s\n"
                       [AStr path; AInt netns_fd; AErr e] ;;
           ret (0%Z, values)
       | Some content =>
           let num_values := fst (fscanf3 content) in
           let values' := store_prefix (snd (fscanf3 content)) values in
           e <- gets errno ;;
           let err := if (num_values =? 0)%Z then (- ENOENT)%Z
                      else if (num_values <? 0)%Z then (- e)%Z
                      else err in
           if negb (err =? 0)%Z
           then bpftune_log LOG_ERR "could not read from %s: %s\n"
                            [AStr path; AErr (- err)] ;;
                ret (num_values, values')
           else for_loop 0 (Z.to_nat num_values)
                  (fun i => bpftune_log LOG_DEBUG "Read %s[%d] = %ld\n"
                              [AStr name; AInt (Z.of_nat i); AInt (long_at values' i)]) ;;
                ret (num_values, values')
       end ;;
  bpftune_netns_set orig_netns_fd false ;;
  ret r.

(** ** Occurrences *)


(** What the thread, its descriptors and the [setns] calls made look
    like. *)
Definition ns_view (s : state) : netns * gmap Z netns * list event :=
  (cur_netns s, fds s, setns_calls (trace s)).

(** ** Registration of tunables *)

(** What a read of the descriptor's sysctl gives in the namespace the
    thread is in, into a zeroed buffer: the count and the buffer. *)
Definition kernel_reading (s : state) (d : bpftunable_desc) : Z * list Z :=
  read_result (files s !! (cur_netns s, sysctl_path (d_name d)))
    (replicate BPFTUNE_MAX_VALUES 0%Z).

(** The descriptor can be registered: it is no sysctl, or the sysctl
    shows as many values as the descriptor declares. *)
Definition registrable (s : state) (d : bpftunable_desc) : Prop :=
  d_type d = BPFTUNABLE_SYSCTL -> fst (kernel_reading s d) = Z.of_nat (d_num_values d).

(** The tunable registration makes of a descriptor: the values the kernel
    shows as both initial and current values, counters at zero. *)
Definition registered (s : state) (d : bpftunable_desc) : bpftunable :=
  Tunable d
    (if decide (d_type d = BPFTUNABLE_SYSCTL) then snd (kernel_reading s d)
     else replicate BPFTUNE_MAX_VALUES 0%Z)
    (if decide (d_type d = BPFTUNABLE_SYSCTL) then snd (kernel_reading s d)
     else replicate BPFTUNE_MAX_VALUES 0%Z)
    (Stats ∅ ∅).

(** The tunable of a sysctl descriptor at which registration stopped: the
    descriptor and what the read left in the current values; the initial
    values were not copied. *)
Definition half_registered (s : state) (d : bpftunable_desc) : bpftunable :=
  Tunable d (replicate BPFTUNE_MAX_VALUES 0%Z) (snd (kernel_reading s d)) (Stats ∅ ∅).

(** ** The registry as loads build it *)

(** The registry is dense: the slots below the count hold allocated
    tuners, the tuner in slot [i] has id [i], the count does not exceed
    the array, and every allocated tuner lies below the next address
    [calloc] hands out. *)
Definition registry_dense (s : state) : Prop :=
  bpftune_num_tuners s <= length (bpftune_tuners s)
  /\ (forall l tn, heap s !! l = Some tn -> l < next_loc s)
  /\ (forall i, i < bpftune_num_tuners s ->
        exists l tn, bpftune_tuners s !! i = Some (Some l)
                     /\ heap s !! l = Some tn /\ id tn = i).

(** A process that has loaded nothing yet, with a registry of [slots]
    slots. *)
Definition empty_state (slots : nat) : state :=
  {| cur_netns := 0; fds := ∅; next_fd := 3; self_ns_ok := true; files := ∅; errno := 0;
     objects := {[ "tcp_buffer_tuner.so" := demo_dso ]};
     handles := []; calloc_ok := true; heap := ∅; next_loc := 1;
     g_ring_buffer_map_fd := 0; bpftune_tuners := replicate slots None;
     bpftune_num_tuners := 0; netns_cookie_supported := false;
     global_netns_cookie := 0%N; trace := [] |}.

(** The example module with an [init] that fails with [-ENOMEM]. *)
Definition failing_dso : dso :=
  Dso (Some (fun t => (t, (- ENOMEM)%Z))) (Some (fun t => t)) (Some (fun t _ => t)).

Definition failing_state : state :=
  State (cur_netns demo_state) (fds demo_state) (next_fd demo_state)
        (self_ns_ok demo_state) (files demo_state) (errno demo_state)
        {[ "broken_tuner.so" := failing_dso ]} (handles demo_state) (calloc_ok demo_state)
        (heap demo_state) (next_loc demo_state) (g_ring_buffer_map_fd demo_state)
        (bpftune_tuners demo_state) (bpftune_num_tuners demo_state)
        (netns_cookie_supported demo_state) (global_netns_cookie demo_state)
        (trace demo_state).

(** The example state when [calloc] fails. *)
Definition nomem_state : state :=
  State (cur_netns demo_state) (fds demo_state) (next_fd demo_state)
        (self_ns_ok demo_state) (files demo_state) (errno demo_state)
        (objects demo_state) (handles demo_state) false
        (heap demo_state) (next_loc demo_state) (g_ring_buffer_map_fd demo_state)
        (bpftune_tuners demo_state) (bpftune_num_tuners demo_state)
        (netns_cookie_supported demo_state) (global_netns_cookie demo_state)
        (trace demo_state).

(** The example tuner without an event handler, as [bpftuner_init] leaves
    a module that exports none. *)
Definition handlerless_state : state :=
  set_heap {[ 1 := Tuner (handle demo_tuner) (name demo_tuner) (id demo_tuner)
                     (state_ demo_tuner) (init demo_tuner) (fini demo_tuner) None
                     (ring_buffer_map_fd demo_tuner) (tunables demo_tuner)
                     (scenarios demo_tuner) (netns_cookie demo_tuner)
                     (netns_next demo_tuner) ]} demo_state.

(** ** Namespace discovery *)

(** The part of [bpftune_netns_info] after [netns_fd] is settled; [fdnew]
    says whether the function opened it. *)
Definition netns_info_tail (k : kernel) (netns_fd : Z) (fdnew : bool)
    (fd : option Z) (cookie : option N) : M (Z * option Z * option N) :=
  so <- bpftune_netns_set netns_fd true ;;
  let err := fst so in
  let orig_netns_fd := snd so in
  r <- (if (err =? 0)%Z
        then
          s <- sys_socket k ;;
          r <- (if (s <? 0)%Z
                then e <- gets errno ;;
                     bpftune_log LOG_ERR "could not open socket in netns: %s\n" [AErr e] ;;
                     ret ((- e)%Z, None)
                else
                  g <- sys_getsockopt_netns_cookie k ;;
                  r <- (if (fst g <? 0)%Z
                        then e <- gets errno ;;
                             bpftune_log LOG_DEBUG "could not get SO_NETNS_COOKIE: %s\n"
                                         [AErr e] ;;
                             ret (- e)%Z
                        else ret (fst g)) ;;
                  sys_close_socket s ;;
                  ret (r, snd g)) ;;
          bpftune_netns_set orig_netns_fd false ;;
          ret r
        else
          bpftune_log LOG_DEBUG "setns failed for for fd %d\n" [AInt netns_fd] ;;
          e <- gets errno ;;
          ret ((- e)%Z, None)) ;;
  let ret_ := fst r in
  let fd' := if (ret_ =? 0)%Z && fdnew
             then match fd with Some _ => Some netns_fd | None => None end
             else fd in
  let cookie' := if (ret_ =? 0)%Z
                 then match cookie, snd r with
                      | Some _, Some c => Some c
                      | _, _ => cookie
                      end
                 else cookie in
  (if fdnew && negb (bool_decide (is_Some fd)) then sys_close netns_fd else ret tt) ;;
  (if (0 <? orig_netns_fd)%Z then sys_close orig_netns_fd else ret tt) ;;
  ret (ret_, fd', cookie').

(** The kernel behaves: a failed [open] leaves a positive errno, a socket
    can be opened in every namespace and every namespace has a cookie. *)
Definition kernel_sane (k : kernel) : Prop :=
  (forall pid e, k_open_pid k pid = inl e -> (0 < e)%Z)
  /\ (forall ns, k_socket k ns = 0%Z)
  /\ (forall ns, is_Some (k_cookie k ns)).

(** The state is one a namespace switch works in. *)
Definition switch_ok (s : state) : Prop := fds_ok s /\ self_ns_ok s = true.

(** The cookie the requested one is compared with: that of the namespace
    of a process of /proc. *)
Definition cookie_of_pid (k : kernel) (pid : positive) : option N :=
  match k_open_pid k pid with
  | inr ns => k_cookie k ns
  | inl _ => None
  end.

Definition is_nsfs (m : mntent) : bool := String.eqb (mnt_type m) "nsfs".

(** An example kernel: the process is 100 in namespace 0, process 200
    lives in namespace 1; cookies 11 and 12; no nsfs mounts. *)
Definition demo_kernel : kernel :=
  {| k_getpid := 100%positive;
     k_open_pid := fun p => if decide (p = 100%positive) then inr 0
                            else if decide (p = 200%positive) then inr 1
                            else inl ENOENT;
     k_mounts := inr [Mntent "proc" "/proc" (inl EACCES)];
     k_proc := inr [DOther "."; DOther ".."; DPid 100; DOther "self"; DPid 150; DPid 200];
     k_socket := fun _ => 0%Z;
     k_cookie := fun ns => Some (N.of_nat ns + 11)%N;
     k_indeterminate := 0%N |}.

(** The same with the namespace of process 200 bind-mounted at
    /run/netns/blue, after an nsfs mount that cannot be opened. *)
Definition nsfs_kernel : kernel :=
  {| k_getpid := k_getpid demo_kernel;
     k_open_pid := k_open_pid demo_kernel;
     k_mounts := inr [Mntent "proc" "/proc" (inl EACCES);
                      Mntent "nsfs" "/run/netns/gone" (inl ENOENT);
                      Mntent "nsfs" "/run/netns/blue" (inr 1)];
     k_proc := k_proc demo_kernel;
     k_socket := k_socket demo_kernel;
     k_cookie := k_cookie demo_kernel;
     k_indeterminate := 0%N |}.

(** No process of the listing lives in a namespace of that cookie. *)
Definition no_process_has (k : kernel) (cookie : N) (ents : list dirent) : Prop :=
  Forall (fun d => match d with
                   | DPid p => cookie_of_pid k p <> Some cookie
                   | DOther _ => True
                   end) ents.

(** The state is past the guard of [bpftune_netns_find] for the
    cookie. *)
Definition searchable (s : state) (cookie : N) : Prop :=
  netns_cookie_supported s = true
  /\ cookie <> 0%N
  /\ (global_netns_cookie s = 0%N \/ cookie <> global_netns_cookie s).

(** The errno with which reading the cookie of a namespace fails: that of
    [socket], or [ENOPROTOOPT] of [getsockopt]; 0 when it does not
    fail. *)
Definition cookie_errno (k : kernel) (ns : netns) : Z :=
  if (k_socket k ns =? 0)%Z
  then match k_cookie k ns with Some _ => 0%Z | None => ENOPROTOOPT end
  else k_socket k ns.

(** An entry of /proc/mounts the first loop of [bpftune_netns_find] passes
    over: it is no nsfs mount, or it cannot be opened, or the cookie of
    its namespace cannot be read. *)
Definition passed_over (k : kernel) (m : mntent) : Prop :=
  is_nsfs m = false
  \/ (exists e, mnt_open m = inl e)
  \/ (exists ns, mnt_open m = inr ns /\ cookie_errno k ns <> 0%Z).

(** The example kernel without namespace cookies. *)
Definition old_kernel : kernel :=
  {| k_getpid := k_getpid demo_kernel;
     k_open_pid := k_open_pid demo_kernel;
     k_mounts := k_mounts demo_kernel;
     k_proc := k_proc demo_kernel;
     k_socket := k_socket demo_kernel;
     k_cookie := fun _ => None;
     k_indeterminate := 0%N |}.

(** ** Polling *)




(** * Properties *)

(** ** Bookkeeping lemmas *)

Lemma emits_nil s : emits [] s = s.
Proof. destruct s; unfold emits, set_trace; simpl. by rewrite app_nil_r. Qed.

Lemma emits_app a b s : emits b (emits a s) = emits (a ++ b) s.
Proof. unfold emits, set_trace; simpl. by rewrite app_assoc. Qed.

Lemma emit_emits e es s : emits es (emit e s) = emits (e :: es) s.
Proof. unfold emit. by rewrite emits_app. Qed.

Lemma calls_app a b : calls (a ++ b) = calls a ++ calls b.
Proof. unfold calls. apply filter_app. Qed.

Lemma opens_for_write_app a b :
  opens_for_write (a ++ b) = opens_for_write a + opens_for_write b.
Proof. unfold opens_for_write. by rewrite filter_app, length_app. Qed.

(** One step of a run: the first computation of a sequence is exposed. *)
Ltac mstep := unfold bind at 1; cbv beta iota.

(** Projections of updated states. *)
Ltac fields :=
  cbn [cur_netns fds next_fd self_ns_ok files errno objects handles calloc_ok heap
       next_loc g_ring_buffer_map_fd bpftune_tuners bpftune_num_tuners
       netns_cookie_supported global_netns_cookie trace
       set_cur_netns set_fds set_next_fd set_files set_errno set_handles set_heap
       set_next_loc set_bpftune_tuners set_bpftune_num_tuners set_trace emits emit].

(** Two states with the same fields are the same state. *)
Lemma state_ext (s1 s2 : state) :
  cur_netns s1 = cur_netns s2 -> fds s1 = fds s2 -> next_fd s1 = next_fd s2 ->
  self_ns_ok s1 = self_ns_ok s2 -> files s1 = files s2 -> errno s1 = errno s2 ->
  objects s1 = objects s2 -> handles s1 = handles s2 -> calloc_ok s1 = calloc_ok s2 ->
  heap s1 = heap s2 -> next_loc s1 = next_loc s2 ->
  g_ring_buffer_map_fd s1 = g_ring_buffer_map_fd s2 ->
  bpftune_tuners s1 = bpftune_tuners s2 ->
  bpftune_num_tuners s1 = bpftune_num_tuners s2 ->
  netns_cookie_supported s1 = netns_cookie_supported s2 ->
  global_netns_cookie s1 = global_netns_cookie s2 ->
  trace s1 = trace s2 ->
  s1 = s2.
Proof. destruct s1, s2; simpl; intros; subst; reflexivity. Qed.

Ltac state_eq := apply state_ext; fields; try reflexivity.

(** A loop whose body only appends to the trace appends the bodies'
    events in index order. *)
Lemma for_loop_emits (P : state -> Prop) (f : nat -> list event) (body : nat -> M unit) :
  (forall s es, P s -> P (emits es s)) ->
  forall count from,
    (forall i s, P s -> from <= i < from + count -> body i s = Ret tt (emits (f i) s)) ->
    forall s, P s ->
      for_loop from count body s = Ret tt (emits (flat_map f (seq from count)) s).
Proof.
  intros HP count. induction count as [|c IH]; intros from Hbody s Hs; simpl.
  - by rewrite emits_nil.
  - unfold bind. rewrite (Hbody from s Hs) by lia.
    rewrite (IH (S from)).
    + by rewrite emits_app.
    + intros i s' Hs' Hi. apply Hbody; [done | lia].
    + by apply HP.
Qed.

(** ** The dispatcher drops what it cannot route *)

(** C6: an event whose tuner id is not below the number of registered
    tuners is dropped: the callback returns 0, so polling goes on; the
    only thing it does is one error-level log call, which names the id
    (or the size, when the record is also too short); no module entry
    point is called. *)
Theorem event_unregistered_id_dropped :
  forall (max_tuners sizeof_event : nat) (ctx : Z) (data : bpftune_event)
         (size : nat) (s : state),
    bpftune_num_tuners s <= tuner_id data ->
    bpftune_ringbuf_event_read max_tuners sizeof_event ctx data size s
    = Ret 0%Z (emit (drop_log max_tuners sizeof_event data size) s)
    /\ is_error_log (drop_log max_tuners sizeof_event data size) = true
    /\ calls (trace (emit (drop_log max_tuners sizeof_event data size) s))
       = calls (trace s).
Proof.
  intros mx sz ctx data size s Hid.
  split; [|split].
  - unfold bpftune_ringbuf_event_read, drop_log.
    destruct (size <? sz); [reflexivity|].
    destruct (mx <? tuner_id data); [reflexivity|].
    mstep. unfold bpftune_tuner.
    assert ((tuner_id data <? bpftune_num_tuners s) = false) as ->
      by (apply Nat.ltb_ge; lia).
    reflexivity.
  - unfold drop_log. destruct (size <? sz); [reflexivity|].
    destruct (mx <? tuner_id data); reflexivity.
  - fields. rewrite calls_app.
    unfold drop_log. destruct (size <? sz); [by rewrite app_nil_r|].
    destruct (mx <? tuner_id data); by rewrite app_nil_r.
Qed.

(** C6 for an event with id 1 and the example registry of one tuner. *)
Lemma event_unregistered_id_dropped_witness :
  bpftune_ringbuf_event_read 2 32 0 (Event 1 0 0%N []) 32 demo_state
  = Ret 0%Z (emit (drop_log 2 32 (Event 1 0 0%N []) 32) demo_state)
  /\ is_error_log (drop_log 2 32 (Event 1 0 0%N []) 32) = true
  /\ calls (trace (emit (drop_log 2 32 (Event 1 0 0%N []) 32) demo_state))
     = calls (trace demo_state).
Proof.
  apply (event_unregistered_id_dropped 2 32 0 (Event 1 0 0%N []) 32 demo_state).
  simpl. lia.
Defined.

(** The example registry holds one tuner; an event for id 1 is answered
    with "no tuner for id 1". *)
Example event_for_id_1_demo :
  drop_log 2 32 (Event 1 0 0%N []) 32 = EvLog LOG_ERR "no tuner for id %d\n" [AInt 1].
Proof. reflexivity. Qed.

(** C10: a record shorter than the event header is dropped: the callback
    returns 0, so polling goes on; it logs the size at error level and
    does nothing else; no module entry point is called. *)
Theorem event_short_record_dropped :
  forall (max_tuners sizeof_event : nat) (ctx : Z) (data : bpftune_event)
         (size : nat) (s : state),
    size < sizeof_event ->
    bpftune_ringbuf_event_read max_tuners sizeof_event ctx data size s
    = Ret 0%Z (emit (EvLog LOG_ERR "unexpected size event %d\n" [AInt (Z.of_nat size)]) s)
    /\ calls (trace (emit (EvLog LOG_ERR "unexpected size event %d\n"
                                 [AInt (Z.of_nat size)]) s))
       = calls (trace s).
Proof.
  intros mx sz ctx data size s Hsz.
  unfold bpftune_ringbuf_event_read.
  assert ((size <? sz) = true) as -> by (apply Nat.ltb_lt; lia).
  split; [reflexivity|].
  simpl. rewrite calls_app. simpl. by rewrite app_nil_r.
Qed.

(** C10 for a record of 8 bytes under a header of 32. *)
Lemma event_short_record_dropped_witness :
  bpftune_ringbuf_event_read 2 32 0 (Event 0 0 0%N []) 8 demo_state
  = Ret 0%Z (emit (EvLog LOG_ERR "unexpected size event %d\n" [AInt 8]) demo_state)
  /\ calls (trace (emit (EvLog LOG_ERR "unexpected size event %d\n" [AInt 8]) demo_state))
     = calls (trace demo_state).
Proof.
  apply (event_short_record_dropped 2 32 0 (Event 0 0 0%N []) 8 demo_state).
  lia.
Defined.

(** ** Unload: the summary report *)

Lemma scenario_log_summary l tn i j fd fmt args s :
  heap s !! l = Some tn ->
  i < length (tunables tn) ->
  j < length (scenarios tn) ->
  bpftuner_scenario_log l i j fd true fmt args s
  = Ret tt (emits (summary_of tn i j (fd =? 0)%Z) s).
Proof.
  intros Hl Hi Hj.
  unfold bpftuner_scenario_log, bind, load_tuner. rewrite Hl.
  unfold bpftuner_tunable, summary_of, bucket_count.
  apply Nat.ltb_lt in Hi as Hi'. rewrite Hi'.
  destruct (lookup_lt_is_Some_2 _ _ Hi) as [t Ht]. rewrite Ht.
  destruct (lookup_lt_is_Some_2 _ _ Hj) as [sc Hsc]. rewrite Hsc.
  match goal with |- context [(?c =? 0)%N] => destruct (c =? 0)%N end.
  { unfold ret. by rewrite emits_nil. }
  unfold bpftune_log, modify.
  destruct (decide (d_type (desc t) = BPFTUNABLE_SYSCTL)).
  - unfold emit. by rewrite emits_app.
  - reflexivity.
Qed.

Lemma heap_emits es s : heap (emits es s) = heap s.
Proof. reflexivity. Qed.

Lemma unload_report_loop l tn s :
  heap s !! l = Some tn ->
  for_loop 0 (length (tunables tn)) (fun i =>
    for_loop 0 (length (scenarios tn)) (fun j =>
      bpftune_log LOG_DEBUG "checking scenarios for tuner %d, scenario %d\n"
                  [AInt (Z.of_nat i); AInt (Z.of_nat j)] ;;
      bpftuner_scenario_log l i j 0 true "" [] ;;
      bpftuner_scenario_log l i j 1 true "" [])) s
  = Ret tt (emits (unload_report tn) s).
Proof.
  intros Hl. unfold unload_report.
  apply (for_loop_emits (fun s => heap s !! l = Some tn)); [done | | done].
  intros i s1 Hs1 Hi.
  apply (for_loop_emits (fun s => heap s !! l = Some tn)); [done | | done].
  intros j s2 Hs2 Hj.
  unfold bind at 1. unfold bpftune_log, modify.
  unfold bind at 1. rewrite (scenario_log_summary l tn i j 0%Z) by (done || lia).
  rewrite (scenario_log_summary l tn i j 1%Z) by (done || lia).
  unfold emit. rewrite !emits_app. reflexivity.
Qed.



(** The report of the example tuner: its one bucket with a non-zero
    counter gives the two summary lines, the empty bucket none. *)
Example unload_report_demo :
  unload_report demo_tuner
  = [EvLog LOG_DEBUG "checking scenarios for tuner %d, scenario %d\n" [AInt 0; AInt 0];
     EvLog LOG_INFO
       "Summary: scenario '%s' occurred %ld times for tunable '%s' in %sglobal ns. %s\n"
       [AStr "need to increase TCP buffer size(s)"; AInt 2; AStr "net.ipv4.tcp_rmem";
        AStr ""; AStr "raise the limit"];
     EvLog LOG_INFO "sysctl '%s' changed from (%s) -> (%s)\n"
       [AStr "net.ipv4.tcp_rmem"; AStr "1 1 1 "; AStr "1 1 1 "]].
Proof. vm_compute. reflexivity. Qed.

(** ** The write path and the namespace context *)

(** C1: [bpftune_sysctl_write] from the global namespace (0) into the
    namespace behind descriptor 5, with the values the sysctl already has
    there.  The call takes the early [return 0] of the comparison, which
    does not pass through the [out:] label: it reports success, opens
    nothing for writing, and the thread is left in namespace 1. *)
Theorem sysctl_write_skip_keeps_namespace_switched :
  returned (bpftune_sysctl_write 5 "net.ipv4.tcp_rmem" 3 [1; 1; 1]%Z demo_state)
  = Some 0%Z
  /\ cur_netns demo_state = 0
  /\ cur_netns (final_state
                  (bpftune_sysctl_write 5 "net.ipv4.tcp_rmem" 3 [1; 1; 1]%Z demo_state))
     = 1
  /\ opens_for_write
       (trace (final_state
                 (bpftune_sysctl_write 5 "net.ipv4.tcp_rmem" 3 [1; 1; 1]%Z demo_state)))
     = 0.
Proof. vm_compute. auto. Qed.

(** The same call with other values goes through [out:] and comes back to
    namespace 0. *)
Example sysctl_write_changed_restores_namespace :
  cur_netns (final_state
               (bpftune_sysctl_write 5 "net.ipv4.tcp_rmem" 3 [1; 2; 1]%Z demo_state))
  = 0.
Proof. vm_compute. reflexivity. Qed.

(** ** The write path and [current_values] *)

(** C2: a write of (9, 9, 9) to a sysctl that cannot be opened for
    writing.  [bpftune_sysctl_write] computes the error and then returns 0
    at [out:], so [bpftuner_tunable_sysctl_write] reports success, counts
    the scenario and overwrites [current_values], while the kernel still
    holds (1, 1, 1). *)
Theorem failed_kernel_write_overwrites_current_values :
  returned (bpftuner_tunable_sysctl_write 1 0 0 0 3 [9; 9; 9]%Z "raised" [] readonly_state)
  = Some 0%Z
  /\ files (final_state
              (bpftuner_tunable_sysctl_write 1 0 0 0 3 [9; 9; 9]%Z "raised" [] readonly_state))
       !! (0, "/proc/sys/net/ipv4/tcp_rmem")
     = Some (SysFile [TNum 1; TNum 1; TNum 1] false)
  /\ current_values <$> tunable_at readonly_state 1 0 = Some [1; 1; 1]%Z
  /\ current_values
       <$> tunable_at
             (final_state
                (bpftuner_tunable_sysctl_write 1 0 0 0 3 [9; 9; 9]%Z "raised" []
                   readonly_state)) 1 0
     = Some [9; 9; 9]%Z.
Proof. vm_compute. auto. Qed.

(** Registration of the example tunable reads the kernel's values into
    [current_values] and copies them to [initial_values]; registration of
    a tunable whose sysctl is missing gets "zero values" from the read and
    fails on the count: with [-EINVAL] when the sink drops the report, and
    in the report itself when the sink formats it, as the one the library
    starts with does. *)
Example tunables_init_demo :
  returned (bpftuner_tunables_init default_logger 1 [rmem_desc] [] demo_state) = Some 0%Z
  /\ tunable_at
       (final_state (bpftuner_tunables_init default_logger 1 [rmem_desc] [] demo_state)) 1 0
     = Some (Tunable rmem_desc [1; 1; 1]%Z [1; 1; 1]%Z (Stats ∅ ∅))
  /\ returned (bpftuner_tunables_init (Logger (extern_logfn false) LOG_INFO) 1
                 [Desc BPFTUNABLE_SYSCTL "net.core.no_such_knob" false 1] [] demo_state)
     = Some (- EINVAL)%Z
  /\ faulted (bpftuner_tunables_init default_logger 1
                [Desc BPFTUNABLE_SYSCTL "net.core.no_such_knob" false 1] [] demo_state)
     = Some BadVarArg.
Proof. vm_compute. auto. Qed.

(** The status of [bpftune_sysctl_write] itself on that input. *)
Example sysctl_write_open_failure_returns_zero :
  returned (bpftune_sysctl_write 0 "net.ipv4.tcp_rmem" 3 [9; 9; 9]%Z readonly_state)
  = Some 0%Z
  /\ errno (final_state
              (bpftune_sysctl_write 0 "net.ipv4.tcp_rmem" 3 [9; 9; 9]%Z readonly_state))
     = EACCES.
Proof. vm_compute. auto. Qed.

(** ** What the read path returns *)

Lemma log_loop_emits (f : nat -> event) count from s :
  for_loop from count (fun i => modify (emit (f i))) s
  = Ret tt (emits (map f (seq from count)) s).
Proof.
  rewrite (for_loop_emits (fun _ => True) (fun i => [f i])) by done.
  replace (flat_map (fun i => [f i]) (seq from count)) with (map f (seq from count));
    [reflexivity|].
  induction (seq from count) as [|x l IH]; simpl; congruence.
Qed.

(** C5: what [bpftune_sysctl_read] returns for the namespace it is in
    (descriptor 0): 0 when the path cannot be opened, and otherwise the
    count [fscanf] gave, which is 0 when nothing converts and [EOF] when
    the file is empty.  The error it computed on the way is logged and not
    returned: [out:] ends in [return num_values]. *)
Theorem sysctl_read_returns_count_not_error :
  forall (name : string) (values : list Z) (s : state),
    returned (bpftune_sysctl_read 0 name values s)
    = Some match files s !! (cur_netns s, bpftune_sysctl_name_to_path name 512) with
           | None => (0%Z, values)
           | Some f => (fst (fscanf3 (f_content f)),
                        store_prefix (snd (fscanf3 (f_content f))) values)
           end.
Proof.
  intros name values s.
  unfold bpftune_sysctl_read.
  generalize (bpftune_sysctl_name_to_path name 512). intros path.
  unfold bind at 1. simpl.
  unfold bind at 1. unfold sys_fopen_r.
  destruct (files s !! (cur_netns s, path)) as [f|]; [|reflexivity].
  unfold bind at 1. unfold bind at 1. unfold gets at 1. cbv beta iota.
  match goal with |- context [if negb ?c then _ else _] => destruct c end; simpl.
  - unfold bind at 1. unfold bpftune_log. rewrite log_loop_emits. reflexivity.
  - reflexivity.
Qed.

(** A sysctl that does not exist: the read reports "zero values". *)
Example sysctl_read_missing_path :
  returned (bpftune_sysctl_read 0 "net.core.no_such_knob" [0; 0; 0]%Z demo_state)
  = Some (0%Z, [0; 0; 0]%Z)
  /\ filter is_error_log
       (trace (final_state
                 (bpftune_sysctl_read 0 "net.core.no_such_knob" [0; 0; 0]%Z demo_state)))
     = [EvLog LOG_ERR "could not open %s (netns fd %d) for reading: %s\n"
          [AStr "/proc/sys/net/core/no_such_knob"; AInt 0; AErr ENOENT]].
Proof. vm_compute. auto. Qed.

(** ** Loading tuners *)

(** The run of [bpftuner_init] up to the return of the module's [init],
    for an object that resolves and exports [init]. *)
Lemma bpftuner_init_calls_init path d body s :
  calloc_ok s = true ->
  objects s !! path = Some d ->
  dso_init d = Some body ->
  bpftuner_init path s
  = (let tuner := next_loc s in
     let err := snd (body (loaded_tuner s path d)) in
     if negb (err =? 0)%Z
     then dlclose path ;;
          bpftune_log LOG_ERR "error initializing '%s: %s\n" [AStr path; AErr (- err)] ;;
          free_tuner tuner ;;
          ret None
     else
       n <- gets bpftune_num_tuners ;;
       t <- load_tuner tuner ;;
       store_tuner tuner (set_state BPFTUNE_ACTIVE (set_id n t)) ;;
       store_slot n tuner ;;
       modify (set_bpftune_num_tuners (S n)) ;;
       bpftune_log LOG_DEBUG "sucessfully initialized tuner %s[%d]\n"
                   [AStr (name t); AInt (Z.of_nat n)] ;;
       ret (Some tuner))
      (emits [EvLog LOG_DEBUG "calling init for '%s\n" [AStr path];
              EvCall (next_loc s) "init"]
         (set_handles (path :: handles s)
            (set_next_loc (S (next_loc s))
               (set_heap (<[next_loc s := fst (body (loaded_tuner s path d))]> (heap s)) s)))).
Proof.
  intros Hc Ho Hi.
  assert (exports d "init" = true) as Hex.
  { unfold exports. simpl. rewrite Hi. by apply bool_decide_eq_true_2. }
  unfold bpftuner_init.
  mstep. unfold calloc_tuner at 1. rewrite Hc. cbv beta iota.
  mstep. unfold dlopen at 1. fields. rewrite Ho. cbv beta iota.
  mstep. unfold gets at 1. cbv beta iota.
  mstep. unfold dlsym at 1, gets at 1. fields. rewrite Ho, Hex. cbv beta iota.
  mstep. unfold dlsym at 1, gets at 1. fields. rewrite Ho. cbv beta iota.
  mstep. unfold dlsym at 1, gets at 1. fields. rewrite Ho. cbv beta iota.
  mstep. unfold load_tuner at 1. fields. rewrite lookup_insert_eq. cbv beta iota.
  mstep. unfold store_tuner at 1. fields. rewrite lookup_insert_eq. cbv beta iota.
  mstep. unfold bpftune_log at 1, modify at 1. cbv beta iota.
  mstep. unfold call_init at 1. cbv beta iota.
  mstep. unfold gets at 1. cbv beta iota. fields. cbn [fst]. rewrite Ho.
  change (Some d ≫= dso_init) with (dso_init d). rewrite Hi. cbv beta iota.
  mstep. unfold modify at 1. cbv beta iota.
  mstep. unfold load_tuner at 1. fields. rewrite lookup_insert_eq. cbv beta iota.
  mstep. unfold store_tuner at 1. fields. rewrite lookup_insert_eq. cbv beta iota.
  unfold ret at 1. cbv beta iota zeta.
  rewrite !insert_insert_eq.
  unfold loaded_tuner. rewrite Hex.
  set (k := if negb _ then _ else _). clearbody k. apply (f_equal k).
  state_eq. by rewrite <- app_assoc.
Qed.

(** C3: with every slot of [bpftune_tuners] taken, [bpftuner_init] of a
    module that resolves and whose [init] succeeds does not return null:
    nothing compares the count with the size of the array; the module's
    [init] is called and the store [bpftune_tuners[bpftune_num_tuners++]]
    goes past the last slot. *)
Theorem load_at_capacity_overruns_registry :
  forall (path : string) (d : dso) (body : bpftuner -> bpftuner * Z) (s : state),
    calloc_ok s = true ->
    objects s !! path = Some d ->
    dso_init d = Some body ->
    snd (body (loaded_tuner s path d)) = 0%Z ->
    bpftune_num_tuners s = length (bpftune_tuners s) ->
    returned (bpftuner_init path s) = None
    /\ faulted (bpftuner_init path s) = Some OutOfBounds
    /\ calls (trace (final_state (bpftuner_init path s)))
       = calls (trace s) ++ [EvCall (next_loc s) "init"].
Proof.
  intros path d body s Hc Ho Hi Hz Hfull.
  assert (exists s', bpftuner_init path s = Fault OutOfBounds s'
                     /\ trace s' = trace s
                                   ++ [EvLog LOG_DEBUG "calling init for '%s\n" [AStr path];
                                       EvCall (next_loc s) "init"])
    as (s' & -> & Htr).
  { rewrite (bpftuner_init_calls_init path d body s Hc Ho Hi).
    cbv zeta. rewrite Hz. simpl (negb _). cbv beta iota.
    mstep. unfold gets at 1. cbv beta iota.
    mstep. unfold load_tuner at 1. fields. rewrite lookup_insert_eq. cbv beta iota.
    mstep. unfold store_tuner at 1. fields. rewrite lookup_insert_eq. cbv beta iota.
    mstep. unfold store_slot at 1. fields.
    rewrite Hfull, Nat.ltb_irrefl.
    eexists. split; [reflexivity|]. reflexivity. }
  cbn [returned faulted final_state].
  split; [reflexivity|]. split; [reflexivity|].
  rewrite Htr, calls_app. reflexivity.
Qed.

(** C3 for the example registry with both slots taken. *)
Lemma load_at_capacity_overruns_registry_witness :
  returned (bpftuner_init "tcp_buffer_tuner.so" full_state) = None
  /\ faulted (bpftuner_init "tcp_buffer_tuner.so" full_state) = Some OutOfBounds
  /\ calls (trace (final_state (bpftuner_init "tcp_buffer_tuner.so" full_state)))
     = calls (trace full_state) ++ [EvCall (next_loc full_state) "init"].
Proof.
  apply (load_at_capacity_overruns_registry "tcp_buffer_tuner.so" demo_dso
           (fun t => (t, 0%Z)) full_state); reflexivity.
Defined.

(** C7, counterexample: a module without [fini] loads and is registered
    as active. *)
Lemma load_without_fini_registers :
  objects demo_state !! "sysctl_tuner.so" ≫= dso_fini = None
  /\ returned (bpftuner_init "sysctl_tuner.so" demo_state) = Some (Some 2)
  /\ bpftune_tuners (final_state (bpftuner_init "sysctl_tuner.so" demo_state))
     = [Some 1; Some 2]
  /\ bpftune_num_tuners (final_state (bpftuner_init "sysctl_tuner.so" demo_state)) = 2
  /\ state_ <$> heap (final_state (bpftuner_init "sysctl_tuner.so" demo_state)) !! 2
     = Some BPFTUNE_ACTIVE.
Proof. vm_compute. auto. Qed.

(** A module without [init]: [bpftuner_init] does not test the pointer
    [dlsym] gave and calls through it. *)
Example load_without_init_faults :
  faulted (bpftuner_init "neigh_table_tuner.so" demo_state) = Some NullCall.
Proof. vm_compute. reflexivity. Qed.

(** C7, amended: a module that cannot be resolved is refused, and then the
    allocation is given back, nothing is registered and no entry point is
    called; a module that resolves and whose [init] returns 0 is
    registered as active in the next free slot, whether or not it exports
    [fini] and [event_handler]. *)
Theorem load_unresolved_fails_resolved_registers :
  (forall (unresolved : string) (s : state),
      calloc_ok s = true ->
      heap s !! next_loc s = None ->
      objects s !! unresolved = None ->
      bpftuner_init unresolved s
      = Ret None
          (set_next_loc (S (next_loc s))
             (emit (EvLog LOG_ERR "could not dlopen '%s': %s\n"
                          [AStr unresolved; AStr "dlerror"]) s)))
  /\ (forall (path : string) (d : dso) (body : bpftuner -> bpftuner * Z) (s : state),
         calloc_ok s = true ->
         heap s !! next_loc s = None ->
         objects s !! path = Some d ->
         dso_init d = Some body ->
         snd (body (loaded_tuner s path d)) = 0%Z ->
         bpftune_num_tuners s < length (bpftune_tuners s) ->
         returned (bpftuner_init path s) = Some (Some (next_loc s))
         /\ bpftune_tuners (final_state (bpftuner_init path s))
            = <[bpftune_num_tuners s := Some (next_loc s)]> (bpftune_tuners s)
         /\ bpftune_num_tuners (final_state (bpftuner_init path s))
            = S (bpftune_num_tuners s)
         /\ heap (final_state (bpftuner_init path s)) !! next_loc s
            = Some (set_state BPFTUNE_ACTIVE
                      (set_id (bpftune_num_tuners s)
                         (fst (body (loaded_tuner s path d)))))).
Proof.
  split.
  - intros unresolved s Hc Hfresh Hno.
    unfold bpftuner_init.
    mstep. unfold calloc_tuner at 1. rewrite Hc. cbv beta iota.
    mstep. unfold dlopen at 1. fields. rewrite Hno. cbv beta iota.
    mstep. unfold bpftune_log at 1, modify at 1. cbv beta iota.
    mstep. unfold free_tuner, modify, ret. f_equal.
    state_eq. by rewrite delete_insert_eq, delete_id.
  - intros path d body s Hc Hfresh Ho Hi Hz Hroom.
    assert (exists s', bpftuner_init path s = Ret (Some (next_loc s)) s'
                       /\ bpftune_tuners s'
                          = <[bpftune_num_tuners s := Some (next_loc s)]> (bpftune_tuners s)
                       /\ bpftune_num_tuners s' = S (bpftune_num_tuners s)
                       /\ heap s' !! next_loc s
                          = Some (set_state BPFTUNE_ACTIVE
                                    (set_id (bpftune_num_tuners s)
                                       (fst (body (loaded_tuner s path d))))))
      as (s' & -> & H1 & H2 & H3).
    { rewrite (bpftuner_init_calls_init path d body s Hc Ho Hi).
      cbv zeta. rewrite Hz. simpl (negb _). cbv beta iota.
      mstep. unfold gets at 1. cbv beta iota.
      mstep. unfold load_tuner at 1. fields. rewrite lookup_insert_eq. cbv beta iota.
      mstep. unfold store_tuner at 1. fields. rewrite lookup_insert_eq. cbv beta iota.
      mstep. unfold store_slot at 1. fields.
      apply Nat.ltb_lt in Hroom. rewrite Hroom. cbv beta iota.
      mstep. unfold modify at 1. cbv beta iota.
      mstep. unfold bpftune_log at 1, modify at 1. cbv beta iota.
      unfold ret. eexists. split; [reflexivity|]. fields.
      rewrite lookup_insert_eq. auto. }
    cbn [returned final_state]. auto.
Qed.

(** C7, amended, for a path that does not resolve and for the example
    module without [fini]. *)
Lemma load_unresolved_fails_resolved_registers_witness :
  bpftuner_init "no_such_tuner.so" demo_state
  = Ret None
      (set_next_loc (S (next_loc demo_state))
         (emit (EvLog LOG_ERR "could not dlopen '%s': %s\n"
                      [AStr "no_such_tuner.so"; AStr "dlerror"]) demo_state))
  /\ returned (bpftuner_init "sysctl_tuner.so" demo_state)
     = Some (Some (next_loc demo_state))
  /\ bpftune_tuners (final_state (bpftuner_init "sysctl_tuner.so" demo_state))
     = <[bpftune_num_tuners demo_state := Some (next_loc demo_state)]>
         (bpftune_tuners demo_state)
  /\ bpftune_num_tuners (final_state (bpftuner_init "sysctl_tuner.so" demo_state))
     = S (bpftune_num_tuners demo_state)
  /\ heap (final_state (bpftuner_init "sysctl_tuner.so" demo_state))
       !! next_loc demo_state
     = Some (set_state BPFTUNE_ACTIVE
               (set_id (bpftune_num_tuners demo_state)
                  (fst ((fun t => (t, 0%Z))
                          (loaded_tuner demo_state "sysctl_tuner.so" nofini_dso))))).
Proof.
  split.
  - apply (proj1 load_unresolved_fails_resolved_registers "no_such_tuner.so" demo_state);
      reflexivity.
  - apply (proj2 load_unresolved_fails_resolved_registers "sysctl_tuner.so"
             nofini_dso (fun t => (t, 0%Z)) demo_state);
      first [reflexivity | simpl; lia].
Defined.

(** ** Cookies of a tuner's namespace list *)

(** C8, counterexample: without cookie support the lookup
    always answers null, and initializing cookie 7 twice for the
    registered tuner links the cookie twice. *)
Lemma netns_init_twice_unsupported_duplicates :
  netns_unique unsupported_state
  /\ returned (run_ops [NetnsInit 1 7%N; NetnsInit 1 7%N] unsupported_state) = Some tt
  /\ netns_next
       <$> heap (final_state (run_ops [NetnsInit 1 7%N; NetnsInit 1 7%N] unsupported_state))
             !! 1
     = Some [7%N; 7%N]
  /\ ~ netns_unique
         (final_state (run_ops [NetnsInit 1 7%N; NetnsInit 1 7%N] unsupported_state)).
Proof.
  split; [|split; [|split]].
  - intros l tn Hl.
    destruct (decide (l = 1)) as [->|Hne].
    + vm_compute in Hl. injection Hl as <-. vm_compute.
      apply NoDup_cons. split; [apply not_elem_of_nil | apply NoDup_nil_2].
    + unfold unsupported_state, demo_state in Hl. cbn [heap] in Hl.
      rewrite lookup_singleton_ne in Hl by done. done.
  - vm_compute. reflexivity.
  - vm_compute. reflexivity.
  - intros H.
    assert (heap (final_state (run_ops [NetnsInit 1 7%N; NetnsInit 1 7%N] unsupported_state))
              !! 1 = Some (set_netns_next [7%N; 7%N] demo_tuner)) as Hl
      by (vm_compute; reflexivity).
    specialize (H _ _ Hl). unfold for_each_netns in H. cbn in H.
    apply NoDup_cons in H as [_ H]. apply NoDup_cons in H as [H _].
    apply H. apply elem_of_cons. by left.
Qed.

Lemma find_netns_None cookie nodes : forall i,
  find_netns cookie i nodes = None -> cookie ∉ nodes.
Proof.
  induction nodes as [|c r IH]; intros i H; simpl in H.
  - apply not_elem_of_nil.
  - destruct (cookie =? c)%N eqn:E; [done|].
    apply N.eqb_neq in E. apply not_elem_of_cons. split; [done|]. by eapply IH.
Qed.

Lemma unlink_first_sublist cookie nodes : forall r,
  unlink_first cookie nodes = Some r -> r `sublist_of` nodes.
Proof.
  induction nodes as [|c l IH]; intros r H; simpl in H; [done|].
  destruct (c =? cookie)%N.
  - injection H as <-. by apply sublist_cons.
  - destruct (unlink_first cookie l) as [r'|]; [|done].
    injection H as <-. apply sublist_skip. by apply IH.
Qed.

(** The lookup loop reads and does not write; when it comes back with
    nothing although the tuner of that id is among the tuners it walks,
    the cookie is not zero and no node of that tuner carries it. *)
Lemma netns_from_cookie_loop_total tuner_id cookie s : forall ts,
  (forall t, t ∈ ts -> is_Some (heap s !! t)) ->
  exists r, netns_from_cookie_loop tuner_id cookie ts s = Ret r s.
Proof.
  induction ts as [|t rest IH]; intros Hall; cbn [netns_from_cookie_loop].
  - by eexists.
  - destruct (Hall t) as [tn Htn]; [by left|].
    mstep. unfold load_tuner at 1. rewrite Htn. cbv beta iota.
    destruct (negb (id tn =? tuner_id)).
    { apply IH. intros t' Ht'. apply Hall. by right. }
    destruct (cookie =? 0)%N; [by eexists|].
    destruct (find_netns cookie 0 (for_each_netns tn)); [by eexists|].
    apply IH. intros t' Ht'. apply Hall. by right.
Qed.

Lemma netns_from_cookie_loop_None l tn cookie s : forall ts s',
  heap s !! l = Some tn ->
  l ∈ ts ->
  (forall t, t ∈ ts -> is_Some (heap s !! t)) ->
  (forall t tn', t ∈ ts -> heap s !! t = Some tn' -> id tn' = id tn -> t = l) ->
  netns_from_cookie_loop (id tn) cookie ts s = Ret None s' ->
  cookie <> 0%N /\ cookie ∉ for_each_netns tn.
Proof.
  induction ts as [|t rest IH]; intros s' Hl Hin Hall Hid Hrun.
  - by apply elem_of_nil in Hin.
  - cbn [netns_from_cookie_loop] in Hrun. destruct (Hall t) as [tn0 Htn0]; [by left|].
    revert Hrun. mstep. unfold load_tuner at 1. rewrite Htn0. cbv beta iota.
    destruct (id tn0 =? id tn) eqn:E; simpl (negb _); cbv beta iota.
    + apply Nat.eqb_eq in E.
      assert (t = l) as -> by (eapply Hid; [by left|done..]).
      assert (tn0 = tn) as -> by congruence.
      destruct (cookie =? 0)%N eqn:Ez; [done|].
      destruct (find_netns cookie 0 (for_each_netns tn)) eqn:Ef; [done|].
      intros _. split; [by apply N.eqb_neq | by eapply find_netns_None].
    + apply Nat.eqb_neq in E. intros Hrun.
      apply elem_of_cons in Hin as [->|Hin]; [congruence|].
      eapply IH; eauto.
      * intros t' Ht'. apply Hall. by right.
      * intros t' tn' Ht'. apply Hid. by right.
Qed.

(** A step that leaves the registry alone and replaces one tuner by one of
    the same id with unique cookies keeps the invariant. *)
Lemma netns_inv_update ts s s' l tn tn' :
  netns_inv ts s ->
  heap s !! l = Some tn ->
  id tn' = id tn ->
  NoDup (for_each_netns tn') ->
  netns_cookie_supported s' = netns_cookie_supported s ->
  bpftune_tuners s' = bpftune_tuners s ->
  bpftune_num_tuners s' = bpftune_num_tuners s ->
  heap s' = <[l := tn']> (heap s) ->
  netns_inv ts s'.
Proof.
  intros (Hsup & Hts & [Halloc Hids] & Huniq) Hl Hid Hnd Hs1 Hs2 Hs3 Hs4.
  assert (for_each_tuner s' = for_each_tuner s) as Hfe
    by (unfold for_each_tuner; by rewrite Hs2, Hs3).
  assert (forall x t, heap s' !! x = Some t ->
            exists t0, heap s !! x = Some t0 /\ id t = id t0
                       /\ (x <> l -> t = t0) /\ (x = l -> t = tn')) as Hback.
  { intros x t Hx. rewrite Hs4 in Hx. destruct (decide (x = l)) as [->|Hne].
    - rewrite lookup_insert_eq in Hx. injection Hx as <-. exists tn. by repeat split.
    - rewrite lookup_insert_ne in Hx by done. exists t. by repeat split. }
  repeat split.
  - congruence.
  - congruence.
  - intros x Hx. rewrite Hfe in Hx. rewrite Hs4.
    destruct (decide (x = l)) as [->|Hne].
    + rewrite lookup_insert_eq. by eexists.
    + rewrite lookup_insert_ne by done. by apply Halloc.
  - intros l1 l2 t1 t2 H1 H2 Ht1 Ht2 E. rewrite Hfe in H1, H2.
    destruct (Hback _ _ Ht1) as (u1 & Hu1 & E1 & _).
    destruct (Hback _ _ Ht2) as (u2 & Hu2 & E2 & _).
    eapply Hids; eauto. congruence.
  - intros x t Hx. destruct (Hback _ _ Hx) as (t0 & Ht0 & _ & Hne & Heq).
    destruct (decide (x = l)) as [->|Hx'].
    + by rewrite (Heq eq_refl).
    + rewrite (Hne Hx'). by eapply Huniq.
Qed.

(** A step that touches neither the heap nor the registry keeps it. *)
Lemma netns_inv_frame ts s s' :
  netns_inv ts s ->
  netns_cookie_supported s' = netns_cookie_supported s ->
  bpftune_tuners s' = bpftune_tuners s ->
  bpftune_num_tuners s' = bpftune_num_tuners s ->
  heap s' = heap s ->
  netns_inv ts s'.
Proof.
  intros (Hsup & Hts & [Halloc Hids] & Huniq) Hs1 Hs2 Hs3 Hs4.
  unfold netns_inv, registry_ok, netns_unique, for_each_tuner in *.
  rewrite Hs1, Hs2, Hs3, Hs4. repeat split; assumption.
Qed.

Lemma netns_from_cookie_registered ts s l tn cookie :
  netns_inv ts s ->
  heap s !! l = Some tn ->
  l ∈ ts ->
  (exists node, bpftuner_netns_from_cookie (id tn) cookie s = Ret (Some node) s)
  \/ (bpftuner_netns_from_cookie (id tn) cookie s
      = Ret None (emit (EvLog LOG_DEBUG "no tuner netns found for tuner %d, cookie %ld\n"
                              [AInt (Z.of_nat (id tn)); AInt (Z.of_N cookie)]) s)
      /\ cookie <> 0%N /\ cookie ∉ for_each_netns tn).
Proof.
  intros (Hsup & Hts & [Halloc Hids] & Huniq) Hl Hin.
  assert (forall t, t ∈ ts -> is_Some (heap s !! t)) as Hall
    by (intros t Ht; apply Halloc; by rewrite Hts).
  destruct (netns_from_cookie_loop_total (id tn) cookie s ts Hall) as [r Hr].
  assert (bpftuner_netns_from_cookie (id tn) cookie s
          = match r with
            | Some node => Ret (Some node) s
            | None => Ret None
                        (emit (EvLog LOG_DEBUG
                                 "no tuner netns found for tuner %d, cookie %ld\n"
                                 [AInt (Z.of_nat (id tn)); AInt (Z.of_N cookie)]) s)
            end) as ->.
  { unfold bpftuner_netns_from_cookie.
    mstep. unfold gets at 1. rewrite Hsup. simpl (negb true). cbv beta iota.
    mstep. unfold gets at 1. cbv beta iota. rewrite Hts.
    mstep. rewrite Hr. cbv beta iota.
    by destruct r. }
  destruct r as [node|].
  - left. by exists node.
  - right. split; [reflexivity|].
    eapply (netns_from_cookie_loop_None l tn cookie s ts s); eauto.
    intros t tn' Ht Htn' E. eapply Hids; eauto; by rewrite Hts.
Qed.

Lemma netns_init_keeps_inv ts s l cookie :
  netns_inv ts s ->
  l ∈ ts ->
  exists s', bpftuner_netns_init l cookie s = Ret tt s' /\ netns_inv ts s'.
Proof.
  intros Hinv Hin.
  pose proof Hinv as (Hsup & Hts & [Halloc Hids] & Huniq).
  destruct (Halloc l) as [tn Hl]; [by rewrite Hts|].
  unfold bpftuner_netns_init.
  mstep. unfold load_tuner at 1. rewrite Hl. cbv beta iota.
  mstep.
  destruct (netns_from_cookie_registered ts s l tn cookie Hinv Hl Hin)
    as [[node ->] | (-> & Hnz & Hfresh)]; cbv beta iota.
  { by exists s. }
  mstep. unfold gets at 1. cbv beta iota. fields.
  destruct (calloc_ok s); simpl (negb _); cbv beta iota.
  - mstep. unfold load_tuner at 1. fields. rewrite Hl. cbv beta iota.
    unfold store_tuner. fields. rewrite Hl.
    eexists. split; [reflexivity|].
    apply (netns_inv_update ts s _ l tn (set_netns_next (netns_next tn ++ [cookie]) tn));
      [exact Hinv | exact Hl | reflexivity | | reflexivity..].
    unfold for_each_netns, set_netns_next. cbn [netns_cookie netns_next].
    change (netns_cookie tn :: netns_next tn ++ [cookie])
      with ((netns_cookie tn :: netns_next tn) ++ [cookie]).
    apply NoDup_app. repeat split.
    + by apply Huniq in Hl.
    + intros x Hx Hc. apply list_elem_of_singleton in Hc as ->. by apply Hfresh.
    + apply NoDup_singleton.
  - mstep. unfold modify at 1. cbv beta iota.
    unfold bpftune_log, modify.
    eexists. split; [reflexivity|].
    by apply (netns_inv_frame ts s).
Qed.

Lemma netns_fini_keeps_inv ts s l cookie :
  netns_inv ts s ->
  l ∈ ts ->
  exists s', bpftuner_netns_fini l cookie s = Ret tt s' /\ netns_inv ts s'.
Proof.
  intros Hinv Hin.
  pose proof Hinv as (Hsup & Hts & [Halloc Hids] & Huniq).
  destruct (Halloc l) as [tn Hl]; [by rewrite Hts|].
  unfold bpftuner_netns_fini.
  mstep. unfold gets at 1. rewrite Hsup. simpl (negb _). cbv beta iota.
  mstep. unfold load_tuner at 1. rewrite Hl. cbv beta iota.
  destruct (netns_cookie tn =? cookie)%N.
  - unfold store_tuner. rewrite Hl.
    eexists. split; [reflexivity|].
    apply (netns_inv_update ts s _ l tn tn);
      [exact Hinv | exact Hl | reflexivity | | reflexivity..].
    by apply Huniq in Hl.
  - destruct (unlink_first cookie (netns_next tn)) as [r|] eqn:Hr.
    + unfold store_tuner. rewrite Hl.
      eexists. split; [reflexivity|].
      apply (netns_inv_update ts s _ l tn (set_netns_next r tn));
        [exact Hinv | exact Hl | reflexivity | | reflexivity..].
      apply Huniq in Hl. unfold for_each_netns in *. cbn [netns_cookie netns_next set_netns_next].
      eapply sublist_NoDup; [exact Hl|].
      apply sublist_skip. by apply (unlink_first_sublist cookie).
    + unfold bpftune_log, modify.
      eexists. split; [reflexivity|].
      by apply (netns_inv_frame ts s).
Qed.

(** C8, amended: with namespace-cookie support on and the tuners
    registered under distinct ids, any sequence of per-namespace
    initializations and finalizations on registered tuners runs to its
    end and leaves no tuner with two nodes of the same cookie. *)
Theorem netns_ops_keep_cookies_unique :
  forall (ops : list netns_op) (s : state),
    netns_cookie_supported s = true ->
    registry_ok s ->
    netns_unique s ->
    Forall (fun op => op_tuner op ∈ for_each_tuner s) ops ->
    returned (run_ops ops s) = Some tt
    /\ netns_unique (final_state (run_ops ops s)).
Proof.
  intros ops s Hsup Hreg Huniq Hops.
  assert (netns_inv (for_each_tuner s) s) as Hinv by done.
  revert Hops Hinv. generalize (for_each_tuner s) as ts. clear.
  intros ts Hops. revert s.
  induction Hops as [|op rest Hop Hrest IH]; intros s Hinv; simpl.
  - split; [reflexivity | apply Hinv].
  - assert (exists s', run_op op s = Ret tt s' /\ netns_inv ts s') as (s' & Hrun & Hinv').
    { destruct op as [l c|l c]; simpl in *.
      - by apply netns_init_keeps_inv.
      - by apply netns_fini_keeps_inv. }
    unfold bind. rewrite Hrun. by apply IH.
Qed.

(** C8, amended, for four operations on the example tuner. *)
Lemma netns_ops_keep_cookies_unique_witness :
  returned (run_ops [NetnsInit 1 7%N; NetnsInit 1 7%N; NetnsFini 1 9%N; NetnsInit 1 9%N]
              demo_state) = Some tt
  /\ netns_unique
       (final_state
          (run_ops [NetnsInit 1 7%N; NetnsInit 1 7%N; NetnsFini 1 9%N; NetnsInit 1 9%N]
             demo_state)).
Proof.
  apply (netns_ops_keep_cookies_unique
           [NetnsInit 1 7%N; NetnsInit 1 7%N; NetnsFini 1 9%N; NetnsInit 1 9%N] demo_state).
  - reflexivity.
  - split.
    + intros l Hl. vm_compute in Hl. apply list_elem_of_singleton in Hl as ->.
      by eexists.
    + intros l1 l2 t1 t2 H1 H2 _ _ _. vm_compute in H1, H2.
      apply list_elem_of_singleton in H1 as ->.
      apply list_elem_of_singleton in H2 as ->. reflexivity.
  - intros l tn Hl.
    destruct (decide (l = 1)) as [->|Hne].
    + vm_compute in Hl. injection Hl as <-. vm_compute.
      apply NoDup_cons. split; [apply not_elem_of_nil | apply NoDup_nil_2].
    + unfold demo_state in Hl. cbn [heap] in Hl.
      rewrite lookup_singleton_ne in Hl by done. done.
  - repeat constructor.
Defined.

(** The same operations on the example state: the second initialization of
    cookie 7 finds the node of the first. *)
Example netns_init_twice_supported :
  netns_next
    <$> heap (final_state (run_ops [NetnsInit 1 7%N; NetnsInit 1 7%N] demo_state)) !! 1
  = Some [7%N].
Proof. vm_compute. reflexivity. Qed.

(** ** Idempotent writes *)

Lemma sysctl_write_unfold netns_fd name num_values values :
  bpftune_sysctl_write netns_fd name num_values values
  = (bpftune_log LOG_DEBUG "writing sysctl '%s' for netns_fd %d\n"
                 [AStr (sysctl_path name); AInt netns_fd] ;;
     so <- bpftune_netns_set netns_fd true ;;
     if (fst so <? 0)%Z then ret (fst so)
     else write_after_switch name num_values values (snd so)).
Proof. reflexivity. Qed.

Lemma netns_set_zero want_orig s :
  bpftune_netns_set 0 want_orig s = Ret (0%Z, 0%Z) s.
Proof. reflexivity. Qed.

Lemma netns_set_switch new_fd ns s :
  new_fd <> 0%Z ->
  wf_fds s ->
  self_ns_ok s = true ->
  fds s !! new_fd = Some ns ->
  bpftune_netns_set new_fd true s = Ret (0%Z, next_fd s) (entered new_fd ns s).
Proof.
  intros Hnz [Hpos Hlt] Hok Hfd.
  unfold bpftune_netns_set.
  apply Z.eqb_neq in Hnz as Hnz'. rewrite Hnz'.
  mstep. unfold sys_open_self_ns at 1. rewrite Hok. cbv beta iota.
  assert ((next_fd s <? 0)%Z = false) as -> by (apply Z.ltb_ge; lia).
  mstep. mstep. unfold sys_setns at 1. fields.
  rewrite lookup_insert_ne by (apply Hlt in Hfd; lia). rewrite Hfd. cbv beta iota.
  simpl. reflexivity.
Qed.

Lemma netns_set_restore orig ns s :
  orig <> 0%Z ->
  wf_fds s ->
  self_ns_ok s = true ->
  fds s !! orig = Some ns ->
  bpftune_netns_set orig false s = Ret (0%Z, 0%Z) (restored orig ns s).
Proof.
  intros Hnz [Hpos Hlt] Hok Hfd.
  assert (fds s !! next_fd s = None) as Hfresh.
  { destruct (fds s !! next_fd s) eqn:E; [|done]. apply Hlt in E. lia. }
  unfold bpftune_netns_set.
  apply Z.eqb_neq in Hnz as Hnz'. rewrite Hnz'.
  mstep. unfold sys_open_self_ns at 1. rewrite Hok. cbv beta iota.
  assert ((next_fd s <? 0)%Z = false) as -> by (apply Z.ltb_ge; lia).
  mstep. mstep. unfold sys_setns at 1. fields.
  rewrite lookup_insert_ne by (apply Hlt in Hfd; lia). rewrite Hfd. cbv beta iota.
  change (0 <? 0)%Z with false. cbv beta iota. unfold ret at 1. cbv beta iota.
  change ((0 =? 0)%Z && false) with false. cbv beta iota.
  mstep. unfold sys_close at 1. fields. rewrite lookup_insert_eq. cbv beta iota.
  unfold ret, restored. f_equal.
  state_eq. by rewrite delete_insert_eq, delete_id.
Qed.

Lemma sysctl_read_here name buf f s :
  files s !! (cur_netns s, sysctl_path name) = Some f ->
  bpftune_sysctl_read 0 name buf s
  = Ret (fst (fscanf3 (f_content f)), store_prefix (snd (fscanf3 (f_content f))) buf)
        (emits (EvFopen (sysctl_path name) "r" true
                :: scan_logs name (sysctl_path name)
                     (store_prefix (snd (fscanf3 (f_content f))) buf)
                     (fst (fscanf3 (f_content f))) (errno s)) s).
Proof.
  unfold bpftune_sysctl_read, sysctl_path, scan_logs.
  generalize (bpftune_sysctl_name_to_path name 512). intros path Hf.
  mstep. rewrite netns_set_zero. cbv beta iota. cbn [fst snd].
  change (0 <? 0)%Z with false. cbv beta iota.
  mstep. unfold sys_fopen_r at 1. rewrite Hf. cbv beta iota.
  mstep. mstep. unfold gets at 1. cbv beta iota. fields.
  match goal with |- context [if negb ?c then _ else _] => destruct c end;
    simpl (negb _); cbv beta iota.
  - mstep. unfold bpftune_log. rewrite log_loop_emits. cbv beta iota.
    unfold ret at 1. cbv beta iota.
    mstep. rewrite netns_set_zero. cbv beta iota.
    unfold ret, read_logs. f_equal. unfold emit. by rewrite emits_app.
  - mstep. unfold bpftune_log at 1, modify at 1. cbv beta iota.
    unfold ret at 1. cbv beta iota.
    mstep. rewrite netns_set_zero. cbv beta iota.
    unfold ret. f_equal. unfold emit. by rewrite emits_app.
Qed.

Lemma opens_for_write_log1 level fmt args : opens_for_write [EvLog level fmt args] = 0.
Proof. reflexivity. Qed.

Lemma opens_for_write_setns1 fd ok : opens_for_write [EvSetns fd ok] = 0.
Proof. reflexivity. Qed.

Lemma opens_for_write_read1 path ok : opens_for_write [EvFopen path "r" ok] = 0.
Proof. reflexivity. Qed.

Lemma opens_for_write_write1 path ok : opens_for_write [EvFopen path "w" ok] = 1.
Proof. reflexivity. Qed.

Lemma opens_for_write_logs (f : nat -> list logarg) level fmt l :
  opens_for_write (map (fun i => EvLog level fmt (f i)) l) = 0.
Proof. induction l as [|x l IH]; [reflexivity | exact IH]. Qed.

Lemma opens_for_write_scan_logs name path values n e :
  opens_for_write (scan_logs name path values n e) = 0.
Proof.
  unfold scan_logs. destruct (negb _); [reflexivity|].
  unfold read_logs. apply opens_for_write_logs.
Qed.

(** *** The comparison loop *)

Lemma mismatch_from_bounds old_values values : forall count i,
  i <= mismatch_from i count old_values values <= i + count.
Proof.
  induction count as [|c IH]; intros i; simpl; [lia|].
  destruct (long_at old_values i =? long_at values i)%Z; [|lia].
  specialize (IH (S i)). lia.
Qed.

Lemma mismatch_from_all old_values values : forall count i,
  mismatch_from i count old_values values = i + count
  <-> (forall k, i <= k < i + count -> long_at old_values k = long_at values k).
Proof.
  induction count as [|c IH]; intros i; simpl.
  - split; [intros _ k Hk; lia | intros _; lia].
  - destruct (long_at old_values i =? long_at values i)%Z eqn:E.
    + apply Z.eqb_eq in E.
      replace (i + S c) with (S i + c) by lia. rewrite (IH (S i)).
      split; intros H.
      * intros k Hk. destruct (decide (k = i)) as [->|Hne]; [done|]. apply H. lia.
      * intros k Hk. apply H. lia.
    + apply Z.eqb_neq in E. split; [lia|].
      intros H. exfalso. apply E. apply H. lia.
Qed.

Lemma mismatch_none old_values values count :
  mismatch_from 0 count old_values values = count
  <-> (forall k, k < count -> long_at old_values k = long_at values k).
Proof.
  pose proof (mismatch_from_all old_values values count 0) as H. simpl in H.
  rewrite H. split; intros Hk k ?; apply Hk; lia.
Qed.

Lemma long_at_store_prefix vs buf k :
  k < length vs -> long_at (store_prefix vs buf) k = long_at vs k.
Proof. intros Hk. unfold long_at, store_prefix. by rewrite app_nth1. Qed.

Lemma long_at_take n values k :
  k < n -> long_at (take n values) k = long_at values k.
Proof.
  unfold long_at. revert n k. induction values as [|v values IH]; intros n k Hk.
  - by rewrite take_nil.
  - destruct n as [|n]; [lia|]. destruct k as [|k]; simpl; [done|]. apply IH. lia.
Qed.

Lemma long_at_ext (a b : list Z) :
  length a = length b ->
  (forall k, k < length a -> long_at a k = long_at b k) ->
  a = b.
Proof.
  revert b. induction a as [|x a IH]; intros [|y b] Hlen H; simpl in *; try done.
  f_equal.
  - apply (H 0). lia.
  - apply IH; [lia|]. intros k Hk. apply (H (S k)). lia.
Qed.

Lemma fscanf3_count content :
  (0 <= fst (fscanf3 content))%Z ->
  fst (fscanf3 content) = Z.of_nat (length (snd (fscanf3 content))).
Proof. destruct content; simpl; [unfold EOF; lia | done]. Qed.

(** The comparison of [bpftune_sysctl_write] succeeds exactly when the
    scan gave the first [num_values] requested values and no more. *)
Lemma skip_condition content num_values values :
  num_values <= length values ->
  (0 <= fst (fscanf3 content))%Z ->
  (Z.of_nat num_values =? fst (fscanf3 content))%Z
  && (mismatch_from 0 num_values
        (store_prefix (snd (fscanf3 content)) (replicate BPFTUNE_MAX_VALUES 0%Z)) values
      =? num_values) = true
  <-> snd (fscanf3 content) = take num_values values.
Proof.
  intros Hlen Hpos. rewrite (fscanf3_count content Hpos).
  set (vs := snd (fscanf3 content)).
  rewrite andb_true_iff, Z.eqb_eq, Nat.eqb_eq.
  split.
  - intros [Hn Hm]. apply Nat2Z.inj in Hn.
    pose proof (proj1 (mismatch_none _ _ _) Hm) as Hk.
    apply long_at_ext.
    + rewrite length_take. lia.
    + intros k Hlt. rewrite long_at_take by lia.
      rewrite <- Hk by lia. by rewrite long_at_store_prefix.
  - intros Hvs.
    assert (length vs = num_values) as Hn by (rewrite Hvs, length_take; lia).
    split; [lia|].
    apply mismatch_none. intros k Hk.
    rewrite long_at_store_prefix by lia. rewrite Hvs. apply long_at_take. lia.
Qed.

Lemma write_after_switch_skip name num_values values orig f s :
  files s !! (cur_netns s, sysctl_path name) = Some f ->
  (0 < fst (fscanf3 (f_content f)))%Z ->
  snd (fscanf3 (f_content f)) = take num_values values ->
  num_values <= length values ->
  write_after_switch name num_values values orig s
  = Ret 0%Z
      (emits (EvFopen (sysctl_path name) "r" true
              :: scan_logs name (sysctl_path name)
                   (store_prefix (snd (fscanf3 (f_content f)))
                      (replicate BPFTUNE_MAX_VALUES 0%Z))
                   (fst (fscanf3 (f_content f))) (errno s)) s).
Proof.
  intros Hf Hpos Hvs Hlen.
  unfold write_after_switch. cbv zeta.
  mstep. rewrite (sysctl_read_here _ _ f) by done. cbv beta iota. cbn [fst snd].
  assert ((fst (fscanf3 (f_content f)) <? 0)%Z = false) as -> by (apply Z.ltb_ge; lia).
  cbv beta iota.
  assert (H : (Z.of_nat num_values =? fst (fscanf3 (f_content f)))%Z
              && (mismatch_from 0 num_values
                    (store_prefix (snd (fscanf3 (f_content f)))
                       (replicate BPFTUNE_MAX_VALUES 0%Z)) values
                  =? num_values) = true)
    by (apply skip_condition; [done | lia | done]).
  rewrite H. reflexivity.
Qed.

Lemma readable_inv s ns path vs :
  readable s ns path = Some vs ->
  exists f, files s !! (ns, path) = Some f
            /\ (0 < fst (fscanf3 (f_content f)))%Z
            /\ snd (fscanf3 (f_content f)) = vs.
Proof.
  unfold readable. destruct (files s !! (ns, path)) as [f|]; [|done].
  destruct (0 <? fst (fscanf3 (f_content f)))%Z eqn:E; [|done].
  intros [= <-]. exists f. apply Z.ltb_lt in E. done.
Qed.

Lemma target_netns_inv s netns_fd ns :
  target_netns s netns_fd = Some ns ->
  (netns_fd = 0%Z /\ ns = cur_netns s)
  \/ (netns_fd <> 0%Z /\ self_ns_ok s = true /\ fds s !! netns_fd = Some ns).
Proof.
  unfold target_netns. destruct (netns_fd =? 0)%Z eqn:E.
  - apply Z.eqb_eq in E. intros [= <-]. by left.
  - apply Z.eqb_neq in E. destruct (self_ns_ok s); [|done]. intros H. by right.
Qed.

(** The first half of C4: a write of the values the sysctl already shows
    in the target namespace is skipped. *)
Lemma sysctl_write_skips s netns_fd name num_values values ns :
  wf_fds s ->
  target_netns s netns_fd = Some ns ->
  readable s ns (sysctl_path name) = Some (take num_values values) ->
  num_values <= length values ->
  exists s',
    bpftune_sysctl_write netns_fd name num_values values s = Ret 0%Z s'
    /\ opens_for_write (trace s') = opens_for_write (trace s)
    /\ files s' = files s
    /\ cur_netns s' = ns.
Proof.
  intros Hwf Htgt Hrd Hlen.
  destruct (readable_inv _ _ _ _ Hrd) as (f & Hf & Hpos & Hvs).
  rewrite sysctl_write_unfold.
  mstep. unfold bpftune_log at 1, modify at 1. cbv beta iota.
  mstep.
  destruct (target_netns_inv _ _ _ Htgt) as [[-> ->] | (Hnz & Hok & Hfd)].
  - rewrite netns_set_zero. cbv beta iota. cbn [fst snd]. change (0 <? 0)%Z with false. cbv beta iota.
    rewrite (write_after_switch_skip _ _ _ _ f) by done.
    eexists. split; [reflexivity|]. fields. split; [|split; reflexivity].
    change (EvFopen (sysctl_path name) "r" true :: ?l)
      with ([EvFopen (sysctl_path name) "r" true] ++ l).
    rewrite !opens_for_write_app, opens_for_write_scan_logs,
      opens_for_write_log1, opens_for_write_read1. lia.
  - rewrite (netns_set_switch netns_fd ns) by done. cbv beta iota. cbn [fst snd].
    change (0 <? 0)%Z with false. cbv beta iota.
    rewrite (write_after_switch_skip _ _ _ _ f) by done.
    eexists. split; [reflexivity|]. unfold entered. fields. split; [|split; reflexivity].
    change (EvFopen (sysctl_path name) "r" true :: ?l)
      with ([EvFopen (sysctl_path name) "r" true] ++ l).
    rewrite !opens_for_write_app, opens_for_write_scan_logs,
      opens_for_write_log1, opens_for_write_read1, opens_for_write_setns1. lia.
Qed.

(** A skipped write through a descriptor ends in the namespace behind the
    descriptor, not in the one the call started in. *)
Lemma sysctl_write_skip_stays_in_target s netns_fd name num_values values ns :
  wf_fds s ->
  target_netns s netns_fd = Some ns ->
  readable s ns (sysctl_path name) = Some (take num_values values) ->
  num_values <= length values ->
  ns <> cur_netns s ->
  exists s',
    bpftune_sysctl_write netns_fd name num_values values s = Ret 0%Z s'
    /\ cur_netns s' <> cur_netns s.
Proof.
  intros Hwf Htgt Hrd Hlen Hns.
  destruct (sysctl_write_skips s netns_fd name num_values values ns Hwf Htgt Hrd Hlen)
    as (s' & Hrun & _ & _ & Hcur).
  exists s'. split; [exact Hrun | by rewrite Hcur].
Qed.

(** *** The write itself *)

Lemma set_files_id s : set_files (files s) s = s.
Proof. by destruct s. Qed.

Lemma fprintf_loop fp values : forall count from s c w,
  files s !! fp = Some (SysFile c w) ->
  for_loop from count (fun i => sys_fprintf_ld fp (long_at values i)) s
  = Ret tt
      (emits (map (fun i => EvFprintf (snd fp) (long_at values i)) (seq from count))
         (set_files
            (<[fp := SysFile (c ++ map (fun i => TNum (long_at values i)) (seq from count)) w]>
               (files s)) s)).
Proof.
  induction count as [|n IH]; intros from s c w Hf; simpl.
  - rewrite app_nil_r, insert_id by done. by rewrite set_files_id, emits_nil.
  - mstep. unfold sys_fprintf_ld at 1. rewrite Hf. cbv beta iota.
    rewrite (IH _ _ (c ++ [TNum (long_at values from)]) w)
      by (fields; by rewrite lookup_insert_eq).
    f_equal. state_eq.
    + by rewrite insert_insert_eq, <- app_assoc.
    + by rewrite <- app_assoc.
Qed.

Lemma map_long_at_seq values n :
  n <= length values -> map (long_at values) (seq 0 n) = take n values.
Proof.
  intros Hn. apply long_at_ext.
  - rewrite length_map, length_seq, length_take. lia.
  - intros k Hk. rewrite length_map, length_seq in Hk.
    rewrite long_at_take by done. unfold long_at at 1.
    rewrite (nth_indep _ 0%Z (long_at values 0)) by (rewrite length_map, length_seq; lia).
    rewrite map_nth, seq_nth by done. reflexivity.
Qed.

Lemma scan_longs_nums l : forall n, length l <= n -> scan_longs n (map TNum l) = l.
Proof.
  induction l as [|z l IH]; intros n Hn; simpl in *.
  - by destruct n.
  - destruct n as [|n]; [lia|]. simpl. f_equal. apply IH. lia.
Qed.

Lemma fscanf3_nums l :
  1 <= length l <= BPFTUNE_MAX_VALUES ->
  fscanf3 (map TNum l) = (Z.of_nat (length l), l).
Proof.
  intros [H1 H3]. unfold fscanf3.
  destruct l as [|z l]; [simpl in H1; lia|].
  change (map TNum (z :: l)) with (TNum z :: map TNum l).
  cbv iota. change (TNum z :: map TNum l) with (map TNum (z :: l)).
  rewrite scan_longs_nums by done. reflexivity.
Qed.

Lemma write_after_switch_writes name num_values values orig f s :
  files s !! (cur_netns s, sysctl_path name) = Some f ->
  f_writable f = true ->
  (0 <= fst (fscanf3 (f_content f)))%Z ->
  snd (fscanf3 (f_content f)) <> take num_values values ->
  num_values <= length values ->
  write_after_switch name num_values values orig s
  = (bpftune_netns_set orig false ;; ret 0%Z) (written name num_values values f s).
Proof.
  intros Hf Hw Hpos Hvs Hlen.
  unfold write_after_switch. cbv zeta.
  mstep. rewrite (sysctl_read_here _ _ f) by done. cbv beta iota. cbn [fst snd].
  assert ((fst (fscanf3 (f_content f)) <? 0)%Z = false) as -> by (apply Z.ltb_ge; lia).
  cbv beta iota.
  assert (H : (Z.of_nat num_values =? fst (fscanf3 (f_content f)))%Z
              && (mismatch_from 0 num_values
                    (store_prefix (snd (fscanf3 (f_content f)))
                       (replicate BPFTUNE_MAX_VALUES 0%Z)) values
                  =? num_values) = false).
  { apply not_true_iff_false. intros Ht. apply Hvs.
    by apply (skip_condition (f_content f) num_values values). }
  rewrite H. cbv beta iota. clear H.
  fold (sysctl_path name).
  mstep. unfold sys_fopen_w at 1. fields. rewrite Hf, Hw. cbv beta iota.
  mstep. rewrite (fprintf_loop _ _ _ _ _ [] true) by (fields; by rewrite lookup_insert_eq).
  cbv beta iota.
  mstep. unfold bpftune_log. rewrite log_loop_emits. cbv beta iota.
  apply (f_equal (bpftune_netns_set orig false ;; ret 0%Z)).
  unfold written, wrote_logs. state_eq.
  + rewrite insert_insert_eq. cbn [app].
    rewrite <- (map_long_at_seq values num_values) by done.
    by rewrite map_map.
  + cbn [snd]. by rewrite <- !app_assoc.
Qed.

Lemma opens_for_write_cons e l :
  opens_for_write (e :: l) = (if is_open_w e then 1 else 0) + opens_for_write l.
Proof.
  unfold opens_for_write. rewrite filter_cons.
  destruct (is_open_w e).
  - by rewrite decide_True.
  - rewrite decide_False; [reflexivity | by intros []].
Qed.

Lemma opens_for_write_fprintfs path (f : nat -> Z) l :
  opens_for_write (map (fun i => EvFprintf path (f i)) l) = 0.
Proof. induction l as [|x l IH]; [reflexivity | exact IH]. Qed.

Lemma opens_for_write_written name num_values values f s :
  opens_for_write (trace (written name num_values values f s))
  = S (opens_for_write (trace s)).
Proof.
  unfold written. fields.
  rewrite opens_for_write_app, opens_for_write_cons, opens_for_write_app,
    opens_for_write_scan_logs, opens_for_write_cons, opens_for_write_app,
    opens_for_write_fprintfs.
  unfold wrote_logs. rewrite opens_for_write_logs.
  cbn [is_open_w String.eqb Ascii.eqb Bool.eqb]. simpl. lia.
Qed.

(** The fields of the three states above that the write path looks at. *)
Lemma written_fields name num_values values f s :
  cur_netns (written name num_values values f s) = cur_netns s
  /\ fds (written name num_values values f s) = fds s
  /\ next_fd (written name num_values values f s) = next_fd s
  /\ self_ns_ok (written name num_values values f s) = self_ns_ok s
  /\ files (written name num_values values f s)
     = <[(cur_netns s, sysctl_path name)
         := SysFile (map TNum (take num_values values)) true]> (files s).
Proof. repeat split. Qed.

Lemma entered_fields new_fd ns s :
  cur_netns (entered new_fd ns s) = ns
  /\ fds (entered new_fd ns s) = <[next_fd s := cur_netns s]> (fds s)
  /\ next_fd (entered new_fd ns s) = (next_fd s + 1)%Z
  /\ self_ns_ok (entered new_fd ns s) = self_ns_ok s
  /\ files (entered new_fd ns s) = files s
  /\ trace (entered new_fd ns s) = trace s ++ [EvSetns new_fd true].
Proof. repeat split. Qed.

Lemma restored_fields orig ns s :
  cur_netns (restored orig ns s) = ns
  /\ fds (restored orig ns s) = fds s
  /\ next_fd (restored orig ns s) = (next_fd s + 1)%Z
  /\ self_ns_ok (restored orig ns s) = self_ns_ok s
  /\ files (restored orig ns s) = files s
  /\ trace (restored orig ns s) = trace s ++ [EvSetns orig true].
Proof. repeat split. Qed.

Lemma wf_fds_opened s s' :
  wf_fds s ->
  fds s' = <[next_fd s := cur_netns s]> (fds s) ->
  next_fd s' = (next_fd s + 1)%Z ->
  wf_fds s'.
Proof.
  intros [Hp Hlt] Hfds Hnext. unfold wf_fds. rewrite Hfds, Hnext. split; [lia|].
  intros fd' ns' Hfd'.
  destruct (decide (fd' = next_fd s)) as [->|Hne']; [lia|].
  rewrite lookup_insert_ne in Hfd' by done. apply Hlt in Hfd'. lia.
Qed.

Lemma wf_fds_next s s' :
  wf_fds s -> fds s' = fds s -> next_fd s' = (next_fd s + 1)%Z -> wf_fds s'.
Proof.
  intros [Hp Hlt] Hfds Hnext. unfold wf_fds. rewrite Hfds, Hnext. split; [lia|].
  intros fd' ns' Hfd'. apply Hlt in Hfd'. lia.
Qed.

(** The write of other values, for the namespace the thread is in. *)
Lemma sysctl_write_writes_here s name num_values values f :
  files s !! (cur_netns s, sysctl_path name) = Some f ->
  f_writable f = true ->
  (0 <= fst (fscanf3 (f_content f)))%Z ->
  snd (fscanf3 (f_content f)) <> take num_values values ->
  num_values <= length values ->
  bpftune_sysctl_write 0 name num_values values s
  = Ret 0%Z
      (written name num_values values f
         (emit (EvLog LOG_DEBUG "writing sysctl '%s' for netns_fd %d\n"
                  [AStr (sysctl_path name); AInt 0]) s)).
Proof.
  intros Hf Hw Hpos Hvs Hlen.
  set (s0 := emit (EvLog LOG_DEBUG "writing sysctl '%s' for netns_fd %d\n"
                     [AStr (sysctl_path name); AInt 0]) s).
  assert (files s0 !! (cur_netns s0, sysctl_path name) = Some f) as Hf0 by exact Hf.
  rewrite sysctl_write_unfold.
  mstep. unfold bpftune_log at 1, modify at 1. cbv beta iota. fold s0.
  mstep. rewrite netns_set_zero. cbv beta iota. cbn [fst snd].
  change (0 <? 0)%Z with false. cbv beta iota.
  rewrite (write_after_switch_writes _ _ _ _ f s0 Hf0 Hw Hpos Hvs Hlen).
  mstep. rewrite netns_set_zero. reflexivity.
Qed.

(** The same through a descriptor: into the namespace, the write, and
    back. *)
Lemma sysctl_write_writes_there s netns_fd ns name num_values values f :
  netns_fd <> 0%Z ->
  wf_fds s ->
  self_ns_ok s = true ->
  fds s !! netns_fd = Some ns ->
  files s !! (ns, sysctl_path name) = Some f ->
  f_writable f = true ->
  (0 <= fst (fscanf3 (f_content f)))%Z ->
  snd (fscanf3 (f_content f)) <> take num_values values ->
  num_values <= length values ->
  bpftune_sysctl_write netns_fd name num_values values s
  = Ret 0%Z
      (restored (next_fd s) (cur_netns s)
         (written name num_values values f
            (entered netns_fd ns
               (emit (EvLog LOG_DEBUG "writing sysctl '%s' for netns_fd %d\n"
                        [AStr (sysctl_path name); AInt netns_fd]) s)))).
Proof.
  intros Hnz Hwf Hok Hfd Hf Hw Hpos Hvs Hlen.
  pose proof Hwf as [Hp Hlt].
  set (s0 := emit (EvLog LOG_DEBUG "writing sysctl '%s' for netns_fd %d\n"
                     [AStr (sysctl_path name); AInt netns_fd]) s).
  assert (wf_fds s0) as Hwf0 by exact Hwf.
  assert (self_ns_ok s0 = true) as Hok0 by exact Hok.
  assert (fds s0 !! netns_fd = Some ns) as Hfd0 by exact Hfd.
  rewrite sysctl_write_unfold.
  mstep. unfold bpftune_log at 1, modify at 1. cbv beta iota. fold s0.
  mstep. rewrite (netns_set_switch netns_fd ns s0 Hnz Hwf0 Hok0 Hfd0).
  cbv beta iota. cbn [fst snd].
  change (0 <? 0)%Z with false. cbv beta iota.
  set (s1 := entered netns_fd ns s0).
  destruct (entered_fields netns_fd ns s0) as (E1 & E2 & E3 & E4 & E5 & _).
  fold s1 in E1, E2, E3, E4, E5.
  assert (files s1 !! (cur_netns s1, sysctl_path name) = Some f) as Hf1
    by (rewrite E1, E5; exact Hf).
  rewrite (write_after_switch_writes _ _ _ _ f s1 Hf1 Hw Hpos Hvs Hlen).
  set (s2 := written name num_values values f s1).
  destruct (written_fields name num_values values f s1) as (W1 & W2 & W3 & W4 & _).
  fold s2 in W1, W2, W3, W4.
  assert (wf_fds s2) as Hwf2.
  { apply (wf_fds_opened s0); [exact Hwf0 | by rewrite W2, E2 | by rewrite W3, E3]. }
  assert (fds s2 !! next_fd s0 = Some (cur_netns s0)) as Hfd2
    by (rewrite W2, E2; apply lookup_insert_eq).
  assert (self_ns_ok s2 = true) as Hok2 by (rewrite W4, E4; exact Hok0).
  assert (next_fd s0 <> 0%Z) as Hnz2 by (destruct Hwf0; lia).
  mstep. rewrite (netns_set_restore (next_fd s0) (cur_netns s0) s2 Hnz2 Hwf2 Hok2 Hfd2).
  reflexivity.
Qed.

(** A write of other values than the sysctl shows goes to the kernel once
    and comes back to the namespace it started in. *)
Lemma sysctl_write_writes s netns_fd name num_values values ns f :
  wf_fds s ->
  target_netns s netns_fd = Some ns ->
  files s !! (ns, sysctl_path name) = Some f ->
  f_writable f = true ->
  f_content f <> [] ->
  readable s ns (sysctl_path name) <> Some (take num_values values) ->
  1 <= num_values <= length values ->
  exists s',
    bpftune_sysctl_write netns_fd name num_values values s = Ret 0%Z s'
    /\ opens_for_write (trace s') = S (opens_for_write (trace s))
    /\ files s' = <[(ns, sysctl_path name)
                    := SysFile (map TNum (take num_values values)) true]> (files s)
    /\ wf_fds s'
    /\ target_netns s' netns_fd = Some ns
    /\ cur_netns s' = cur_netns s.
Proof.
  intros Hwf Htgt Hf Hw Hne Hrd [H1 Hlen].
  assert (0 <= fst (fscanf3 (f_content f)))%Z as Hpos.
  { destruct (f_content f); [done|]. simpl. lia. }
  assert (snd (fscanf3 (f_content f)) <> take num_values values) as Hvs.
  { intros Heq. unfold readable in Hrd. rewrite Hf in Hrd.
    destruct (0 <? fst (fscanf3 (f_content f)))%Z eqn:E.
    - by rewrite Heq in Hrd.
    - apply Z.ltb_ge in E. rewrite fscanf3_count in E by done.
      assert (length (take num_values values) = 0) as Hz by (rewrite <- Heq; lia).
      rewrite length_take in Hz. lia. }
  set (e0 := EvLog LOG_DEBUG "writing sysctl '%s' for netns_fd %d\n"
               [AStr (sysctl_path name); AInt netns_fd]).
  destruct (target_netns_inv _ _ _ Htgt) as [[-> ->] | (Hnz & Hok & Hfd)].
  - rewrite (sysctl_write_writes_here s name num_values values f Hf Hw Hpos Hvs Hlen).
    fold e0. set (s0 := emit e0 s).
    destruct (written_fields name num_values values f s0) as (W1 & W2 & W3 & W4 & W5).
    eexists. split; [reflexivity|].
    split; [|split; [|split; [|split]]].
    + rewrite opens_for_write_written. unfold s0, e0, emit, emits. fields.
      rewrite opens_for_write_app, opens_for_write_log1. lia.
    + exact W5.
    + destruct Hwf as [Hp Hlt]. unfold wf_fds. rewrite W2, W3. by split.
    + unfold target_netns. rewrite W1. reflexivity.
    + exact W1.
  - rewrite (sysctl_write_writes_there s netns_fd ns name num_values values f
               Hnz Hwf Hok Hfd Hf Hw Hpos Hvs Hlen).
    fold e0. set (s0 := emit e0 s). set (s1 := entered netns_fd ns s0).
    set (s2 := written name num_values values f s1).
    destruct (entered_fields netns_fd ns s0) as (E1 & E2 & E3 & E4 & E5 & E6).
    fold s1 in E1, E2, E3, E4, E5, E6.
    destruct (written_fields name num_values values f s1) as (W1 & W2 & W3 & W4 & W5).
    fold s2 in W1, W2, W3, W4, W5.
    destruct (restored_fields (next_fd s) (cur_netns s) s2) as (R1 & R2 & R3 & R4 & R5 & R6).
    assert (wf_fds s2) as Hwf2.
    { apply (wf_fds_opened s0); [exact Hwf | by rewrite W2, E2 | by rewrite W3, E3]. }
    eexists. split; [reflexivity|].
    split; [|split; [|split; [|split]]].
    + rewrite R6, opens_for_write_app, opens_for_write_setns1.
      unfold s2. rewrite opens_for_write_written, E6.
      rewrite opens_for_write_app, opens_for_write_setns1.
      unfold s0, e0, emit, emits. fields.
      rewrite opens_for_write_app, opens_for_write_log1. lia.
    + rewrite R5, W5, E1, E5. reflexivity.
    + apply (wf_fds_next s2); [exact Hwf2 | exact R2 | exact R3].
    + unfold target_netns. rewrite R4, R2, W4, W2, E4, E2.
      apply Z.eqb_neq in Hnz as ->. change (self_ns_ok s0) with (self_ns_ok s).
      rewrite Hok. change (next_fd s0) with (next_fd s).
      destruct Hwf as [Hp Hlt].
      rewrite lookup_insert_ne by (apply Hlt in Hfd; lia). exact Hfd.
    + exact R1.
Qed.

Lemma readable_written s ns path vs :
  1 <= length vs <= BPFTUNE_MAX_VALUES ->
  files s !! (ns, path) = Some (SysFile (map TNum vs) true) ->
  readable s ns path = Some vs.
Proof.
  intros Hlen Hf. unfold readable. rewrite Hf. cbn [f_content].
  rewrite (fscanf3_nums vs Hlen). cbn [fst snd].
  assert ((0 <? Z.of_nat (length vs))%Z = true) as -> by (apply Z.ltb_lt; lia).
  reflexivity.
Qed.

(** C4, amended: a write whose values the target namespace already shows,
    in count and contents, opens nothing for writing, changes no file and
    reports success; and of two writes of the same values in succession
    to a sysctl that is there, writable and showed something else, the
    first opens the file for writing once and the second not at all,
    provided the sysctl reads back as written: whatever the kernel shows
    after the first write ([shown]), if its scan gives the requested
    values in count and contents, the second call changes nothing. *)
Theorem sysctl_write_idempotent :
  (forall (s : state) (netns_fd : Z) (name : string) (num_values : nat)
          (values : list Z) (ns : netns),
      wf_fds s ->
      target_netns s netns_fd = Some ns ->
      readable s ns (sysctl_path name) = Some (take num_values values) ->
      num_values <= length values ->
      exists s',
        bpftune_sysctl_write netns_fd name num_values values s = Ret 0%Z s'
        /\ opens_for_write (trace s') = opens_for_write (trace s)
        /\ files s' = files s)
  /\ (forall (s : state) (netns_fd : Z) (name : string) (num_values : nat)
             (values : list Z) (ns : netns) (f shown : sysfile),
         wf_fds s ->
         target_netns s netns_fd = Some ns ->
         files s !! (ns, sysctl_path name) = Some f ->
         f_writable f = true ->
         f_content f <> [] ->
         readable s ns (sysctl_path name) <> Some (take num_values values) ->
         1 <= num_values <= length values ->
         (0 < fst (fscanf3 (f_content shown)))%Z ->
         snd (fscanf3 (f_content shown)) = take num_values values ->
         exists s1 s2,
           bpftune_sysctl_write netns_fd name num_values values s = Ret 0%Z s1
           /\ bpftune_sysctl_write netns_fd name num_values values
                (kernel_shows ns (sysctl_path name) shown s1) = Ret 0%Z s2
           /\ opens_for_write (trace s1) = S (opens_for_write (trace s))
           /\ opens_for_write (trace s2) = opens_for_write (trace s1)
           /\ files s2 = files (kernel_shows ns (sysctl_path name) shown s1)).
Proof.
  split.
  - intros s netns_fd name num_values values ns Hwf Htgt Hrd Hlen.
    destruct (sysctl_write_skips s netns_fd name num_values values ns Hwf Htgt Hrd Hlen)
      as (s' & Hrun & Hopen & Hfiles & _).
    by exists s'.
  - intros s netns_fd name num_values values ns f shown
      Hwf Htgt Hf Hw Hne Hrd Hlen Hpos Hback.
    destruct (sysctl_write_writes s netns_fd name num_values values ns f
                Hwf Htgt Hf Hw Hne Hrd Hlen)
      as (s1 & Hrun1 & Hopen1 & _ & Hwf1 & Htgt1 & _).
    set (s1' := kernel_shows ns (sysctl_path name) shown s1).
    assert (readable s1' ns (sysctl_path name) = Some (take num_values values)) as Hrd1.
    { unfold readable, s1', kernel_shows. fields. rewrite lookup_insert_eq.
      apply Z.ltb_lt in Hpos. by rewrite Hpos, Hback. }
    destruct (sysctl_write_skips s1' netns_fd name num_values values ns
                Hwf1 Htgt1 Hrd1 (proj2 Hlen))
      as (s2 & Hrun2 & Hopen2 & Hfiles2 & _).
    exists s1, s2. repeat split; assumption.
Qed.

(** The descriptors of the example state are well formed. *)
Lemma wf_fds_demo : wf_fds demo_state.
Proof.
  split; [reflexivity|]. intros fd ns H. unfold demo_state in *. cbn [fds next_fd] in *.
  destruct (decide (fd = 5%Z)) as [->|Hne]; [reflexivity|].
  rewrite lookup_singleton_ne in H by done. discriminate.
Defined.

(** C4, amended, in the example state, through descriptor 5: a write of
    the values namespace 1 shows, and two writes of other values with the
    sysctl showing them after the first. *)
Lemma sysctl_write_idempotent_witness :
  (exists s',
      bpftune_sysctl_write 5 "net.ipv4.tcp_rmem" 3 [1; 1; 1]%Z demo_state = Ret 0%Z s'
      /\ opens_for_write (trace s') = opens_for_write (trace demo_state)
      /\ files s' = files demo_state)
  /\ (exists s1 s2,
         bpftune_sysctl_write 5 "net.ipv4.tcp_rmem" 3 [4096; 131072; 6291456]%Z demo_state
         = Ret 0%Z s1
         /\ bpftune_sysctl_write 5 "net.ipv4.tcp_rmem" 3 [4096; 131072; 6291456]%Z
              (kernel_shows 1 (sysctl_path "net.ipv4.tcp_rmem")
                 (SysFile [TNum 4096; TNum 131072; TNum 6291456] true) s1)
            = Ret 0%Z s2
         /\ opens_for_write (trace s1) = S (opens_for_write (trace demo_state))
         /\ opens_for_write (trace s2) = opens_for_write (trace s1)
         /\ files s2
            = files (kernel_shows 1 (sysctl_path "net.ipv4.tcp_rmem")
                       (SysFile [TNum 4096; TNum 131072; TNum 6291456] true) s1)).
Proof.
  split.
  - apply (proj1 sysctl_write_idempotent demo_state 5%Z "net.ipv4.tcp_rmem" 3
             [1; 1; 1]%Z 1).
    + exact wf_fds_demo.
    + reflexivity.
    + vm_compute. reflexivity.
    + simpl. lia.
  - apply (proj2 sysctl_write_idempotent demo_state 5%Z "net.ipv4.tcp_rmem" 3
             [4096; 131072; 6291456]%Z 1 (SysFile [TNum 1; TNum 1; TNum 1] true)
             (SysFile [TNum 4096; TNum 131072; TNum 6291456] true)).
    + exact wf_fds_demo.
    + reflexivity.
    + vm_compute. reflexivity.
    + reflexivity.
    + discriminate.
    + vm_compute. discriminate.
    + simpl. lia.
    + reflexivity.
    + reflexivity.
Defined.

(** C4, counterexample: the same one value written twice in succession
    to [net.ipv4.tcp_rmem], a sysctl of three values.  The first call
    opens the sysctl for writing and returns 0.  The kernel then shows
    the vector with its first component replaced, 5 1 1.  The second call
    scans three values where it was asked for one, so its comparison of
    the counts fails and it opens the sysctl for writing again: two
    kernel writes. *)
Lemma sysctl_write_twice_writes_twice :
  returned (bpftune_sysctl_write 0 "net.ipv4.tcp_rmem" 1 [5]%Z demo_state) = Some 0%Z
  /\ opens_for_write
       (trace (final_state (bpftune_sysctl_write 0 "net.ipv4.tcp_rmem" 1 [5]%Z demo_state)))
     = 1
  /\ readable after_partial_write 0 "/proc/sys/net/ipv4/tcp_rmem" = Some [5; 1; 1]%Z
  /\ returned (bpftune_sysctl_write 0 "net.ipv4.tcp_rmem" 1 [5]%Z after_partial_write)
     = Some 0%Z
  /\ opens_for_write
       (trace (final_state
                 (bpftune_sysctl_write 0 "net.ipv4.tcp_rmem" 1 [5]%Z after_partial_write)))
     = 2.
Proof. vm_compute. auto. Qed.

(** Two writes of all three values in the example state, whose files show
    what was written: one open for writing in all, and the namespace
    behind descriptor 5 shows the values. *)
Example sysctl_write_twice_demo :
  opens_for_write
    (trace (final_state
              ((bpftune_sysctl_write 5 "net.ipv4.tcp_rmem" 3 [4096; 131072; 6291456]%Z ;;
                bpftune_sysctl_write 5 "net.ipv4.tcp_rmem" 3 [4096; 131072; 6291456]%Z)
                 demo_state)))
  = 1
  /\ readable
       (final_state
          ((bpftune_sysctl_write 5 "net.ipv4.tcp_rmem" 3 [4096; 131072; 6291456]%Z ;;
            bpftune_sysctl_write 5 "net.ipv4.tcp_rmem" 3 [4096; 131072; 6291456]%Z)
             demo_state))
       1 "/proc/sys/net/ipv4/tcp_rmem"
     = Some [4096; 131072; 6291456]%Z.
Proof. vm_compute. auto. Qed.

(** ** Sysctl paths *)

Lemma length_string_map f s : String.length (string_map f s) = String.length s.
Proof. induction s as [|c s IH]; simpl; [reflexivity | by rewrite IH]. Qed.

Lemma string_map_append f s1 s2 :
  string_map f (String.append s1 s2) = String.append (string_map f s1) (string_map f s2).
Proof. induction s1 as [|c s1 IH]; simpl; [reflexivity | by rewrite IH]. Qed.

Lemma length_string_append s1 s2 :
  String.length (String.append s1 s2) = String.length s1 + String.length s2.
Proof. induction s1 as [|c s1 IH]; simpl; [reflexivity | by rewrite IH]. Qed.

Lemma length_substring_0 s : forall n,
  String.length (String.substring 0 n s) = Nat.min n (String.length s).
Proof.
  induction s as [|c s IH]; intros [|n]; simpl; try reflexivity.
  by rewrite IH.
Qed.

Lemma substring_0_all s : forall n,
  String.length s <= n -> String.substring 0 n s = s.
Proof.
  induction s as [|c s IH]; intros [|n] Hn; simpl in *; try reflexivity; try lia.
  rewrite IH by lia. reflexivity.
Qed.

Lemma string_map_no_dot s :
  ~ In "."%char (list_ascii_of_string (string_map dot_to_slash s)).
Proof.
  induction s as [|c s IH]; simpl; [tauto|].
  intros [H|H]; [|tauto].
  unfold dot_to_slash in H. destruct (Ascii.eqb c ".") eqn:E.
  - discriminate.
  - apply Ascii.eqb_neq in E. congruence.
Qed.

(** X1: a name that fits the buffer is translated to "/proc/sys/" followed
    by the name with every dot turned into a slash. *)
Theorem sysctl_path_of_name_that_fits :
  forall (name : string) (path_sz : nat),
    String.length BPFTUNE_PROC_SYS + String.length name < path_sz ->
    bpftune_sysctl_name_to_path name path_sz
    = String.append BPFTUNE_PROC_SYS (string_map dot_to_slash name).
Proof.
  intros name path_sz Hfit. unfold bpftune_sysctl_name_to_path.
  rewrite substring_0_all by (rewrite length_string_append; lia).
  rewrite string_map_append. reflexivity.
Qed.

(** X1 for [net.ipv4.tcp_rmem] and the 512-byte buffer of the callers. *)
Lemma sysctl_path_of_name_that_fits_witness :
  bpftune_sysctl_name_to_path "net.ipv4.tcp_rmem" 512
  = String.append BPFTUNE_PROC_SYS (string_map dot_to_slash "net.ipv4.tcp_rmem").
Proof.
  apply (sysctl_path_of_name_that_fits "net.ipv4.tcp_rmem" 512). simpl. lia.
Defined.

(** X2: whatever the name, the path leaves room for the terminator in a
    buffer of [path_sz] bytes (a longer name is cut), and no dot is left
    in it. *)
Theorem sysctl_path_fits_buffer_and_has_no_dot :
  forall (name : string) (path_sz : nat),
    0 < path_sz ->
    String.length (bpftune_sysctl_name_to_path name path_sz)
    = Nat.min (path_sz - 1) (String.length BPFTUNE_PROC_SYS + String.length name)
    /\ String.length (bpftune_sysctl_name_to_path name path_sz) < path_sz
    /\ ~ In "."%char (list_ascii_of_string (bpftune_sysctl_name_to_path name path_sz)).
Proof.
  intros name path_sz Hsz. unfold bpftune_sysctl_name_to_path.
  rewrite length_string_map, length_substring_0, length_string_append.
  split; [reflexivity|]. split; [lia|]. apply string_map_no_dot.
Qed.

(** X2 for a name of 600 characters and the 512-byte buffer. *)
Lemma sysctl_path_fits_buffer_and_has_no_dot_witness :
  String.length (bpftune_sysctl_name_to_path (string_of_list_ascii (repeat "."%char 600)) 512)
  = Nat.min (512 - 1)
      (String.length BPFTUNE_PROC_SYS
       + String.length (string_of_list_ascii (repeat "."%char 600)))
  /\ String.length (bpftune_sysctl_name_to_path
                      (string_of_list_ascii (repeat "."%char 600)) 512) < 512
  /\ ~ In "."%char
         (list_ascii_of_string
            (bpftune_sysctl_name_to_path (string_of_list_ascii (repeat "."%char 600)) 512)).
Proof.
  apply (sysctl_path_fits_buffer_and_has_no_dot
           (string_of_list_ascii (repeat "."%char 600)) 512). lia.
Defined.

(** ** Frames: what a run leaves alone *)

Lemma keeps_ret {A} (R : state -> state -> Prop) `{!Reflexive R} (a : A) :
  keeps R (ret a).
Proof. intros s. simpl. reflexivity. Qed.

Lemma keeps_crash {A} (R : state -> state -> Prop) `{!Reflexive R} (f : fault) :
  keeps R (crash f : M A).
Proof. intros s. simpl. reflexivity. Qed.

Lemma keeps_gets {A} (R : state -> state -> Prop) `{!Reflexive R} (p : state -> A) :
  keeps R (gets p).
Proof. intros s. simpl. reflexivity. Qed.

Lemma keeps_bind {A B} (R : state -> state -> Prop) `{!Transitive R}
    (c : M A) (k : A -> M B) :
  keeps R c -> (forall a, keeps R (k a)) -> keeps R (bind c k).
Proof.
  intros Hc Hk s. unfold bind. specialize (Hc s).
  destruct (c s) as [a s'|f s']; simpl in *.
  - etransitivity; [exact Hc | apply Hk].
  - exact Hc.
Qed.

Lemma keeps_for_loop (R : state -> state -> Prop) `{!Reflexive R} `{!Transitive R}
    (body : nat -> M unit) :
  (forall i, keeps R (body i)) ->
  forall count from, keeps R (for_loop from count body).
Proof.
  intros Hbody count. induction count as [|c IH]; intros from; simpl.
  - by apply keeps_ret.
  - apply keeps_bind; [done | apply Hbody | intros _; apply IH].
Qed.

Global Instance unchanged_refl {X} (p : state -> X) : Reflexive (unchanged p).
Proof. intros s. reflexivity. Qed.

Global Instance unchanged_trans {X} (p : state -> X) : Transitive (unchanged p).
Proof. intros s1 s2 s3 H1 H2. unfold unchanged in *. congruence. Qed.

(** ** The namespace switch on every path *)

Lemma fds_ok_fresh s : fds_ok s -> fds s !! next_fd s = None.
Proof.
  intros [[Hp Hlt] _]. destruct (fds s !! next_fd s) eqn:E; [|done].
  apply Hlt in E. lia.
Qed.

Lemma fds_ok_minus_one s : fds_ok s -> fds s !! (-1)%Z = None.
Proof.
  intros [_ Hpos]. destruct (fds s !! (-1)%Z) eqn:E; [|done].
  apply Hpos in E. lia.
Qed.

(** A switch that cannot be made: the thread's own namespace cannot be
    opened, or the descriptor is not open. *)
Lemma netns_set_fails new_fd want s :
  fds_ok s ->
  new_fd <> 0%Z ->
  (if self_ns_ok s then <[next_fd s := cur_netns s]> (fds s) !! new_fd else None) = None ->
  exists es n,
    bpftune_netns_set new_fd want s
    = Ret ((- (if self_ns_ok s then EBADF else ENOENT))%Z, 0%Z)
          (emits es (set_errno EBADF (set_next_fd n s)))
    /\ fopen_calls es = [].
Proof.
  intros Hok Hnz Hno.
  pose proof (fds_ok_fresh s Hok) as Hfresh.
  pose proof (fds_ok_minus_one s Hok) as Hm1.
  destruct Hok as [[Hp Hlt] Hpos].
  unfold bpftune_netns_set.
  apply Z.eqb_neq in Hnz as Hnz'. rewrite Hnz'.
  mstep. unfold sys_open_self_ns at 1.
  destruct (self_ns_ok s); cbv beta iota.
  - assert ((next_fd s <? 0)%Z = false) as -> by (apply Z.ltb_ge; lia).
    mstep. mstep. unfold sys_setns at 1. fields. rewrite Hno. cbv beta iota.
    change (-1 <? 0)%Z with true. cbv beta iota.
    mstep. unfold gets at 1. cbv beta iota. fields.
    mstep. unfold sys_close at 1. fields. rewrite lookup_insert_eq. cbv beta iota.
    mstep. unfold bpftune_log at 1, modify at 1. cbv beta iota.
    unfold ret at 1. cbv beta iota.
    change ((- EBADF =? 0)%Z && want) with false. cbv beta iota.
    mstep. unfold sys_close at 1. fields.
    rewrite delete_insert_eq, delete_id by exact Hfresh. rewrite Hfresh. cbv beta iota.
    unfold ret.
    exists [EvSetns new_fd false;
            EvLog LOG_ERR "could not %ssetns(%d): %s\n"
              [AStr (if want then "" else "restore"); AInt new_fd; AErr EBADF]],
           (next_fd s + 1)%Z.
    split; [|reflexivity]. f_equal. state_eq. by rewrite <- app_assoc.
  - change (-1 <? 0)%Z with true. cbv beta iota.
    mstep. mstep. unfold gets at 1. cbv beta iota. fields.
    mstep. unfold bpftune_log at 1, modify at 1. cbv beta iota.
    unfold ret at 1. cbv beta iota.
    change ((- ENOENT =? 0)%Z && want) with false. cbv beta iota.
    mstep. unfold sys_close at 1. fields. rewrite Hm1. cbv beta iota.
    unfold ret.
    exists [EvLog LOG_ERR "could not get current netns fd(%d): %s\n"
              [AInt (-1); AErr ENOENT]], (next_fd s).
    split; [|reflexivity]. f_equal; state_eq.
Qed.

(** X3: a switch that cannot be made (the thread's own namespace cannot
    be opened, or the descriptor is not open) returns the negated errno
    of the call that failed and 0 for the origin; the thread stays in
    its namespace and the descriptor table is as before, so the
    descriptor opened on the way is not left behind. *)
Theorem netns_set_failure_changes_nothing :
  forall (s : state) (new_fd : Z) (want_orig : bool),
    fds_ok s ->
    new_fd <> 0%Z ->
    new_fd <> next_fd s ->
    target_netns s new_fd = None ->
    exists s',
      bpftune_netns_set new_fd want_orig s
      = Ret ((- (if self_ns_ok s then EBADF else ENOENT))%Z, 0%Z) s'
      /\ cur_netns s' = cur_netns s
      /\ fds s' = fds s
      /\ files s' = files s.
Proof.
  intros s new_fd want Hok Hnz Hnext Htgt.
  assert ((if self_ns_ok s then <[next_fd s := cur_netns s]> (fds s) !! new_fd else None)
          = None) as Hno.
  { unfold target_netns in Htgt. apply Z.eqb_neq in Hnz as Hnz'. rewrite Hnz' in Htgt.
    destruct (self_ns_ok s); [|done]. by rewrite lookup_insert_ne. }
  destruct (netns_set_fails new_fd want s Hok Hnz Hno) as (es & n & -> & _).
  eexists. split; [reflexivity|]. by repeat split.
Qed.

(** X3 in the example state, for descriptor 9, which is not open. *)
Lemma netns_set_failure_changes_nothing_witness :
  exists s',
    bpftune_netns_set 9 true demo_state
    = Ret ((- (if self_ns_ok demo_state then EBADF else ENOENT))%Z, 0%Z) s'
    /\ cur_netns s' = cur_netns demo_state
    /\ fds s' = fds demo_state
    /\ files s' = files demo_state.
Proof.
  apply (netns_set_failure_changes_nothing demo_state 9 true).
  - split; [exact wf_fds_demo|]. intros fd ns H.
    unfold demo_state in H. cbn [fds] in H.
    destruct (decide (fd = 5%Z)) as [->|Hne]; [reflexivity|].
    rewrite lookup_singleton_ne in H by done. discriminate.
  - discriminate.
  - discriminate.
  - reflexivity.
Defined.

(** The descriptors of the example state are positive. *)
Lemma fds_ok_demo : fds_ok demo_state.
Proof.
  split; [exact wf_fds_demo|]. intros fd ns H.
  unfold demo_state in H. cbn [fds] in H.
  destruct (decide (fd = 5%Z)) as [->|Hne]; [reflexivity|].
  rewrite lookup_singleton_ne in H by done. discriminate.
Defined.

(** X4: entering the namespace behind an open descriptor and restoring
    through the origin the switch returned is a round trip: the thread is
    in the target in between and back where it started afterwards.  The
    origin descriptor is a new descriptor of the starting namespace, and
    the restore leaves it open. *)
Theorem netns_set_enter_then_restore :
  forall (s : state) (new_fd : Z) (ns : netns),
    fds_ok s ->
    new_fd <> 0%Z ->
    target_netns s new_fd = Some ns ->
    exists s1 s2,
      bpftune_netns_set new_fd true s = Ret (0%Z, next_fd s) s1
      /\ cur_netns s1 = ns
      /\ fds s !! next_fd s = None
      /\ fds s1 !! next_fd s = Some (cur_netns s)
      /\ bpftune_netns_set (next_fd s) false s1 = Ret (0%Z, 0%Z) s2
      /\ cur_netns s2 = cur_netns s
      /\ fds s2 = <[next_fd s := cur_netns s]> (fds s).
Proof.
  intros s new_fd ns Hok Hnz Htgt.
  pose proof (fds_ok_fresh s Hok) as Hfresh.
  destruct Hok as [Hwf Hpos].
  destruct (target_netns_inv _ _ _ Htgt) as [[-> _] | (_ & Hself & Hfd)]; [done|].
  set (s1 := entered new_fd ns s).
  destruct (entered_fields new_fd ns s) as (E1 & E2 & E3 & E4 & E5 & _).
  fold s1 in E1, E2, E3, E4, E5.
  assert (wf_fds s1) as Hwf1 by (by apply (wf_fds_opened s)).
  assert (fds s1 !! next_fd s = Some (cur_netns s)) as Hfd1
    by (rewrite E2; apply lookup_insert_eq).
  assert (next_fd s <> 0%Z) as Hnz1 by (destruct Hwf; lia).
  exists s1, (restored (next_fd s) (cur_netns s) s1).
  split; [by apply netns_set_switch|].
  split; [exact E1|]. split; [exact Hfresh|]. split; [exact Hfd1|].
  split; [apply netns_set_restore; [done..| by rewrite E4 | done]|].
  destruct (restored_fields (next_fd s) (cur_netns s) s1) as (R1 & R2 & _).
  split; [exact R1 | by rewrite R2].
Qed.

(** X4 in the example state: into namespace 1 through descriptor 5 and
    back. *)
Lemma netns_set_enter_then_restore_witness :
  exists s1 s2,
    bpftune_netns_set 5 true demo_state = Ret (0%Z, next_fd demo_state) s1
    /\ cur_netns s1 = 1
    /\ fds demo_state !! next_fd demo_state = None
    /\ fds s1 !! next_fd demo_state = Some (cur_netns demo_state)
    /\ bpftune_netns_set (next_fd demo_state) false s1 = Ret (0%Z, 0%Z) s2
    /\ cur_netns s2 = cur_netns demo_state
    /\ fds s2 = <[next_fd demo_state := cur_netns demo_state]> (fds demo_state).
Proof.
  apply (netns_set_enter_then_restore demo_state 5 1).
  - exact fds_ok_demo.
  - discriminate.
  - reflexivity.
Defined.

(** ** The read path through a descriptor *)

Lemma sysctl_read_unfold netns_fd name values :
  bpftune_sysctl_read netns_fd name values
  = (so <- bpftune_netns_set netns_fd true ;;
     if (fst so <? 0)%Z then ret (fst so, values)
     else read_after_switch name values netns_fd (fst so) (snd so)).
Proof. reflexivity. Qed.

Lemma set_errno_id s : set_errno (errno s) s = s.
Proof. by destruct s. Qed.

Lemma setns_calls_logs (f : nat -> list logarg) level fmt l :
  setns_calls (map (fun i => EvLog level fmt (f i)) l) = [].
Proof. induction l as [|x l IH]; [reflexivity | exact IH]. Qed.

Lemma fopen_calls_logs (f : nat -> list logarg) level fmt l :
  fopen_calls (map (fun i => EvLog level fmt (f i)) l) = [].
Proof. induction l as [|x l IH]; [reflexivity | exact IH]. Qed.

Lemma setns_calls_app a b : setns_calls (a ++ b) = setns_calls a ++ setns_calls b.
Proof. unfold setns_calls. apply filter_app. Qed.

Lemma fopen_calls_app a b : fopen_calls (a ++ b) = fopen_calls a ++ fopen_calls b.
Proof. unfold fopen_calls. apply filter_app. Qed.

(** After the switch: one [fopen] for reading in the namespace the thread
    is in, the scan, and the restore; what is returned is what the file
    of that namespace gave. *)
Lemma read_after_switch_run name buf netns_fd orig s :
  exists es e,
    read_after_switch name buf netns_fd 0 orig s
    = (bpftune_netns_set orig false ;;
       ret (read_result (files s !! (cur_netns s, sysctl_path name)) buf))
        (emits es (set_errno e s))
    /\ setns_calls es = []
    /\ opens_for_write es = 0.
Proof.
  unfold read_after_switch, sysctl_path, read_result.
  generalize (bpftune_sysctl_name_to_path name 512). intros path.
  cbv zeta.
  mstep. unfold sys_fopen_r at 1.
  destruct (files s !! (cur_netns s, path)) as [f|]; cbv beta iota.
  - mstep. mstep. unfold gets at 1. cbv beta iota. fields.
    match goal with |- context [if negb ?c then _ else _] => destruct c end;
      simpl (negb _); cbv beta iota.
    + mstep. unfold bpftune_log. rewrite log_loop_emits. cbv beta iota.
      unfold ret at 1. cbv beta iota.
      eexists _, (errno s). split; [|split].
      * rewrite set_errno_id. unfold emit. rewrite emits_app. reflexivity.
      * rewrite setns_calls_app, setns_calls_logs. reflexivity.
      * rewrite opens_for_write_app, opens_for_write_logs. reflexivity.
    + mstep. unfold bpftune_log at 1, modify at 1. cbv beta iota.
      unfold ret at 1. cbv beta iota.
      eexists _, (errno s). split; [|split].
      * rewrite set_errno_id. unfold emit. rewrite emits_app. reflexivity.
      * reflexivity.
      * reflexivity.
  - mstep. mstep. unfold gets at 1. cbv beta iota. fields.
    mstep. unfold bpftune_log at 1, modify at 1. cbv beta iota.
    unfold ret at 1. cbv beta iota.
    eexists _, ENOENT. split; [|split].
    + unfold emit. rewrite emits_app. reflexivity.
    + reflexivity.
    + reflexivity.
Qed.

(** A read in the namespace a call with [netns_fd] operates in, on every
    path after the switch. *)
Lemma sysctl_read_run s netns_fd name buf ns :
  fds_ok s ->
  target_netns s netns_fd = Some ns ->
  exists s',
    bpftune_sysctl_read netns_fd name buf s
    = Ret (read_result (files s !! (ns, sysctl_path name)) buf) s'
    /\ cur_netns s' = cur_netns s
    /\ files s' = files s
    /\ opens_for_write (trace s') = opens_for_write (trace s)
    /\ fds s' = (if (netns_fd =? 0)%Z then fds s
                 else <[next_fd s := cur_netns s]> (fds s)).
Proof.
  intros Hok Htgt. pose proof Hok as [Hwf Hpos].
  rewrite sysctl_read_unfold. mstep.
  destruct (target_netns_inv _ _ _ Htgt) as [[-> ->] | (Hnz & Hself & Hfd)].
  - rewrite netns_set_zero. cbv beta iota. cbn [fst snd].
    change (0 <? 0)%Z with false. cbv beta iota.
    destruct (read_after_switch_run name buf 0 0 s) as (es & e & -> & Hs & Ho).
    mstep. rewrite netns_set_zero. cbv beta iota.
    eexists. split; [reflexivity|]. fields.
    split; [reflexivity|]. split; [reflexivity|]. split; [|reflexivity].
    rewrite opens_for_write_app, Ho. lia.
  - rewrite (netns_set_switch netns_fd ns s Hnz Hwf Hself Hfd).
    cbv beta iota. cbn [fst snd]. change (0 <? 0)%Z with false. cbv beta iota.
    set (s1 := entered netns_fd ns s).
    destruct (entered_fields netns_fd ns s) as (E1 & E2 & E3 & E4 & E5 & E6).
    fold s1 in E1, E2, E3, E4, E5, E6.
    destruct (read_after_switch_run name buf netns_fd (next_fd s) s1)
      as (es & e & -> & Hs & Ho).
    rewrite E1, E5.
    set (s2 := emits es (set_errno e s1)).
    assert (fds s2 = fds s1) as F2 by reflexivity.
    assert (next_fd s2 = next_fd s1) as N2 by reflexivity.
    assert (self_ns_ok s2 = self_ns_ok s1) as S2 by reflexivity.
    assert (trace s2 = trace s1 ++ es) as T2 by reflexivity.
    assert (files s2 = files s1) as L2 by reflexivity.
    assert (wf_fds s2) as Hwf2.
    { apply (wf_fds_opened s); [exact Hwf | by rewrite F2, E2 | by rewrite N2, E3]. }
    assert (fds s2 !! next_fd s = Some (cur_netns s)) as Hfd2
      by (rewrite F2, E2; apply lookup_insert_eq).
    assert (self_ns_ok s2 = true) as Hself2 by (by rewrite S2, E4).
    assert (next_fd s <> 0%Z) as Hnz2 by (destruct Hwf; lia).
    mstep. rewrite (netns_set_restore (next_fd s) (cur_netns s) s2 Hnz2 Hwf2 Hself2 Hfd2).
    cbv beta iota.
    destruct (restored_fields (next_fd s) (cur_netns s) s2) as (R1 & R2 & R3 & R4 & R5 & R6).
    eexists. split; [reflexivity|].
    split; [exact R1|]. split; [by rewrite R5, L2, E5|].
    split.
    + rewrite R6, T2, E6, !opens_for_write_app, Ho, !opens_for_write_setns1. lia.
    + rewrite R2, F2, E2. apply Z.eqb_neq in Hnz as ->. reflexivity.
Qed.



(** X6: every read through a descriptor that makes the switch leaves one
    more descriptor open than it found: the descriptor of the starting
    namespace that [bpftune_netns_set] handed out is used for the restore
    and not closed. *)
Theorem sysctl_read_leaves_origin_descriptor_open :
  forall (s : state) (netns_fd : Z) (name : string) (buf : list Z) (ns : netns),
    fds_ok s ->
    netns_fd <> 0%Z ->
    target_netns s netns_fd = Some ns ->
    fds s !! next_fd s = None
    /\ fds (final_state (bpftune_sysctl_read netns_fd name buf s))
       = <[next_fd s := cur_netns s]> (fds s).
Proof.
  intros s netns_fd name buf ns Hok Hnz Htgt.
  split; [by apply fds_ok_fresh|].
  destruct (sysctl_read_run s netns_fd name buf ns Hok Htgt) as (s' & -> & _ & _ & _ & H).
  cbn [final_state]. rewrite H. apply Z.eqb_neq in Hnz as ->. reflexivity.
Qed.

(** X6 in the example state. *)
Lemma sysctl_read_leaves_origin_descriptor_open_witness :
  fds demo_state !! next_fd demo_state = None
  /\ fds (final_state (bpftune_sysctl_read 5 "net.ipv4.tcp_rmem" [0; 0; 0]%Z demo_state))
     = <[next_fd demo_state := cur_netns demo_state]> (fds demo_state).
Proof.
  apply (sysctl_read_leaves_origin_descriptor_open demo_state 5 "net.ipv4.tcp_rmem"
           [0; 0; 0]%Z 1).
  - exact fds_ok_demo.
  - discriminate.
  - reflexivity.
Defined.

(** X7: when the switch cannot be made the read returns the negated errno
    of the switch with the caller's buffer as it was; no file is opened,
    and the thread, the descriptors and the files are as before. *)
Theorem sysctl_read_refused_switch_reads_nothing :
  forall (s : state) (netns_fd : Z) (name : string) (buf : list Z),
    fds_ok s ->
    netns_fd <> 0%Z ->
    netns_fd <> next_fd s ->
    target_netns s netns_fd = None ->
    exists s',
      bpftune_sysctl_read netns_fd name buf s
      = Ret ((- (if self_ns_ok s then EBADF else ENOENT))%Z, buf) s'
      /\ fopen_calls (trace s') = fopen_calls (trace s)
      /\ cur_netns s' = cur_netns s
      /\ fds s' = fds s
      /\ files s' = files s.
Proof.
  intros s netns_fd name buf Hok Hnz Hnext Htgt.
  assert ((if self_ns_ok s then <[next_fd s := cur_netns s]> (fds s) !! netns_fd else None)
          = None) as Hno.
  { unfold target_netns in Htgt. apply Z.eqb_neq in Hnz as Hnz'. rewrite Hnz' in Htgt.
    destruct (self_ns_ok s); [|done]. by rewrite lookup_insert_ne. }
  destruct (netns_set_fails netns_fd true s Hok Hnz Hno) as (es & n & Hrun & Hes).
  rewrite sysctl_read_unfold. mstep. rewrite Hrun. cbv beta iota. cbn [fst snd].
  assert ((- (if self_ns_ok s then EBADF else ENOENT) <? 0)%Z = true) as ->
    by (by destruct (self_ns_ok s)).
  eexists. split; [reflexivity|]. fields.
  split; [|by repeat split].
  by rewrite fopen_calls_app, Hes, app_nil_r.
Qed.

(** X7 in the example state, for descriptor 9, which is not open. *)
Lemma sysctl_read_refused_switch_reads_nothing_witness :
  exists s',
    bpftune_sysctl_read 9 "net.ipv4.tcp_rmem" [0; 0; 0]%Z demo_state
    = Ret ((- (if self_ns_ok demo_state then EBADF else ENOENT))%Z, [0; 0; 0]%Z) s'
    /\ fopen_calls (trace s') = fopen_calls (trace demo_state)
    /\ cur_netns s' = cur_netns demo_state
    /\ fds s' = fds demo_state
    /\ files s' = files demo_state.
Proof.
  apply (sysctl_read_refused_switch_reads_nothing demo_state 9 "net.ipv4.tcp_rmem"
           [0; 0; 0]%Z).
  - exact fds_ok_demo.
  - discriminate.
  - discriminate.
  - reflexivity.
Defined.

(** ** The write path on every path *)

Lemma sysctl_read_here_any name buf s :
  exists es e,
    bpftune_sysctl_read 0 name buf s
    = Ret (read_result (files s !! (cur_netns s, sysctl_path name)) buf)
          (emits es (set_errno e s))
    /\ setns_calls es = []
    /\ opens_for_write es = 0.
Proof.
  rewrite sysctl_read_unfold. mstep. rewrite netns_set_zero. cbv beta iota. cbn [fst snd].
  change (0 <? 0)%Z with false. cbv beta iota.
  destruct (read_after_switch_run name buf 0 0 s) as (es & e & -> & Hs & Ho).
  mstep. rewrite netns_set_zero. cbv beta iota. by exists es, e.
Qed.

Lemma setns_calls_fprintfs path (f : nat -> Z) l :
  setns_calls (map (fun i => EvFprintf path (f i)) l) = [].
Proof. induction l as [|x l IH]; [reflexivity | exact IH]. Qed.

Lemma setns_calls_cons_other e l :
  is_setns e = false -> setns_calls (e :: l) = setns_calls l.
Proof.
  intros H. unfold setns_calls. rewrite filter_cons.
  destruct (is_setns e); [discriminate|].
  rewrite decide_False; [reflexivity | by intros []].
Qed.

(** After the switch, on every path: the write ends in [return 0], by the
    early return of the comparison or through [out:]; up to there it has
    changed no file but the sysctl of the namespace the thread is in, has
    opened at most one file for writing and has switched nowhere. *)
Lemma write_after_switch_run name num_values values orig s :
  exists (early : bool) es e F,
    write_after_switch name num_values values orig s
    = (if early then ret 0%Z else bpftune_netns_set orig false ;; ret 0%Z)
        (emits es (set_errno e (set_files F s)))
    /\ (forall key, key <> (cur_netns s, sysctl_path name) -> F !! key = files s !! key)
    /\ setns_calls es = []
    /\ opens_for_write es <= 1.
Proof.
  unfold write_after_switch. cbv zeta.
  destruct (sysctl_read_here_any name (replicate BPFTUNE_MAX_VALUES 0%Z) s)
    as (es0 & e0 & Hrd & Hs0 & Ho0).
  mstep. rewrite Hrd. cbv beta iota.
  set (rd := read_result _ _). clearbody rd.
  destruct (rd.1 <? 0)%Z.
  { exists false, es0, e0, (files s). rewrite set_files_id.
    split; [done|]. split; [done|]. split; [done|lia]. }
  destruct ((Z.of_nat num_values =? rd.1)%Z
            && (mismatch_from 0 num_values rd.2 values =? num_values)).
  { exists true, es0, e0, (files s). rewrite set_files_id.
    split; [done|]. split; [done|]. split; [done|lia]. }
  fold (sysctl_path name).
  mstep. unfold sys_fopen_w at 1. fields.
  destruct (files s !! (cur_netns s, sysctl_path name)) as [f|] eqn:Hf; cbv beta iota.
  - destruct (f_writable f); cbv beta iota.
    + mstep. rewrite (fprintf_loop _ _ _ _ _ [] true) by (fields; by rewrite lookup_insert_eq).
      cbv beta iota.
      mstep. unfold bpftune_log. rewrite log_loop_emits. cbv beta iota.
      exists false, (es0 ++ EvFopen (sysctl_path name) "w" true
                  :: map (fun i => EvFprintf (sysctl_path name) (long_at values i))
                       (seq 0 num_values)
                  ++ map (fun i => EvLog LOG_DEBUG "Wrote %s[%d] = %ld\n"
                                     [AStr name; AInt (Z.of_nat i); AInt (long_at values i)])
                       (seq 0 num_values)),
        e0,
        (<[(cur_netns s, sysctl_path name)
           := SysFile ([] ++ map (fun i => TNum (long_at values i)) (seq 0 num_values)) true]>
           (files s)).
      split; [|split; [|split]].
      * apply (f_equal (bpftune_netns_set orig false ;; ret 0%Z)).
        state_eq.
        -- by rewrite insert_insert_eq.
        -- cbn [snd]. rewrite <- !app_assoc. reflexivity.
      * intros key Hkey. by rewrite lookup_insert_ne.
      * rewrite setns_calls_app, Hs0, setns_calls_cons_other by done.
        rewrite setns_calls_app, setns_calls_fprintfs, setns_calls_logs. reflexivity.
      * rewrite opens_for_write_app, Ho0, opens_for_write_cons, opens_for_write_app,
          opens_for_write_fprintfs, opens_for_write_logs. simpl. lia.
    + mstep. unfold gets at 1. cbv beta iota. fields.
      mstep. unfold bpftune_log at 1, modify at 1. cbv beta iota.
      exists false, (es0 ++ [EvFopen (sysctl_path name) "w" false;
                      EvLog LOG_DEBUG "could not open %s for writing: %s\n"
                        [AStr (sysctl_path name); AErr EACCES]]),
        EACCES, (files s). rewrite set_files_id.
      split; [|split; [|split]].
      * apply (f_equal (bpftune_netns_set orig false ;; ret 0%Z)).
        state_eq. rewrite <- !app_assoc. reflexivity.
      * done.
      * rewrite setns_calls_app, Hs0. reflexivity.
      * rewrite opens_for_write_app, Ho0, opens_for_write_cons, opens_for_write_log1.
        simpl. lia.
  - mstep. unfold gets at 1. cbv beta iota. fields.
    mstep. unfold bpftune_log at 1, modify at 1. cbv beta iota.
    exists false, (es0 ++ [EvFopen (sysctl_path name) "w" false;
                    EvLog LOG_DEBUG "could not open %s for writing: %s\n"
                      [AStr (sysctl_path name); AErr ENOENT]]),
      ENOENT, (files s). rewrite set_files_id.
    split; [|split; [|split]].
    + apply (f_equal (bpftune_netns_set orig false ;; ret 0%Z)).
      state_eq. rewrite <- !app_assoc. reflexivity.
    + done.
    + rewrite setns_calls_app, Hs0. reflexivity.
    + rewrite opens_for_write_app, Ho0, opens_for_write_cons, opens_for_write_log1.
      simpl. lia.
Qed.

(** The whole write once the switch can be made. *)
Lemma sysctl_write_run s netns_fd name num_values values ns :
  fds_ok s ->
  target_netns s netns_fd = Some ns ->
  exists s',
    bpftune_sysctl_write netns_fd name num_values values s = Ret 0%Z s'
    /\ (forall key, key <> (ns, sysctl_path name) -> files s' !! key = files s !! key)
    /\ opens_for_write (trace s') <= S (opens_for_write (trace s))
    /\ heap s' = heap s
    /\ (netns_fd = 0%Z ->
        cur_netns s' = cur_netns s /\ fds s' = fds s
        /\ setns_calls (trace s') = setns_calls (trace s)).
Proof.
  intros Hok Htgt. pose proof Hok as [Hwf Hpos].
  set (e0 := EvLog LOG_DEBUG "writing sysctl '%s' for netns_fd %d\n"
               [AStr (sysctl_path name); AInt netns_fd]).
  set (s0 := emit e0 s).
  assert (opens_for_write (trace s0) = opens_for_write (trace s)) as O0.
  { unfold s0, e0. fields. rewrite opens_for_write_app, opens_for_write_log1. lia. }
  assert (setns_calls (trace s0) = setns_calls (trace s)) as C0.
  { unfold s0, e0. fields. rewrite setns_calls_app. by rewrite app_nil_r. }
  rewrite sysctl_write_unfold.
  mstep. unfold bpftune_log at 1, modify at 1. cbv beta iota. fold e0 s0.
  mstep.
  destruct (target_netns_inv _ _ _ Htgt) as [[-> ->] | (Hnz & Hself & Hfd)].
  - rewrite netns_set_zero. cbv beta iota. cbn [fst snd].
    change (0 <? 0)%Z with false. cbv beta iota.
    destruct (write_after_switch_run name num_values values 0 s0)
      as (early & es & e & F & -> & HF & Hs & Ho).
    set (s2 := emits es (set_errno e (set_files F s0))).
    assert (trace s2 = trace s0 ++ es) as T2 by reflexivity.
    exists s2. split.
    { destruct early; [reflexivity|]. mstep. by rewrite netns_set_zero. }
    split; [exact HF|]. split; [rewrite T2, opens_for_write_app, O0; lia|].
    split; [reflexivity|]. intros _. split; [reflexivity|]. split; [reflexivity|].
    by rewrite T2, setns_calls_app, Hs, app_nil_r.
  - assert (self_ns_ok s0 = true) as Hself0 by exact Hself.
    assert (fds s0 !! netns_fd = Some ns) as Hfd0 by exact Hfd.
    assert (wf_fds s0) as Hwf0 by exact Hwf.
    rewrite (netns_set_switch netns_fd ns s0 Hnz Hwf0 Hself0 Hfd0).
    cbv beta iota. cbn [fst snd]. change (0 <? 0)%Z with false. cbv beta iota.
    set (s1 := entered netns_fd ns s0).
    destruct (entered_fields netns_fd ns s0) as (E1 & E2 & E3 & E4 & E5 & E6).
    fold s1 in E1, E2, E3, E4, E5, E6.
    destruct (write_after_switch_run name num_values values (next_fd s0) s1)
      as (early & es & e & F & -> & HF & Hs & Ho).
    rewrite E1, E5 in HF.
    set (s2 := emits es (set_errno e (set_files F s1))).
    assert (fds s2 = fds s1) as F2 by reflexivity.
    assert (next_fd s2 = next_fd s1) as N2 by reflexivity.
    assert (self_ns_ok s2 = self_ns_ok s1) as S2 by reflexivity.
    assert (trace s2 = trace s1 ++ es) as T2 by reflexivity.
    assert (files s2 = F) as L2 by reflexivity.
    assert (heap s2 = heap s) as H2 by reflexivity.
    assert (opens_for_write (trace s2) <= S (opens_for_write (trace s))) as O2.
    { rewrite T2, E6, !opens_for_write_app, opens_for_write_setns1, O0. lia. }
    destruct early.
    + exists s2. split; [reflexivity|]. split; [by rewrite L2|]. split; [exact O2|].
      split; [exact H2|]. intros ->. done.
    + assert (wf_fds s2) as Hwf2.
      { apply (wf_fds_opened s0); [exact Hwf0 | by rewrite F2, E2 | by rewrite N2, E3]. }
      assert (fds s2 !! next_fd s0 = Some (cur_netns s0)) as Hfd2
        by (rewrite F2, E2; apply lookup_insert_eq).
      assert (self_ns_ok s2 = true) as Hself2 by (by rewrite S2, E4).
      assert (next_fd s0 <> 0%Z) as Hnz2 by (destruct Hwf0; lia).
      mstep. rewrite (netns_set_restore (next_fd s0) (cur_netns s0) s2 Hnz2 Hwf2 Hself2 Hfd2).
      cbv beta iota.
      destruct (restored_fields (next_fd s0) (cur_netns s0) s2)
        as (R1 & R2 & R3 & R4 & R5 & R6).
      eexists. split; [reflexivity|].
      split; [by rewrite R5, L2|].
      split; [rewrite R6, opens_for_write_app, opens_for_write_setns1; lia|].
      split; [reflexivity|]. intros ->. done.
Qed.

Lemma opens_for_write_no_fopen es : fopen_calls es = [] -> opens_for_write es = 0.
Proof.
  induction es as [|e es IH]; [done|].
  unfold fopen_calls. rewrite filter_cons, opens_for_write_cons.
  destruct e; simpl; try (intros H; by apply IH).
  discriminate.
Qed.

(** The whole write when the switch is refused. *)
Lemma sysctl_write_refused s netns_fd name num_values values :
  fds_ok s ->
  netns_fd <> 0%Z ->
  netns_fd <> next_fd s ->
  target_netns s netns_fd = None ->
  exists s',
    bpftune_sysctl_write netns_fd name num_values values s
    = Ret (- (if self_ns_ok s then EBADF else ENOENT))%Z s'
    /\ opens_for_write (trace s') = opens_for_write (trace s)
    /\ cur_netns s' = cur_netns s
    /\ fds s' = fds s
    /\ files s' = files s
    /\ heap s' = heap s.
Proof.
  intros Hok Hnz Hnext Htgt.
  set (e0 := EvLog LOG_DEBUG "writing sysctl '%s' for netns_fd %d\n"
               [AStr (sysctl_path name); AInt netns_fd]).
  set (s0 := emit e0 s).
  assert (fds_ok s0) as Hok0 by exact Hok.
  assert ((if self_ns_ok s0 then <[next_fd s0 := cur_netns s0]> (fds s0) !! netns_fd else None)
          = None) as Hno.
  { unfold target_netns in Htgt. apply Z.eqb_neq in Hnz as Hnz'. rewrite Hnz' in Htgt.
    change (self_ns_ok s0) with (self_ns_ok s). destruct (self_ns_ok s); [|done].
    change (<[next_fd s := cur_netns s]> (fds s) !! netns_fd = None).
    by rewrite lookup_insert_ne. }
  destruct (netns_set_fails netns_fd true s0 Hok0 Hnz Hno) as (es & n & Hrun & Hes).
  rewrite sysctl_write_unfold.
  mstep. unfold bpftune_log at 1, modify at 1. cbv beta iota. fold e0 s0.
  mstep. rewrite Hrun. cbv beta iota. cbn [fst snd].
  change (self_ns_ok s0) with (self_ns_ok s).
  assert ((- (if self_ns_ok s then EBADF else ENOENT) <? 0)%Z = true) as ->
    by (by destruct (self_ns_ok s)).
  eexists. split; [reflexivity|]. fields.
  split; [|by repeat split].
  rewrite opens_for_write_app, (opens_for_write_no_fopen es Hes).
  unfold s0, e0. fields. rewrite opens_for_write_app, opens_for_write_log1. lia.
Qed.

(** X8: the status of a write tells whether the namespace switch could be
    made and nothing else: it is 0 once the thread is in the target
    namespace, whether the sysctl was then missing, unreadable, read-only,
    unchanged or written, and the negated errno of the switch
    otherwise. *)
Theorem sysctl_write_status_is_switch_status :
  forall (s : state) (netns_fd : Z) (name : string) (num_values : nat) (values : list Z),
    fds_ok s ->
    netns_fd <> next_fd s ->
    returned (bpftune_sysctl_write netns_fd name num_values values s)
    = Some match target_netns s netns_fd with
           | Some _ => 0%Z
           | None => (- (if self_ns_ok s then EBADF else ENOENT))%Z
           end.
Proof.
  intros s netns_fd name num_values values Hok Hnext.
  destruct (target_netns s netns_fd) as [ns|] eqn:Htgt.
  - destruct (sysctl_write_run s netns_fd name num_values values ns Hok Htgt)
      as (s' & -> & _). reflexivity.
  - assert (netns_fd <> 0%Z) as Hnz by (intros ->; discriminate).
    destruct (sysctl_write_refused s netns_fd name num_values values Hok Hnz Hnext Htgt)
      as (s' & -> & _). reflexivity.
Qed.

(** X8 in the example state with the sysctl read-only: status 0. *)
Lemma sysctl_write_status_is_switch_status_witness :
  returned (bpftune_sysctl_write 0 "net.ipv4.tcp_rmem" 3 [9; 9; 9]%Z readonly_state)
  = Some match target_netns readonly_state 0 with
         | Some _ => 0%Z
         | None => (- (if self_ns_ok readonly_state then EBADF else ENOENT))%Z
         end.
Proof.
  apply (sysctl_write_status_is_switch_status readonly_state 0 "net.ipv4.tcp_rmem" 3
           [9; 9; 9]%Z).
  - exact fds_ok_demo.
  - discriminate.
Defined.

(** X9: a write changes no file but the named sysctl of the namespace it
    targets, and nothing at all when the switch is refused; it opens at
    most one file for writing. *)
Theorem sysctl_write_touches_only_its_target :
  forall (s : state) (netns_fd : Z) (name : string) (num_values : nat) (values : list Z)
         (key : netns * string),
    fds_ok s ->
    netns_fd <> next_fd s ->
    target_netns s netns_fd <> Some (fst key) \/ snd key <> sysctl_path name ->
    files (final_state (bpftune_sysctl_write netns_fd name num_values values s)) !! key
    = files s !! key
    /\ opens_for_write
         (trace (final_state (bpftune_sysctl_write netns_fd name num_values values s)))
       <= S (opens_for_write (trace s)).
Proof.
  intros s netns_fd name num_values values key Hok Hnext Hkey.
  destruct (target_netns s netns_fd) as [ns|] eqn:Htgt.
  - destruct (sysctl_write_run s netns_fd name num_values values ns Hok Htgt)
      as (s' & -> & HF & Ho & _). cbn [final_state].
    split; [|exact Ho]. apply HF. destruct key as [k1 k2]. cbn [fst snd] in Hkey.
    intros [= -> ->]. by destruct Hkey.
  - assert (netns_fd <> 0%Z) as Hnz by (intros ->; discriminate).
    destruct (sysctl_write_refused s netns_fd name num_values values Hok Hnz Hnext Htgt)
      as (s' & -> & Hfo & _ & _ & HF & _). cbn [final_state].
    split; [by rewrite HF|]. rewrite Hfo. lia.
Qed.

(** X9 in the example state: a write into namespace 1 leaves the sysctl
    of namespace 0 alone. *)
Lemma sysctl_write_touches_only_its_target_witness :
  files (final_state (bpftune_sysctl_write 5 "net.ipv4.tcp_rmem" 3 [9; 9; 9]%Z demo_state))
    !! (0, "/proc/sys/net/ipv4/tcp_rmem")
  = files demo_state !! (0, "/proc/sys/net/ipv4/tcp_rmem")
  /\ opens_for_write
       (trace (final_state
                 (bpftune_sysctl_write 5 "net.ipv4.tcp_rmem" 3 [9; 9; 9]%Z demo_state)))
     <= S (opens_for_write (trace demo_state)).
Proof.
  apply (sysctl_write_touches_only_its_target demo_state 5 "net.ipv4.tcp_rmem" 3
           [9; 9; 9]%Z (0, "/proc/sys/net/ipv4/tcp_rmem")).
  - exact fds_ok_demo.
  - discriminate.
  - left. discriminate.
Defined.

(** ** Tunables: occurrences and values *)



Lemma bpftuner_tunable_Some tn i t :
  tunables tn !! i = Some t -> bpftuner_tunable tn i = Some t.
Proof.
  intros H. unfold bpftuner_tunable.
  assert ((i <? length (tunables tn)) = true) as ->; [|done].
  apply Nat.ltb_lt. by eapply lookup_lt_Some.
Qed.


(** X10: a tunable index that is not below the tuner's number of tunables
    is refused by both update entry points with [-EINVAL]; the only thing
    either does is one error line: no sysctl is opened, no counter
    moves. *)
Theorem tunable_update_rejects_bad_index :
  forall (l : loc) (tn : bpftuner) (index scenario : nat) (netns_fd : Z)
         (num_values : nat) (values : list Z) (fmt : string) (args : list logarg)
         (s : state),
    heap s !! l = Some tn ->
    length (tunables tn) <= index ->
    bpftuner_tunable_sysctl_write l index scenario netns_fd num_values values fmt args s
    = Ret (- EINVAL)%Z
        (emit (EvLog LOG_ERR "no tunable %d for tuner '%s'\n"
                 [AInt (Z.of_nat index); AStr (name tn)]) s)
    /\ bpftuner_tunable_update l index scenario netns_fd fmt args s
       = Ret (- EINVAL)%Z
           (emit (EvLog LOG_ERR "no tunable %d for tuner '%s'\n"
                    [AInt (Z.of_nat index); AStr (name tn)]) s).
Proof.
  intros l tn index scenario netns_fd num_values values fmt args s Hl Hi.
  assert (bpftuner_tunable tn index = None) as Hnone.
  { unfold bpftuner_tunable.
    assert ((index <? length (tunables tn)) = false) as -> by (apply Nat.ltb_ge; lia).
    reflexivity. }
  split.
  - unfold bpftuner_tunable_sysctl_write.
    mstep. unfold load_tuner at 1. rewrite Hl. cbv beta iota. rewrite Hnone. reflexivity.
  - unfold bpftuner_tunable_update.
    mstep. unfold load_tuner at 1. rewrite Hl. cbv beta iota. rewrite Hnone. reflexivity.
Qed.

(** X10 for tunable 1 of the example tuner, which has one tunable. *)
Lemma tunable_update_rejects_bad_index_witness :
  bpftuner_tunable_sysctl_write 1 1 0 0 3 [9; 9; 9]%Z "raised" [] demo_state
  = Ret (- EINVAL)%Z
      (emit (EvLog LOG_ERR "no tunable %d for tuner '%s'\n"
               [AInt (Z.of_nat 1); AStr (name demo_tuner)]) demo_state)
  /\ bpftuner_tunable_update 1 1 0 0 "raised" [] demo_state
     = Ret (- EINVAL)%Z
         (emit (EvLog LOG_ERR "no tunable %d for tuner '%s'\n"
                  [AInt (Z.of_nat 1); AStr (name demo_tuner)]) demo_state).
Proof.
  apply (tunable_update_rejects_bad_index 1 demo_tuner 1 0 0 3 [9; 9; 9]%Z "raised" []
           demo_state).
  - reflexivity.
  - simpl. lia.
Defined.



Lemma long_at_lookup (a : list Z) k : long_at a k = default 0%Z (a !! k).
Proof. unfold long_at. apply nth_lookup. Qed.

Lemma long_at_assign_values values : forall n i cur k,
  i + n <= length cur ->
  long_at (assign_values i n values cur) k
  = if decide (i <= k < i + n) then long_at values k else long_at cur k.
Proof.
  induction n as [|n IH]; intros i cur k Hlen; simpl.
  - rewrite decide_False by lia. reflexivity.
  - rewrite IH by (rewrite length_insert; lia).
    destruct (decide (k = i)) as [->|Hne].
    + rewrite decide_False by lia. rewrite decide_True by lia.
      rewrite long_at_lookup, list_lookup_insert_eq by lia. reflexivity.
    + rewrite (long_at_lookup (<[i := _]> cur)), list_lookup_insert_ne by done.
      rewrite <- long_at_lookup.
      destruct (decide (S i <= k < S i + n)), (decide (i <= k < i + S n)); (done || lia).
Qed.


Lemma length_assign_values values : forall n i cur,
  length (assign_values i n values cur) = length cur.
Proof.
  induction n as [|n IH]; intros i cur; simpl; [reflexivity|].
  by rewrite IH, length_insert.
Qed.




(** *** What the accounting leaves alone *)

Lemma keeps_load_tuner (R : state -> state -> Prop) `{!Reflexive R} l :
  keeps R (load_tuner l).
Proof. intros s. unfold load_tuner. destruct (heap s !! l); simpl; reflexivity. Qed.

Lemma keeps_ns_store_tuner l t : keeps (unchanged ns_view) (store_tuner l t).
Proof. intros s. unfold store_tuner. destruct (heap s !! l); reflexivity. Qed.

Lemma keeps_ns_log level fmt args : keeps (unchanged ns_view) (bpftune_log level fmt args).
Proof.
  intros s. unfold bpftune_log, modify, unchanged, ns_view. cbn [final_state]. fields.
  rewrite setns_calls_app. by rewrite app_nil_r.
Qed.

Ltac keeps_ns :=
  repeat first
    [ apply unchanged_refl | apply unchanged_trans
    | apply keeps_ret | apply keeps_crash | apply keeps_gets | apply keeps_load_tuner
    | apply keeps_ns_store_tuner | apply keeps_ns_log
    | apply keeps_bind; [ | | intros ?]
    | match goal with
      | |- keeps _ (match ?x with _ => _ end) => destruct x
      end ].

Lemma keeps_ns_update_tunable l i f : keeps (unchanged ns_view) (update_tunable l i f).
Proof. unfold update_tunable. keeps_ns. Qed.

Lemma keeps_ns_scenario_log l i j fd summary fmt args :
  keeps (unchanged ns_view) (bpftuner_scenario_log l i j fd summary fmt args).
Proof.
  unfold bpftuner_scenario_log, bpftuner_tunable_stats_update, update_tunable. keeps_ns.
Qed.

(** X13: a tunable that is not namespaced is written in the namespace
    the thread is in, whatever descriptor the caller passes: the call
    makes no [setns], and the thread and its descriptors are as
    before, on every path. *)
Theorem tunable_write_global_setting_never_switches :
  forall (l : loc) (tn : bpftuner) (t : bpftunable) (index scenario : nat)
         (netns_fd : Z) (num_values : nat) (values : list Z)
         (fmt : string) (args : list logarg) (s : state),
    fds_ok s ->
    heap s !! l = Some tn ->
    tunables tn !! index = Some t ->
    d_namespaced (desc t) = false ->
    setns_calls
      (trace (final_state
                (bpftuner_tunable_sysctl_write l index scenario netns_fd num_values values
                   fmt args s)))
    = setns_calls (trace s)
    /\ cur_netns
         (final_state
            (bpftuner_tunable_sysctl_write l index scenario netns_fd num_values values
               fmt args s))
       = cur_netns s
    /\ fds (final_state
              (bpftuner_tunable_sysctl_write l index scenario netns_fd num_values values
                 fmt args s))
       = fds s.
Proof.
  intros l tn t index scenario netns_fd num_values values fmt args s Hok Hl Ht Hns.
  assert (ns_view (final_state
                     (bpftuner_tunable_sysctl_write l index scenario netns_fd num_values
                        values fmt args s)) = ns_view s) as H.
  { unfold bpftuner_tunable_sysctl_write.
    mstep. unfold load_tuner at 1. rewrite Hl. cbv beta iota.
    rewrite (bpftuner_tunable_Some tn index t Ht). cbv beta iota zeta. rewrite Hns.
    destruct (sysctl_write_run s 0 (d_name (desc t)) num_values values (cur_netns s) Hok
                eq_refl) as (s1 & Hrun & _ & _ & _ & Hview).
    destruct (Hview eq_refl) as (V1 & V2 & V3).
    mstep. rewrite Hrun. cbv beta iota. change (0 =? 0)%Z with true. cbv beta iota.
    transitivity (ns_view s1); [|unfold ns_view; by rewrite V1, V2, V3].
    match goal with |- ns_view (final_state (?c s1)) = _ =>
      assert (keeps (unchanged ns_view) c) as Hk
    end.
    { apply keeps_bind; [apply unchanged_trans | apply keeps_ns_scenario_log | intros _].
      apply keeps_bind; [apply unchanged_trans | apply keeps_ns_update_tunable | intros _].
      apply keeps_ret. apply unchanged_refl. }
    apply Hk. }
  unfold ns_view in H. by injection H as H1 H2 H3.
Qed.

(** X13 for a descriptor that is not even open: the global sysctl is
    written all the same. *)
Lemma tunable_write_global_setting_never_switches_witness :
  setns_calls
    (trace (final_state
              (bpftuner_tunable_sysctl_write 1 0 0 9 3 [9; 9; 9]%Z "raised" []
                 (set_heap {[ 1 := set_tunables
                                      [set_desc (Desc BPFTUNABLE_SYSCTL "net.ipv4.tcp_rmem"
                                                   false 3) rmem_tunable] demo_tuner ]}
                    demo_state))))
  = setns_calls (trace demo_state)
  /\ cur_netns
       (final_state
          (bpftuner_tunable_sysctl_write 1 0 0 9 3 [9; 9; 9]%Z "raised" []
             (set_heap {[ 1 := set_tunables
                                  [set_desc (Desc BPFTUNABLE_SYSCTL "net.ipv4.tcp_rmem"
                                               false 3) rmem_tunable] demo_tuner ]}
                demo_state)))
     = cur_netns demo_state
  /\ fds (final_state
            (bpftuner_tunable_sysctl_write 1 0 0 9 3 [9; 9; 9]%Z "raised" []
               (set_heap {[ 1 := set_tunables
                                    [set_desc (Desc BPFTUNABLE_SYSCTL "net.ipv4.tcp_rmem"
                                                 false 3) rmem_tunable] demo_tuner ]}
                  demo_state)))
     = fds demo_state.
Proof.
  apply (tunable_write_global_setting_never_switches 1
           (set_tunables [set_desc (Desc BPFTUNABLE_SYSCTL "net.ipv4.tcp_rmem" false 3)
                            rmem_tunable] demo_tuner)
           (set_desc (Desc BPFTUNABLE_SYSCTL "net.ipv4.tcp_rmem" false 3) rmem_tunable)
           0 0 9 3 [9; 9; 9]%Z "raised" []
           (set_heap {[ 1 := set_tunables
                               [set_desc (Desc BPFTUNABLE_SYSCTL "net.ipv4.tcp_rmem" false 3)
                                  rmem_tunable] demo_tuner ]} demo_state)).
  - exact fds_ok_demo.
  - reflexivity.
  - reflexivity.
  - reflexivity.
Defined.

(** ** Registration of tunables *)

Lemma update_tunable_run l i f tn t s :
  heap s !! l = Some tn ->
  tunables tn !! i = Some t ->
  update_tunable l i f s
  = Ret tt (set_heap (<[l := set_tunables (<[i := f t]> (tunables tn)) tn]> (heap s)) s).
Proof.
  intros Hl Ht. unfold update_tunable.
  mstep. unfold load_tuner at 1. rewrite Hl. cbv beta iota.
  rewrite Ht. unfold store_tuner. rewrite Hl. reflexivity.
Qed.

(** The loop up to the read of descriptor [d] at index [i], for a sysctl:
    the descriptor is stored and the read has filled the current
    values. *)
Lemma tunables_init_read lg l num_descs i d rest tn s :
  heap s !! l = Some tn ->
  tunables tn !! i = Some zero_tunable ->
  d_type d = BPFTUNABLE_SYSCTL ->
  exists es e,
    tunables_init_loop lg l num_descs i (d :: rest) s
    = (let num_values := fst (kernel_reading s d) in
       if (num_values <? 0)%Z
       then bpftune_log LOG_ERR "error reading tunable '%s': %s\n"
                        [AStr (d_name d); AErr (- num_values)] ;;
            ret num_values
       else if negb (num_values =? Z.of_nat (d_num_values d))%Z
       then bpftune_log_mismatch lg LOG_ERR
              "error reading tunable '%s'; expected %d values, got %d\n"
              [AInt (Z.of_nat (d_num_values d)); AInt num_values] ;;
            ret (- EINVAL)%Z
       else
         update_tunable l i (fun t' => set_initial_values (current_values t') t') ;;
         tunables_init_loop lg l num_descs (S i) rest)
        (emits es
           (set_errno e
              (set_heap (<[l := set_tunables (<[i := half_registered s d]> (tunables tn)) tn]>
                           (heap s)) s))).
Proof.
  intros Hl Ht Hty.
  assert (i < length (tunables tn)) as Hi by (by eapply lookup_lt_Some).
  cbn [tunables_init_loop].
  mstep. unfold bpftune_log at 1, modify at 1. cbv beta iota.
  set (e0 := EvLog LOG_DEBUG "handling desc %ld/%ld\n" _).
  mstep. rewrite (update_tunable_run l i (set_desc d) tn zero_tunable) by done.
  cbv beta iota.
  rewrite bool_decide_eq_true_2 by done. simpl (negb true). cbv beta iota.
  mstep. unfold load_tuner at 1. fields. rewrite lookup_insert_eq. cbv beta iota.
  cbn [tunables set_tunables]. rewrite list_lookup_insert_eq by done.
  set (s1 := set_heap _ (emit e0 s)).
  destruct (sysctl_read_here_any (d_name d) (current_values (set_desc d zero_tunable)) s1)
    as (es & e & Hrd & _ & _).
  mstep. rewrite Hrd. cbv beta iota.
  change (read_result (files s1 !! (cur_netns s1, sysctl_path (d_name d)))
            (current_values (set_desc d zero_tunable)))
    with (kernel_reading s d).
  mstep.
  rewrite (update_tunable_run l i (set_current_values (snd (kernel_reading s d)))
             (set_tunables (<[i := set_desc d zero_tunable]> (tunables tn)) tn)
             (set_desc d zero_tunable))
    by (first [by (unfold s1; fields; rewrite lookup_insert_eq)
              | by (cbn [tunables set_tunables]; rewrite list_lookup_insert_eq)]).
  cbv beta iota zeta.
  exists (e0 :: es), e.
  set (k := if (_ <? 0)%Z then _ else _). clearbody k. apply (f_equal k).
  unfold s1. state_eq.
  - rewrite insert_insert_eq. cbn [tunables set_tunables]. rewrite list_insert_insert_eq.
    reflexivity.
  - rewrite <- app_assoc. reflexivity.
Qed.

(** One descriptor that can be registered. *)
Lemma tunables_init_step lg l num_descs i d rest tn s :
  heap s !! l = Some tn ->
  tunables tn !! i = Some zero_tunable ->
  registrable s d ->
  exists es e,
    tunables_init_loop lg l num_descs i (d :: rest) s
    = tunables_init_loop lg l num_descs (S i) rest
        (emits es
           (set_errno e
              (set_heap (<[l := set_tunables (<[i := registered s d]> (tunables tn)) tn]>
                           (heap s)) s))).
Proof.
  intros Hl Ht Hreg.
  assert (i < length (tunables tn)) as Hi by (by eapply lookup_lt_Some).
  destruct (decide (d_type d = BPFTUNABLE_SYSCTL)) as [Hty|Hty].
  - destruct (tunables_init_read lg l num_descs i d rest tn s Hl Ht Hty) as (es & e & ->).
    cbv zeta. rewrite (Hreg Hty).
    assert ((Z.of_nat (d_num_values d) <? 0)%Z = false) as -> by (apply Z.ltb_ge; lia).
    rewrite Z.eqb_refl. simpl (negb true). cbv beta iota.
    mstep.
    rewrite (update_tunable_run l i (fun t' => set_initial_values (current_values t') t')
               (set_tunables (<[i := half_registered s d]> (tunables tn)) tn)
               (half_registered s d))
      by (first [by (fields; rewrite lookup_insert_eq)
                | by (cbn [tunables set_tunables]; rewrite list_lookup_insert_eq)]).
    cbv beta iota. exists es, e. f_equal.
    state_eq. rewrite insert_insert_eq. cbn [tunables set_tunables].
    rewrite list_insert_insert_eq. unfold registered. rewrite decide_True by done.
    reflexivity.
  - cbn [tunables_init_loop].
    mstep. unfold bpftune_log at 1, modify at 1. cbv beta iota.
    mstep. rewrite (update_tunable_run l i (set_desc d) tn zero_tunable) by done.
    cbv beta iota.
    rewrite bool_decide_eq_false_2 by done. simpl (negb false). cbv beta iota.
    eexists [_], (errno s). f_equal.
    state_eq. unfold registered. rewrite decide_False by done. reflexivity.
Qed.

(** The loop over descriptors that can all be registered. *)
Lemma tunables_init_loop_ok lg l num_descs s0 : forall rest done s tn,
  heap s !! l = Some tn ->
  files s = files s0 ->
  cur_netns s = cur_netns s0 ->
  tunables tn = done ++ replicate (length rest) zero_tunable ->
  Forall (registrable s0) rest ->
  exists s' tn',
    tunables_init_loop lg l num_descs (length done) rest s = Ret 0%Z s'
    /\ heap s' !! l = Some tn'
    /\ tunables tn' = done ++ map (registered s0) rest
    /\ scenarios tn' = scenarios tn
    /\ files s' = files s0.
Proof.
  induction rest as [|d rest IH]; intros done s tn Hl Hf Hc Htn Hall.
  - exists s, tn. simpl in *. by rewrite app_nil_r in *.
  - apply Forall_cons in Hall as [Hd Hrest].
    assert (tunables tn !! length done = Some zero_tunable) as Ht.
    { rewrite Htn. rewrite lookup_app_r by lia. by rewrite Nat.sub_diag. }
    assert (registrable s d) as Hd'.
    { unfold registrable, kernel_reading in *. by rewrite Hf, Hc. }
    destruct (tunables_init_step lg l num_descs (length done) d rest tn s Hl Ht Hd')
      as (es & e & ->).
    assert (registered s d = registered s0 d) as ->.
    { unfold registered, kernel_reading. by rewrite Hf, Hc. }
    set (tn1 := set_tunables (<[length done := registered s0 d]> (tunables tn)) tn).
    set (s1 := emits es (set_errno e (set_heap (<[l := tn1]> (heap s)) s))).
    assert (heap s1 !! l = Some tn1) as Hl1 by (unfold s1; fields; apply lookup_insert_eq).
    assert (tunables tn1 = (done ++ [registered s0 d]) ++ replicate (length rest) zero_tunable)
      as Htn1.
    { unfold tn1. cbn [tunables set_tunables]. rewrite Htn.
      rewrite insert_app_r_alt by lia. rewrite Nat.sub_diag. cbn [replicate length].
      by rewrite <- app_assoc. }
    replace (S (length done)) with (length (done ++ [registered s0 d]))
      by (rewrite length_app; simpl; lia).
    destruct (IH (done ++ [registered s0 d]) s1 tn1 Hl1 Hf Hc Htn1 Hrest)
      as (s' & tn' & Hrun & Hl' & Htn' & Hsc' & Hf').
    exists s', tn'. split; [exact Hrun|]. split; [exact Hl'|].
    split; [by rewrite Htn', <- app_assoc|]. split; [exact Hsc' | exact Hf'].
Qed.

(** X14: registration of descriptors each of which is no sysctl or names
    a sysctl that shows the declared number of values returns 0 and
    leaves the tuner with one tunable per descriptor, in order; a sysctl
    tunable has what the kernel shows as its initial and as its current
    values, every counter is zero, and the scenarios are those passed.
    This holds with every sink and level. *)
Theorem tunables_init_registers_kernel_values :
  forall (lg : logger) (l : loc) (tn : bpftuner) (descs : list bpftunable_desc)
         (scs : list bpftunable_scenario) (s : state),
    heap s !! l = Some tn ->
    calloc_ok s = true ->
    Forall (registrable s) descs ->
    exists s' tn',
      bpftuner_tunables_init lg l descs scs s = Ret 0%Z s'
      /\ heap s' !! l = Some tn'
      /\ tunables tn' = map (registered s) descs
      /\ scenarios tn' = scs
      /\ files s' = files s.
Proof.
  intros lg l tn descs scs s Hl Hc Hall.
  unfold bpftuner_tunables_init.
  mstep. unfold load_tuner at 1. rewrite Hl. cbv beta iota.
  mstep. unfold store_tuner at 1. rewrite Hl. cbv beta iota.
  mstep. unfold gets at 1. cbv beta iota. fields. rewrite Hc. simpl (negb true). cbv beta iota.
  mstep. unfold load_tuner at 1. fields. rewrite lookup_insert_eq. cbv beta iota.
  mstep. unfold store_tuner at 1. fields. rewrite lookup_insert_eq. cbv beta iota.
  rewrite insert_insert_eq.
  set (tn1 := set_tunables _ (set_scenarios scs tn)).
  set (s1 := set_heap (<[l := tn1]> (heap s)) s).
  assert (heap s1 !! l = Some tn1) as Hl1 by apply lookup_insert_eq.
  destruct (tunables_init_loop_ok lg l (length descs) s descs [] s1 tn1 Hl1 eq_refl eq_refl
              eq_refl Hall) as (s' & tn' & Hrun & Hl' & Htn' & Hsc' & Hf').
  exists s', tn'. by repeat split.
Qed.

(** X14 for the example descriptor and one that is no sysctl. *)
Lemma tunables_init_registers_kernel_values_witness :
  exists s' tn',
    bpftuner_tunables_init default_logger 1
      [rmem_desc; Desc BPFTUNABLE_OTHER "other" false 0] [] demo_state
    = Ret 0%Z s'
    /\ heap s' !! 1 = Some tn'
    /\ tunables tn'
       = map (registered demo_state) [rmem_desc; Desc BPFTUNABLE_OTHER "other" false 0]
    /\ scenarios tn' = []
    /\ files s' = files demo_state.
Proof.
  apply (tunables_init_registers_kernel_values default_logger 1 demo_tuner
           [rmem_desc; Desc BPFTUNABLE_OTHER "other" false 0] [] demo_state).
  - reflexivity.
  - reflexivity.
  - apply Forall_cons. split; [intros _; reflexivity|].
    apply Forall_cons. split; [intros H; discriminate H | apply Forall_nil_2].
Defined.

(** The loop over a first part of the descriptors that can all be
    registered. *)
Lemma tunables_init_loop_prefix lg l num_descs s0 tail : forall good done s tn,
  heap s !! l = Some tn ->
  files s = files s0 ->
  cur_netns s = cur_netns s0 ->
  tunables tn = done ++ replicate (length (good ++ tail)) zero_tunable ->
  Forall (registrable s0) good ->
  exists s' tn',
    tunables_init_loop lg l num_descs (length done) (good ++ tail) s
    = tunables_init_loop lg l num_descs (length (done ++ map (registered s0) good)) tail s'
    /\ heap s' !! l = Some tn'
    /\ tunables tn'
       = (done ++ map (registered s0) good) ++ replicate (length tail) zero_tunable
    /\ files s' = files s0
    /\ cur_netns s' = cur_netns s0.
Proof.
  induction good as [|d good IH]; intros done s tn Hl Hf Hc Htn Hall.
  - exists s, tn. simpl in *. rewrite app_nil_r. by repeat split.
  - apply Forall_cons in Hall as [Hd Hrest].
    assert (tunables tn !! length done = Some zero_tunable) as Ht.
    { rewrite Htn. rewrite lookup_app_r by lia. by rewrite Nat.sub_diag. }
    assert (registrable s d) as Hd'.
    { unfold registrable, kernel_reading in *. by rewrite Hf, Hc. }
    change ((d :: good) ++ tail) with (d :: (good ++ tail)).
    destruct (tunables_init_step lg l num_descs (length done) d (good ++ tail) tn s Hl Ht Hd')
      as (es & e & ->).
    assert (registered s d = registered s0 d) as ->.
    { unfold registered, kernel_reading. by rewrite Hf, Hc. }
    set (tn1 := set_tunables (<[length done := registered s0 d]> (tunables tn)) tn).
    set (s1 := emits es (set_errno e (set_heap (<[l := tn1]> (heap s)) s))).
    assert (heap s1 !! l = Some tn1) as Hl1 by (unfold s1; fields; apply lookup_insert_eq).
    assert (tunables tn1
            = (done ++ [registered s0 d]) ++ replicate (length (good ++ tail)) zero_tunable)
      as Htn1.
    { unfold tn1. cbn [tunables set_tunables]. rewrite Htn.
      rewrite insert_app_r_alt by lia. rewrite Nat.sub_diag.
      change (length ((d :: good) ++ tail)) with (S (length (good ++ tail))).
      cbn [replicate]. by rewrite <- app_assoc. }
    replace (S (length done)) with (length (done ++ [registered s0 d]))
      by (rewrite length_app; simpl; lia).
    destruct (IH (done ++ [registered s0 d]) s1 tn1 Hl1 Hf Hc Htn1 Hrest)
      as (s' & tn' & Hrun & Hl' & Htn' & Hf' & Hc').
    exists s', tn'. cbn [map]. rewrite <- !app_assoc in *. cbn [app] in *.
    by repeat split.
Qed.

(** X15: registration stops at the first sysctl descriptor whose sysctl
    does not show the declared number of values: the descriptors before
    it are registered, the one it stopped at has its descriptor and the
    values read and no initial values, the ones after it are left zeroed.
    When the count of the scan is negative (an empty file) the call
    returns that count.  Otherwise, also when the sysctl is missing (the
    read then reports zero values), the last thing the call does is the
    report of the two counts under a format that starts with [%s]: with a
    sink that formats error messages the call ends there without a
    status, and it returns [-EINVAL] only with a sink that drops the
    message. *)
Theorem tunables_init_stops_at_first_mismatch :
  forall (lg : logger) (l : loc) (tn : bpftuner) (good : list bpftunable_desc)
         (d : bpftunable_desc) (rest : list bpftunable_desc)
         (scs : list bpftunable_scenario) (s : state),
    heap s !! l = Some tn ->
    calloc_ok s = true ->
    Forall (registrable s) good ->
    d_type d = BPFTUNABLE_SYSCTL ->
    fst (kernel_reading s d) <> Z.of_nat (d_num_values d) ->
    exists s' tn',
      bpftuner_tunables_init lg l (good ++ d :: rest) scs s
      = (if (fst (kernel_reading s d) <? 0)%Z then Ret (fst (kernel_reading s d)) s'
         else if formats lg LOG_ERR then Fault BadVarArg s'
         else Ret (- EINVAL)%Z s')
      /\ heap s' !! l = Some tn'
      /\ tunables tn'
         = map (registered s) good ++ half_registered s d
           :: replicate (length rest) zero_tunable
      /\ last (trace s')
         = Some (if (fst (kernel_reading s d) <? 0)%Z
                 then EvLog LOG_ERR "error reading tunable '%s': %s\n"
                        [AStr (d_name d); AErr (- fst (kernel_reading s d))]
                 else EvLog LOG_ERR
                        "error reading tunable '%s'; expected %d values, got %d\n"
                        [AInt (Z.of_nat (d_num_values d)); AInt (fst (kernel_reading s d))]).
Proof.
  intros lg l tn good d rest scs s Hl Hc Hall Hty Hbad.
  unfold bpftuner_tunables_init.
  mstep. unfold load_tuner at 1. rewrite Hl. cbv beta iota.
  mstep. unfold store_tuner at 1. rewrite Hl. cbv beta iota.
  mstep. unfold gets at 1. cbv beta iota. fields. rewrite Hc. simpl (negb true). cbv beta iota.
  mstep. unfold load_tuner at 1. fields. rewrite lookup_insert_eq. cbv beta iota.
  mstep. unfold store_tuner at 1. fields. rewrite lookup_insert_eq. cbv beta iota.
  rewrite insert_insert_eq.
  set (tn1 := set_tunables _ (set_scenarios scs tn)).
  set (s1 := set_heap (<[l := tn1]> (heap s)) s).
  assert (heap s1 !! l = Some tn1) as Hl1 by apply lookup_insert_eq.
  destruct (tunables_init_loop_prefix lg l (length (good ++ d :: rest)) s (d :: rest) good []
              s1 tn1 Hl1 eq_refl eq_refl eq_refl Hall)
    as (s2 & tn2 & Hrun & Hl2 & Htn2 & Hf2 & Hc2).
  change (length []) with 0 in Hrun.
  match goal with |- context [tunables_init_loop _ _ _ 0 _ ?st] => change st with s1 end.
  rewrite Hrun. cbn [app] in *.
  assert (tunables tn2 !! length (map (registered s) good) = Some zero_tunable) as Ht2.
  { rewrite Htn2. rewrite lookup_app_r by lia. by rewrite Nat.sub_diag. }
  destruct (tunables_init_read lg l (length (good ++ d :: rest))
              (length (map (registered s) good)) d rest tn2 s2 Hl2 Ht2 Hty)
    as (es & e & ->).
  assert (kernel_reading s2 d = kernel_reading s d) as Hk
    by (unfold kernel_reading; by rewrite Hf2, Hc2).
  assert (half_registered s2 d = half_registered s d) as ->
    by (unfold half_registered; by rewrite Hk).
  cbv zeta. rewrite Hk.
  assert (tunables
            (set_tunables (<[length (map (registered s) good) := half_registered s d]>
                             (tunables tn2)) tn2)
          = map (registered s) good ++ half_registered s d
            :: replicate (length rest) zero_tunable) as Hfin.
  { cbn [tunables set_tunables]. rewrite Htn2.
    rewrite insert_app_r_alt by lia. rewrite Nat.sub_diag. reflexivity. }
  destruct (fst (kernel_reading s d) <? 0)%Z.
  - mstep. unfold bpftune_log at 1, modify at 1, ret. cbv beta iota.
    eexists _, _. split; [reflexivity|]. fields.
    split; [apply lookup_insert_eq|]. split; [exact Hfin | apply last_snoc].
  - assert ((fst (kernel_reading s d) =? Z.of_nat (d_num_values d))%Z = false) as ->
      by (by apply Z.eqb_neq).
    simpl (negb false). cbv beta iota.
    mstep. unfold bpftune_log_mismatch.
    mstep. unfold bpftune_log at 1, modify at 1. cbv beta iota.
    destruct (formats lg LOG_ERR); unfold crash, ret; cbv beta iota.
    + eexists _, _. split; [reflexivity|]. fields.
      split; [apply lookup_insert_eq|]. split; [exact Hfin | apply last_snoc].
    + eexists _, _. split; [reflexivity|]. fields.
      split; [apply lookup_insert_eq|]. split; [exact Hfin | apply last_snoc].
Qed.

(** X15 with the sink and the level the library starts with, for the
    example descriptor followed by one of a sysctl that does not exist and
    one more. *)
Lemma tunables_init_stops_at_first_mismatch_witness :
  exists s' tn',
    bpftuner_tunables_init default_logger 1
      ([rmem_desc] ++ Desc BPFTUNABLE_SYSCTL "net.core.no_such_knob" false 1
         :: [Desc BPFTUNABLE_OTHER "other" false 0]) [] demo_state
    = (if (fst (kernel_reading demo_state
                  (Desc BPFTUNABLE_SYSCTL "net.core.no_such_knob" false 1)) <? 0)%Z
       then Ret (fst (kernel_reading demo_state
                        (Desc BPFTUNABLE_SYSCTL "net.core.no_such_knob" false 1))) s'
       else if formats default_logger LOG_ERR then Fault BadVarArg s'
       else Ret (- EINVAL)%Z s')
    /\ heap s' !! 1 = Some tn'
    /\ tunables tn'
       = map (registered demo_state) [rmem_desc]
         ++ half_registered demo_state
              (Desc BPFTUNABLE_SYSCTL "net.core.no_such_knob" false 1)
         :: replicate (length [Desc BPFTUNABLE_OTHER "other" false 0]) zero_tunable
    /\ last (trace s')
       = Some (if (fst (kernel_reading demo_state
                          (Desc BPFTUNABLE_SYSCTL "net.core.no_such_knob" false 1)) <? 0)%Z
               then EvLog LOG_ERR "error reading tunable '%s': %s\n"
                      [AStr (d_name (Desc BPFTUNABLE_SYSCTL "net.core.no_such_knob" false 1));
                       AErr (- fst (kernel_reading demo_state
                                      (Desc BPFTUNABLE_SYSCTL "net.core.no_such_knob"
                                         false 1)))]
               else EvLog LOG_ERR
                      "error reading tunable '%s'; expected %d values, got %d\n"
                      [AInt (Z.of_nat
                               (d_num_values
                                  (Desc BPFTUNABLE_SYSCTL "net.core.no_such_knob" false 1)));
                       AInt (fst (kernel_reading demo_state
                                    (Desc BPFTUNABLE_SYSCTL "net.core.no_such_knob"
                                       false 1)))]).
Proof.
  apply (tunables_init_stops_at_first_mismatch default_logger 1 demo_tuner [rmem_desc]
           (Desc BPFTUNABLE_SYSCTL "net.core.no_such_knob" false 1)
           [Desc BPFTUNABLE_OTHER "other" false 0] [] demo_state).
  - reflexivity.
  - reflexivity.
  - apply Forall_cons. split; [intros _; reflexivity | apply Forall_nil_2].
  - reflexivity.
  - vm_compute. discriminate.
Defined.

(** The same run read off: the call stops in the report, with the first
    tunable registered. *)
Example tunables_init_mismatch_demo :
  faulted (bpftuner_tunables_init default_logger 1
             [rmem_desc; Desc BPFTUNABLE_SYSCTL "net.core.no_such_knob" false 1;
              Desc BPFTUNABLE_OTHER "other" false 0] [] demo_state)
  = Some BadVarArg
  /\ returned (bpftuner_tunables_init (Logger bpftune_log_stderr 2) 1
                 [rmem_desc; Desc BPFTUNABLE_SYSCTL "net.core.no_such_knob" false 1;
                  Desc BPFTUNABLE_OTHER "other" false 0] [] demo_state)
     = Some (- EINVAL)%Z.
Proof. vm_compute. auto. Qed.

(** ** Loads that fail, and the registry loads build *)

Lemma remove_one_head h hs : remove_one h (h :: hs) = hs.
Proof. simpl. by rewrite String.eqb_refl. Qed.

(** X16: a load that fails retains nothing.  When [calloc] fails nothing
    is loaded or called; when the module's [init] returns an error the
    object is closed again and the tuner freed: the heap, the loaded
    objects, the registry and its count are as before, and [init] was
    the only entry point called. *)
Theorem load_failure_retains_nothing :
  (forall (path : string) (s : state),
      calloc_ok s = false ->
      bpftuner_init path s
      = Ret None (emit (EvLog LOG_ERR "could not allocate tuner\n" []) (set_errno ENOMEM s)))
  /\ (forall (path : string) (d : dso) (body : bpftuner -> bpftuner * Z) (s : state),
         calloc_ok s = true ->
         heap s !! next_loc s = None ->
         objects s !! path = Some d ->
         dso_init d = Some body ->
         snd (body (loaded_tuner s path d)) <> 0%Z ->
         exists s',
           bpftuner_init path s = Ret None s'
           /\ heap s' = heap s
           /\ handles s' = handles s
           /\ bpftune_tuners s' = bpftune_tuners s
           /\ bpftune_num_tuners s' = bpftune_num_tuners s
           /\ calls (trace s') = calls (trace s) ++ [EvCall (next_loc s) "init"]).
Proof.
  split.
  - intros path s Hc. unfold bpftuner_init.
    mstep. unfold calloc_tuner at 1. rewrite Hc. reflexivity.
  - intros path d body s Hc Hfresh Ho Hi Herr.
    rewrite (bpftuner_init_calls_init path d body s Hc Ho Hi). cbv zeta.
    apply Z.eqb_neq in Herr. rewrite Herr. simpl (negb false). cbv beta iota.
    mstep. unfold dlclose at 1, modify at 1. cbv beta iota.
    mstep. unfold bpftune_log at 1, modify at 1. cbv beta iota.
    mstep. unfold free_tuner at 1, modify at 1. cbv beta iota.
    unfold ret. eexists. split; [reflexivity|]. fields.
    split; [by rewrite delete_insert_eq, delete_id|].
    split; [apply remove_one_head|]. split; [reflexivity|]. split; [reflexivity|].
    rewrite <- app_assoc, calls_app. reflexivity.
Qed.

(** X16 for the example state without memory, and for a module whose
    [init] returns [-ENOMEM]. *)
Lemma load_failure_retains_nothing_witness :
  bpftuner_init "tcp_buffer_tuner.so" nomem_state
  = Ret None (emit (EvLog LOG_ERR "could not allocate tuner\n" [])
                (set_errno ENOMEM nomem_state))
  /\ exists s',
       bpftuner_init "broken_tuner.so" failing_state = Ret None s'
       /\ heap s' = heap failing_state
       /\ handles s' = handles failing_state
       /\ bpftune_tuners s' = bpftune_tuners failing_state
       /\ bpftune_num_tuners s' = bpftune_num_tuners failing_state
       /\ calls (trace s') = calls (trace failing_state) ++ [EvCall (next_loc failing_state) "init"].
Proof.
  split.
  - apply (proj1 load_failure_retains_nothing "tcp_buffer_tuner.so" nomem_state).
    reflexivity.
  - apply (proj2 load_failure_retains_nothing "broken_tuner.so" failing_dso
             (fun t => (t, (- ENOMEM)%Z)) failing_state);
      first [reflexivity | discriminate].
Defined.

(** What a load that succeeds leaves. *)
Lemma bpftuner_init_registers path d body s :
  calloc_ok s = true ->
  objects s !! path = Some d ->
  dso_init d = Some body ->
  snd (body (loaded_tuner s path d)) = 0%Z ->
  bpftune_num_tuners s < length (bpftune_tuners s) ->
  exists s',
    bpftuner_init path s = Ret (Some (next_loc s)) s'
    /\ heap s'
       = <[next_loc s := set_state BPFTUNE_ACTIVE
                           (set_id (bpftune_num_tuners s) (fst (body (loaded_tuner s path d))))]>
           (heap s)
    /\ next_loc s' = S (next_loc s)
    /\ bpftune_tuners s' = <[bpftune_num_tuners s := Some (next_loc s)]> (bpftune_tuners s)
    /\ bpftune_num_tuners s' = S (bpftune_num_tuners s).
Proof.
  intros Hc Ho Hi Hz Hroom.
  rewrite (bpftuner_init_calls_init path d body s Hc Ho Hi).
  cbv zeta. rewrite Hz. simpl (negb _). cbv beta iota.
  mstep. unfold gets at 1. cbv beta iota.
  mstep. unfold load_tuner at 1. fields. rewrite lookup_insert_eq. cbv beta iota.
  mstep. unfold store_tuner at 1. fields. rewrite lookup_insert_eq. cbv beta iota.
  mstep. unfold store_slot at 1. fields.
  apply Nat.ltb_lt in Hroom. rewrite Hroom. cbv beta iota.
  mstep. unfold modify at 1. cbv beta iota.
  mstep. unfold bpftune_log at 1, modify at 1. cbv beta iota.
  unfold ret. eexists. split; [reflexivity|]. fields.
  rewrite insert_insert_eq. auto.
Qed.

(** X17: a load that succeeds keeps the registry dense: the new tuner
    gets the old count as its id and the slot of that index, the tuners
    loaded before keep their slots and ids, and the count grows by
    one. *)
Theorem load_keeps_registry_dense :
  forall (path : string) (d : dso) (body : bpftuner -> bpftuner * Z) (s : state),
    registry_dense s ->
    calloc_ok s = true ->
    objects s !! path = Some d ->
    dso_init d = Some body ->
    snd (body (loaded_tuner s path d)) = 0%Z ->
    bpftune_num_tuners s < length (bpftune_tuners s) ->
    exists s',
      bpftuner_init path s = Ret (Some (next_loc s)) s'
      /\ registry_dense s'
      /\ bpftune_num_tuners s' = S (bpftune_num_tuners s)
      /\ bpftune_tuner (bpftune_num_tuners s) s' = Ret (Some (next_loc s)) s'
      /\ id <$> heap s' !! next_loc s = Some (bpftune_num_tuners s)
      /\ (forall i, i < bpftune_num_tuners s ->
            bpftune_tuners s' !! i = bpftune_tuners s !! i)
      /\ (forall l tn, heap s !! l = Some tn -> heap s' !! l = Some tn).
Proof.
  intros path d body s (Hlen & Hbelow & Hslots) Hc Ho Hi Hz Hroom.
  destruct (bpftuner_init_registers path d body s Hc Ho Hi Hz Hroom)
    as (s' & Hrun & Hheap & Hnext & Htuners & Hnum).
  assert (forall l tn, heap s !! l = Some tn -> heap s' !! l = Some tn) as Hold.
  { intros l tn Hl. rewrite Hheap, lookup_insert_ne; [done|].
    apply Hbelow in Hl. lia. }
  exists s'. split; [exact Hrun|].
  split; [|split; [exact Hnum|split; [|split; [|split; [|exact Hold]]]]].
  - split; [|split].
    + rewrite Hnum, Htuners, length_insert. lia.
    + intros l tn. rewrite Hheap, Hnext. intros Hl.
      destruct (decide (l = next_loc s)) as [->|Hne]; [lia|].
      rewrite lookup_insert_ne in Hl by done. apply Hbelow in Hl. lia.
    + intros i Hi'. rewrite Hnum in Hi'.
      destruct (decide (i = bpftune_num_tuners s)) as [->|Hne].
      * eexists _, _. rewrite Htuners, Hheap.
        rewrite list_lookup_insert_eq by lia. rewrite lookup_insert_eq.
        split; [reflexivity|]. split; [reflexivity|]. reflexivity.
      * destruct (Hslots i) as (l & tn & Hs1 & Hs2 & Hs3); [lia|].
        exists l, tn. rewrite Htuners, list_lookup_insert_ne by done.
        split; [exact Hs1|]. split; [by apply Hold | exact Hs3].
  - unfold bpftune_tuner. rewrite Hnum, Htuners.
    assert ((bpftune_num_tuners s <? S (bpftune_num_tuners s)) = true) as ->
      by (apply Nat.ltb_lt; lia).
    by rewrite list_lookup_insert_eq by lia.
  - rewrite Hheap, lookup_insert_eq. reflexivity.
  - intros i Hi'. rewrite Htuners, list_lookup_insert_ne by lia. reflexivity.
Qed.

Lemma registry_dense_empty slots : registry_dense (empty_state slots).
Proof.
  split; [|split].
  - simpl. lia.
  - intros l tn H. unfold empty_state in H. cbn [heap] in H.
    rewrite lookup_empty in H. discriminate.
  - intros i Hi. simpl in Hi. lia.
Defined.

(** X17 for the first load into an empty registry of four slots. *)
Lemma load_keeps_registry_dense_witness :
  exists s',
    bpftuner_init "tcp_buffer_tuner.so" (empty_state 4)
    = Ret (Some (next_loc (empty_state 4))) s'
    /\ registry_dense s'
    /\ bpftune_num_tuners s' = S (bpftune_num_tuners (empty_state 4))
    /\ bpftune_tuner (bpftune_num_tuners (empty_state 4)) s'
       = Ret (Some (next_loc (empty_state 4))) s'
    /\ id <$> heap s' !! next_loc (empty_state 4) = Some (bpftune_num_tuners (empty_state 4))
    /\ (forall i, i < bpftune_num_tuners (empty_state 4) ->
          bpftune_tuners s' !! i = bpftune_tuners (empty_state 4) !! i)
    /\ (forall l tn, heap (empty_state 4) !! l = Some tn -> heap s' !! l = Some tn).
Proof.
  apply (load_keeps_registry_dense "tcp_buffer_tuner.so" demo_dso (fun t => (t, 0%Z))
           (empty_state 4)).
  - apply registry_dense_empty.
  - reflexivity.
  - reflexivity.
  - reflexivity.
  - reflexivity.
  - simpl. lia.
Defined.

Lemma elem_of_some_prefix {A} (x : A) : forall l,
  x ∈ some_prefix l -> exists i, l !! i = Some (Some x).
Proof.
  induction l as [|[a|] l IH]; simpl; intros H.
  - by apply elem_of_nil in H.
  - apply elem_of_cons in H as [->|H].
    + by exists 0.
    + destruct (IH H) as [i Hi]. by exists (S i).
  - by apply elem_of_nil in H.
Qed.

(** X18: in a dense registry the lookup by index is the lookup by id: for
    an index below the count it returns the tuner whose id is that
    index, for any other index null, and it changes nothing; the
    registered tuners are allocated and no two of them share an id. *)
Theorem dense_registry_lookup_by_id :
  forall (s : state),
    registry_dense s ->
    (forall i, i < bpftune_num_tuners s ->
       exists l tn, bpftune_tuner i s = Ret (Some l) s
                    /\ heap s !! l = Some tn /\ id tn = i)
    /\ (forall i, bpftune_num_tuners s <= i -> bpftune_tuner i s = Ret None s)
    /\ registry_ok s.
Proof.
  intros s (Hlen & Hbelow & Hslots).
  assert (forall l, l ∈ for_each_tuner s ->
            exists i tn, i < bpftune_num_tuners s /\ bpftune_tuners s !! i = Some (Some l)
                         /\ heap s !! l = Some tn /\ id tn = i) as Hreg.
  { intros l Hl. unfold for_each_tuner in Hl.
    apply elem_of_some_prefix in Hl as [i Hi].
    apply lookup_take_Some in Hi as [Hi Hlt].
    destruct (Hslots i Hlt) as (l' & tn & H1 & H2 & H3).
    assert (l' = l) as -> by congruence.
    by exists i, tn. }
  split; [|split].
  - intros i Hi. destruct (Hslots i Hi) as (l & tn & H1 & H2 & H3).
    exists l, tn. split; [|by split].
    unfold bpftune_tuner. apply Nat.ltb_lt in Hi. by rewrite Hi, H1.
  - intros i Hi. unfold bpftune_tuner.
    assert ((i <? bpftune_num_tuners s) = false) as -> by (apply Nat.ltb_ge; lia).
    reflexivity.
  - split.
    + intros l Hl. destruct (Hreg l Hl) as (i & tn & _ & _ & Hh & _). by eexists.
    + intros l1 l2 t1 t2 H1 H2 Ht1 Ht2 Hid.
      destruct (Hreg l1 H1) as (i1 & u1 & _ & Hs1 & Hh1 & Hi1).
      destruct (Hreg l2 H2) as (i2 & u2 & _ & Hs2 & Hh2 & Hi2).
      assert (i1 = i2) as -> by congruence.
      congruence.
Qed.

(** The example registry is dense. *)
Lemma registry_dense_demo : registry_dense demo_state.
Proof.
  split; [|split].
  - simpl. lia.
  - intros l tn H. unfold demo_state in H. cbn [heap] in H.
    destruct (decide (l = 1)) as [->|Hne]; [simpl; lia|].
    rewrite lookup_singleton_ne in H by done. discriminate.
  - intros i Hi. cbn [bpftune_num_tuners demo_state] in Hi.
    assert (i = 0) as -> by lia.
    exists 1, demo_tuner. by repeat split.
Defined.

(** X18 for the example registry of one tuner. *)
Lemma dense_registry_lookup_by_id_witness :
  (forall i, i < bpftune_num_tuners demo_state ->
     exists l tn, bpftune_tuner i demo_state = Ret (Some l) demo_state
                  /\ heap demo_state !! l = Some tn /\ id tn = i)
  /\ (forall i, bpftune_num_tuners demo_state <= i ->
        bpftune_tuner i demo_state = Ret None demo_state)
  /\ registry_ok demo_state.
Proof.
  apply (dense_registry_lookup_by_id demo_state). exact registry_dense_demo.
Defined.

(** ** Unload leaves the tuner registered *)

Lemma bpftuner_fini_active l tn tn' evs st s :
  heap s !! l = Some tn ->
  state_ tn = BPFTUNE_ACTIVE ->
  fini_call s l tn = Some (tn', evs) ->
  bpftuner_fini (Some l) st s
  = Ret tt
      (set_heap (<[l := set_state st tn']> (heap s))
         (emits (EvLog LOG_DEBUG "cleaning up tuner %s with %d tunables, %d scenarios\n"
                   [AStr (name tn); AInt (Z.of_nat (length (tunables tn)));
                    AInt (Z.of_nat (length (scenarios tn)))]
                 :: unload_report tn ++ evs) s)).
Proof.
  intros Hl Hact Hf.
  unfold bpftuner_fini. unfold bind at 1. unfold load_tuner at 1. rewrite Hl.
  rewrite bool_decide_eq_true_2 by done. simpl (negb true). cbv beta iota.
  unfold bind at 1. unfold bpftune_log at 1, modify.
  unfold bind at 1. rewrite unload_report_loop by done.
  unfold emit. rewrite emits_app.
  unfold bind at 1. unfold load_tuner at 1. rewrite heap_emits, Hl.
  unfold fini_call in Hf.
  destruct (fini tn) as [f|] eqn:Hfini.
  - destruct (objects s !! f.1 ≫= dso_fini) as [body|] eqn:Hbody; [|done].
    injection Hf as <- <-.
    unfold bind at 1. unfold call_fini, bind, gets. fields.
    simpl in Hbody |- *. rewrite Hbody.
    unfold modify, load_tuner, store_tuner. fields. rewrite Hl.
    simpl. repeat (first [rewrite Hl | rewrite lookup_insert_eq]; simpl).
    rewrite insert_insert_eq.
    unfold emit, emits, set_heap, set_trace. simpl.
    rewrite <- !app_assoc. reflexivity.
  - injection Hf as <- <-.
    unfold bind, ret, load_tuner, store_tuner. simpl.
    repeat (rewrite Hl; simpl).
    rewrite app_nil_r. reflexivity.
Qed.

(** X19: unloading an active tuner to [BPFTUNE_INACTIVE] leaves it where
    it was: its slot, the count and therefore every lookup by index are
    as before, its shared object stays loaded and its memory allocated;
    only its state changes.  A second unload, to whatever state, does
    nothing at all. *)
Theorem unload_keeps_registration_and_is_final :
  forall (l : loc) (tn tn' : bpftuner) (evs : list event) (s : state),
    heap s !! l = Some tn ->
    state_ tn = BPFTUNE_ACTIVE ->
    fini_call s l tn = Some (tn', evs) ->
    exists s1,
      bpftuner_fini (Some l) BPFTUNE_INACTIVE s = Ret tt s1
      /\ (forall st, bpftuner_fini (Some l) st s1 = Ret tt s1)
      /\ state_ <$> heap s1 !! l = Some BPFTUNE_INACTIVE
      /\ bpftune_tuners s1 = bpftune_tuners s
      /\ bpftune_num_tuners s1 = bpftune_num_tuners s
      /\ (forall i, returned (bpftune_tuner i s1) = returned (bpftune_tuner i s))
      /\ handles s1 = handles s.
Proof.
  intros l tn tn' evs s Hl Hact Hf.
  rewrite (bpftuner_fini_active l tn tn' evs BPFTUNE_INACTIVE s Hl Hact Hf).
  eexists. split; [reflexivity|].
  split.
  { intros st. unfold bpftuner_fini.
    mstep. unfold load_tuner at 1. fields. rewrite lookup_insert_eq. cbv beta iota.
    reflexivity. }
  split; [fields; by rewrite lookup_insert_eq|].
  split; [reflexivity|]. split; [reflexivity|]. split; [|reflexivity].
  intros i. unfold bpftune_tuner. fields.
  destruct (i <? bpftune_num_tuners s); [|reflexivity].
  by destruct (bpftune_tuners s !! i).
Qed.

(** X19 for the example tuner. *)
Lemma unload_keeps_registration_and_is_final_witness :
  exists s1,
    bpftuner_fini (Some 1) BPFTUNE_INACTIVE demo_state = Ret tt s1
    /\ (forall st, bpftuner_fini (Some 1) st s1 = Ret tt s1)
    /\ state_ <$> heap s1 !! 1 = Some BPFTUNE_INACTIVE
    /\ bpftune_tuners s1 = bpftune_tuners demo_state
    /\ bpftune_num_tuners s1 = bpftune_num_tuners demo_state
    /\ (forall i, returned (bpftune_tuner i s1) = returned (bpftune_tuner i demo_state))
    /\ handles s1 = handles demo_state.
Proof.
  apply (unload_keeps_registration_and_is_final 1 demo_tuner demo_tuner [EvCall 1 "fini"]
           demo_state); reflexivity.
Defined.

(** ** Events that reach a tuner *)

(** X20: a record of full size whose tuner id names a registered tuner is
    handed to that tuner's event handler, once, with the record; the
    callback returns 0 and logs nothing at error level.  The tuner's
    lifecycle state is not looked at: an unloaded tuner still gets its
    events. *)
Theorem event_reaches_registered_handler :
  forall (max_tuners sizeof_event : nat) (ctx : Z) (data : bpftune_event) (size : nat)
         (l : loc) (tn : bpftuner) (f : fnptr)
         (body : bpftuner -> bpftune_event -> bpftuner) (s : state),
    sizeof_event <= size ->
    tuner_id data <= max_tuners ->
    tuner_id data < bpftune_num_tuners s ->
    bpftune_tuners s !! tuner_id data = Some (Some l) ->
    heap s !! l = Some tn ->
    event_handler tn = Some f ->
    objects s !! fst f ≫= dso_event_handler = Some body ->
    exists s',
      bpftune_ringbuf_event_read max_tuners sizeof_event ctx data size s = Ret 0%Z s'
      /\ calls (trace s') = calls (trace s) ++ [EvCall l "event_handler"]
      /\ heap s' = <[l := body tn data]> (heap s)
      /\ filter is_error_log (trace s') = filter is_error_log (trace s).
Proof.
  intros mx sz ctx data size l tn f body s Hsz Hmax Hid Hslot Hl Hh Hbody.
  unfold bpftune_ringbuf_event_read.
  assert ((size <? sz) = false) as -> by (apply Nat.ltb_ge; lia).
  assert ((mx <? tuner_id data) = false) as -> by (apply Nat.ltb_ge; lia).
  mstep. unfold bpftune_tuner at 1. apply Nat.ltb_lt in Hid. rewrite Hid, Hslot.
  cbv beta iota.
  mstep. unfold load_tuner at 1. rewrite Hl. cbv beta iota.
  mstep. unfold gets at 1. cbv beta iota.
  mstep. unfold bpftune_log at 1, modify at 1. cbv beta iota.
  mstep. rewrite Hh. unfold call_event_handler.
  mstep. unfold gets at 1. cbv beta iota. fields. rewrite Hbody. cbv beta iota.
  mstep. unfold modify at 1. cbv beta iota.
  mstep. unfold load_tuner at 1. fields. rewrite Hl. cbv beta iota.
  unfold store_tuner at 1. fields. rewrite Hl. cbv beta iota.
  unfold ret. eexists. split; [reflexivity|]. fields.
  split; [|split; [reflexivity|]].
  - rewrite <- app_assoc, calls_app. reflexivity.
  - rewrite <- app_assoc, filter_app. cbn [app].
    rewrite filter_cons_False by (simpl; tauto).
    rewrite filter_cons_False by (simpl; tauto).
    by rewrite filter_nil, app_nil_r.
Qed.

(** X20 for an event of scenario 0 for the example tuner, set inactive. *)
Lemma event_reaches_registered_handler_witness :
  exists s',
    bpftune_ringbuf_event_read 2 32 0 (Event 0 0 7%N [1%Z]) 40
      (set_heap {[ 1 := set_state BPFTUNE_INACTIVE demo_tuner ]} demo_state)
    = Ret 0%Z s'
    /\ calls (trace s')
       = calls (trace (set_heap {[ 1 := set_state BPFTUNE_INACTIVE demo_tuner ]} demo_state))
         ++ [EvCall 1 "event_handler"]
    /\ heap s'
       = <[1 := (fun t _ => t) (set_state BPFTUNE_INACTIVE demo_tuner) (Event 0 0 7%N [1%Z])]>
           (heap (set_heap {[ 1 := set_state BPFTUNE_INACTIVE demo_tuner ]} demo_state))
    /\ filter is_error_log (trace s')
       = filter is_error_log
           (trace (set_heap {[ 1 := set_state BPFTUNE_INACTIVE demo_tuner ]} demo_state)).
Proof.
  apply (event_reaches_registered_handler 2 32 0 (Event 0 0 7%N [1%Z]) 40 1
           (set_state BPFTUNE_INACTIVE demo_tuner) ("tcp_buffer_tuner.so", "event_handler")
           (fun t _ => t)
           (set_heap {[ 1 := set_state BPFTUNE_INACTIVE demo_tuner ]} demo_state));
    first [reflexivity | simpl; lia].
Defined.

(** X21: the callback calls through the tuner's [event_handler] pointer
    without testing it.  A record for a registered tuner whose module
    exports no event handler, which [bpftuner_init] accepts, ends in a
    call through a null pointer; nothing of the module was called. *)
Theorem event_for_tuner_without_handler_faults :
  forall (max_tuners sizeof_event : nat) (ctx : Z) (data : bpftune_event) (size : nat)
         (l : loc) (tn : bpftuner) (s : state),
    sizeof_event <= size ->
    tuner_id data <= max_tuners ->
    tuner_id data < bpftune_num_tuners s ->
    bpftune_tuners s !! tuner_id data = Some (Some l) ->
    heap s !! l = Some tn ->
    event_handler tn = None ->
    faulted (bpftune_ringbuf_event_read max_tuners sizeof_event ctx data size s)
    = Some NullCall
    /\ calls (trace (final_state
                       (bpftune_ringbuf_event_read max_tuners sizeof_event ctx data size s)))
       = calls (trace s).
Proof.
  intros mx sz ctx data size l tn s Hsz Hmax Hid Hslot Hl Hh.
  assert (exists e, bpftune_ringbuf_event_read mx sz ctx data size s
                    = Fault NullCall (emit e s) /\ is_call e = false)
    as (e & -> & He).
  { unfold bpftune_ringbuf_event_read.
    assert ((size <? sz) = false) as -> by (apply Nat.ltb_ge; lia).
    assert ((mx <? tuner_id data) = false) as -> by (apply Nat.ltb_ge; lia).
    mstep. unfold bpftune_tuner at 1. apply Nat.ltb_lt in Hid. rewrite Hid, Hslot.
    cbv beta iota.
    mstep. unfold load_tuner at 1. rewrite Hl. cbv beta iota.
    mstep. unfold gets at 1. cbv beta iota.
    mstep. unfold bpftune_log at 1, modify at 1. cbv beta iota.
    mstep. rewrite Hh. unfold call_event_handler, crash.
    eexists. split; reflexivity. }
  cbn [faulted final_state]. fields.
  split; [reflexivity|]. rewrite calls_app. unfold calls at 2.
  rewrite filter_cons. destruct (is_call e); [discriminate|].
  rewrite decide_False by (by intros []). by rewrite filter_nil, app_nil_r.
Qed.

(** X21 for the example tuner without its handler. *)
Lemma event_for_tuner_without_handler_faults_witness :
  faulted (bpftune_ringbuf_event_read 2 32 0 (Event 0 0 0%N []) 32 handlerless_state)
  = Some NullCall
  /\ calls (trace (final_state
                     (bpftune_ringbuf_event_read 2 32 0 (Event 0 0 0%N []) 32
                        handlerless_state)))
     = calls (trace handlerless_state).
Proof.
  apply (event_for_tuner_without_handler_faults 2 32 0 (Event 0 0 0%N []) 32 1
           (Tuner (handle demo_tuner) (name demo_tuner) (id demo_tuner)
              (state_ demo_tuner) (init demo_tuner) (fini demo_tuner) None
              (ring_buffer_map_fd demo_tuner) (tunables demo_tuner)
              (scenarios demo_tuner) (netns_cookie demo_tuner) (netns_next demo_tuner))
           handlerless_state);
    first [reflexivity | simpl; lia].
Defined.

(** ** The namespace list: insert, look up, remove *)

Lemma find_netns_Some cookie nodes : forall i k,
  find_netns cookie i nodes = Some k -> i <= k /\ nodes !! (k - i) = Some cookie.
Proof.
  induction nodes as [|c r IH]; intros i k H; simpl in H; [done|].
  destruct (cookie =? c)%N eqn:E.
  - injection H as <-. apply N.eqb_eq in E as ->. rewrite Nat.sub_diag. split; [lia|done].
  - apply IH in H as [Hle Hk]. split; [lia|].
    replace (k - i) with (S (k - S i)) by lia. exact Hk.
Qed.

(** What the lookup loop found, when it found something. *)
Lemma netns_from_cookie_loop_Some tuner_id cookie s : forall ts t k s',
  netns_from_cookie_loop tuner_id cookie ts s = Ret (Some (t, k)) s' ->
  exists tn, t ∈ ts /\ heap s !! t = Some tn /\ id tn = tuner_id
             /\ (if (cookie =? 0)%N then k = 0 else for_each_netns tn !! k = Some cookie).
Proof.
  induction ts as [|t0 rest IH]; intros t k s' H; cbn [netns_from_cookie_loop] in H.
  - discriminate.
  - revert H. mstep. unfold load_tuner at 1.
    destruct (heap s !! t0) as [tn0|] eqn:Htn0; [|discriminate]. cbv beta iota.
    destruct (id tn0 =? tuner_id) eqn:E; simpl (negb _); cbv beta iota.
    + apply Nat.eqb_eq in E.
      destruct (cookie =? 0)%N eqn:Ez.
      * intros [= <- <- _]. exists tn0. split; [by left|]. done.
      * destruct (find_netns cookie 0 (for_each_netns tn0)) as [k0|] eqn:Ef.
        -- intros [= <- <- _]. exists tn0. split; [by left|].
           apply find_netns_Some in Ef as [_ Hk]. rewrite Nat.sub_0_r in Hk. done.
        -- intros H. destruct (IH _ _ _ H) as (tn & Hin & Hrest).
           exists tn. split; [by right | exact Hrest].
    + intros H. destruct (IH _ _ _ H) as (tn & Hin & Hrest).
      exists tn. split; [by right | exact Hrest].
Qed.

(** The lookup for a registered tuner under the invariant: it finds the
    head for cookie 0 and a node of that cookie in the tuner's own list
    otherwise, or the list has no such node. *)
Lemma netns_from_cookie_spec ts s l tn cookie :
  netns_inv ts s ->
  heap s !! l = Some tn ->
  l ∈ ts ->
  (exists k, bpftuner_netns_from_cookie (id tn) cookie s = Ret (Some (l, k)) s
             /\ (if (cookie =? 0)%N then k = 0 else for_each_netns tn !! k = Some cookie))
  \/ (returned (bpftuner_netns_from_cookie (id tn) cookie s) = Some None
      /\ cookie <> 0%N /\ cookie ∉ for_each_netns tn).
Proof.
  intros Hinv Hl Hin.
  pose proof Hinv as (Hsup & Hts & [Halloc Hids] & Huniq).
  destruct (netns_from_cookie_registered ts s l tn cookie Hinv Hl Hin)
    as [[[t k] Hrun] | (Hrun & Hnz & Hfresh)].
  - left. exists k.
    assert (netns_from_cookie_loop (id tn) cookie ts s = Ret (Some (t, k)) s) as Hloop.
    { revert Hrun. unfold bpftuner_netns_from_cookie.
      mstep. unfold gets at 1. rewrite Hsup. simpl (negb true). cbv beta iota.
      mstep. unfold gets at 1. cbv beta iota. rewrite Hts.
      mstep. destruct (netns_from_cookie_loop (id tn) cookie ts s) as [[node|] s1|];
        cbv beta iota; [|discriminate..].
      unfold ret. by intros [= -> ->]. }
    destruct (netns_from_cookie_loop_Some _ _ _ _ _ _ _ Hloop) as (tn0 & Hin0 & Hl0 & Hid0 & Hk).
    assert (t = l) as ->.
    { eapply Hids; [by rewrite Hts | by rewrite Hts | exact Hl0 | exact Hl | exact Hid0]. }
    assert (tn0 = tn) as -> by congruence.
    split; [exact Hrun | exact Hk].
  - right. rewrite Hrun. by repeat split.
Qed.

(** X22: after [bpftuner_netns_init] of a cookie for a registered tuner
    the lookup of that cookie under the tuner's id finds a node of that
    tuner carrying the cookie, whether the call added the node or found
    it there. *)
Theorem netns_init_then_lookup_finds :
  forall (s : state) (l : loc) (tn : bpftuner) (cookie : N),
    netns_inv (for_each_tuner s) s ->
    l ∈ for_each_tuner s ->
    heap s !! l = Some tn ->
    calloc_ok s = true ->
    cookie <> 0%N ->
    exists s' tn' k,
      bpftuner_netns_init l cookie s = Ret tt s'
      /\ heap s' !! l = Some tn'
      /\ bpftuner_netns_from_cookie (id tn) cookie s' = Ret (Some (l, k)) s'
      /\ for_each_netns tn' !! k = Some cookie.
Proof.
  intros s l tn cookie Hinv Hin Hl Hc Hnz.
  set (ts := for_each_tuner s) in *.
  apply N.eqb_neq in Hnz as Hnz'.
  assert (exists s' tn',
            bpftuner_netns_init l cookie s = Ret tt s'
            /\ netns_inv ts s' /\ heap s' !! l = Some tn' /\ id tn' = id tn
            /\ cookie ∈ for_each_netns tn') as (s' & tn' & Hrun & Hinv' & Hl' & Hid' & Hin').
  { unfold bpftuner_netns_init.
    mstep. unfold load_tuner at 1. rewrite Hl. cbv beta iota.
    mstep.
    destruct (netns_from_cookie_spec ts s l tn cookie Hinv Hl Hin)
      as [(k & -> & Hk) | (Hret & _ & Hfresh)]; cbv beta iota.
    { exists s, tn. rewrite Hnz' in Hk.
      split; [reflexivity|]. split; [exact Hinv|]. split; [exact Hl|]. split; [reflexivity|].
      by eapply list_elem_of_lookup_2. }
    destruct (netns_from_cookie_registered ts s l tn cookie Hinv Hl Hin)
      as [[node Hsome] | (-> & _ & _)]; [rewrite Hsome in Hret; discriminate|].
    cbv beta iota.
    mstep. unfold gets at 1. cbv beta iota. fields. rewrite Hc. simpl (negb true).
    cbv beta iota.
    mstep. unfold load_tuner at 1. fields. rewrite Hl. cbv beta iota.
    unfold store_tuner. fields. rewrite Hl.
    pose proof Hinv as (_ & _ & _ & Huniq).
    eexists _, (set_netns_next (netns_next tn ++ [cookie]) tn).
    split; [reflexivity|]. split; [|split; [|split]].
    - apply (netns_inv_update ts s _ l tn (set_netns_next (netns_next tn ++ [cookie]) tn));
        [exact Hinv | exact Hl | reflexivity | | reflexivity..].
      unfold for_each_netns, set_netns_next. cbn [netns_cookie netns_next].
      change (netns_cookie tn :: netns_next tn ++ [cookie])
        with ((netns_cookie tn :: netns_next tn) ++ [cookie]).
      apply NoDup_app. repeat split.
      + by apply Huniq in Hl.
      + intros x Hx Hc'. apply list_elem_of_singleton in Hc' as ->. by apply Hfresh.
      + apply NoDup_singleton.
    - fields. apply lookup_insert_eq.
    - reflexivity.
    - unfold for_each_netns, set_netns_next. cbn [netns_cookie netns_next].
      apply elem_of_cons. right. apply elem_of_app. right. by apply list_elem_of_singleton. }
  exists s', tn'.
  assert (l ∈ ts) as Hin2 by exact Hin.
  destruct (netns_from_cookie_spec ts s' l tn' cookie Hinv' Hl' Hin2)
    as [(k & Hk1 & Hk2) | (_ & _ & Habs)]; [|by destruct Habs].
  exists k. rewrite Hnz' in Hk2. rewrite Hid' in Hk1. by repeat split.
Qed.

Lemma netns_inv_demo : netns_inv (for_each_tuner demo_state) demo_state.
Proof.
  split; [reflexivity|]. split; [reflexivity|]. split.
  - split.
    + intros l Hl. vm_compute in Hl. apply list_elem_of_singleton in Hl as ->.
      by eexists.
    + intros l1 l2 t1 t2 H1 H2 _ _ _. vm_compute in H1, H2.
      apply list_elem_of_singleton in H1 as ->.
      apply list_elem_of_singleton in H2 as ->. reflexivity.
  - intros l tn Hl.
    destruct (decide (l = 1)) as [->|Hne].
    + vm_compute in Hl. injection Hl as <-. vm_compute.
      apply NoDup_cons. split; [apply not_elem_of_nil | apply NoDup_nil_2].
    + unfold demo_state in Hl. cbn [heap] in Hl.
      rewrite lookup_singleton_ne in Hl by done. done.
Defined.

Lemma for_each_tuner_demo : 1 ∈ for_each_tuner demo_state.
Proof. vm_compute. apply list_elem_of_here. Defined.

(** X22 for cookie 7 and the example tuner. *)
Lemma netns_init_then_lookup_finds_witness :
  exists s' tn' k,
    bpftuner_netns_init 1 7%N demo_state = Ret tt s'
    /\ heap s' !! 1 = Some tn'
    /\ bpftuner_netns_from_cookie (id demo_tuner) 7%N s' = Ret (Some (1, k)) s'
    /\ for_each_netns tn' !! k = Some 7%N.
Proof.
  apply (netns_init_then_lookup_finds demo_state 1 demo_tuner 7%N).
  - exact netns_inv_demo.
  - exact for_each_tuner_demo.
  - reflexivity.
  - reflexivity.
  - discriminate.
Defined.

Lemma unlink_first_None cookie nodes :
  unlink_first cookie nodes = None -> cookie ∉ nodes.
Proof.
  induction nodes as [|c r IH]; simpl; intros H; [apply not_elem_of_nil|].
  destruct (c =? cookie)%N eqn:E; [done|]. apply N.eqb_neq in E.
  destruct (unlink_first cookie r); [done|].
  apply not_elem_of_cons. split; [congruence | by apply IH].
Qed.

Lemma unlink_first_Some cookie nodes : forall r,
  unlink_first cookie nodes = Some r ->
  NoDup nodes ->
  (cookie ∉ r) /\ (forall c, c <> cookie -> c ∈ nodes -> c ∈ r).
Proof.
  induction nodes as [|c0 l IH]; intros r H Hnd; simpl in H; [done|].
  apply NoDup_cons in Hnd as [Hc0 Hnd].
  destruct (c0 =? cookie)%N eqn:E.
  - apply N.eqb_eq in E as ->. injection H as <-. split; [exact Hc0|].
    intros c Hne Hc. apply elem_of_cons in Hc as [->|Hc]; [done | exact Hc].
  - apply N.eqb_neq in E.
    destruct (unlink_first cookie l) as [r'|] eqn:Hr; [|done]. injection H as <-.
    destruct (IH r' eq_refl Hnd) as [Hnot Hkeep].
    split.
    + apply not_elem_of_cons. split; [congruence | exact Hnot].
    + intros c Hne Hc. apply elem_of_cons in Hc as [->|Hc].
      * by left.
      * right. by apply Hkeep.
Qed.

(** X23: after [bpftuner_netns_fini] of a cookie other than the head's
    for a registered tuner no node of the tuner carries the cookie and
    the lookup of it answers null; the nodes of other cookies are all
    still there. *)
Theorem netns_fini_then_lookup_misses :
  forall (s : state) (l : loc) (tn : bpftuner) (cookie : N),
    netns_inv (for_each_tuner s) s ->
    l ∈ for_each_tuner s ->
    heap s !! l = Some tn ->
    cookie <> 0%N ->
    cookie <> netns_cookie tn ->
    exists s' tn',
      bpftuner_netns_fini l cookie s = Ret tt s'
      /\ heap s' !! l = Some tn'
      /\ (cookie ∉ for_each_netns tn')
      /\ (forall c, c <> cookie -> c ∈ for_each_netns tn -> c ∈ for_each_netns tn')
      /\ returned (bpftuner_netns_from_cookie (id tn) cookie s') = Some None.
Proof.
  intros s l tn cookie Hinv Hin Hl Hnz Hhead.
  set (ts := for_each_tuner s) in *.
  pose proof Hinv as (Hsup & _ & _ & Huniq).
  pose proof (Huniq l tn Hl) as Hnd. unfold for_each_netns in Hnd.
  apply NoDup_cons in Hnd as [Hhd Hnd].
  assert (exists s' tn',
            bpftuner_netns_fini l cookie s = Ret tt s'
            /\ netns_inv ts s' /\ heap s' !! l = Some tn' /\ id tn' = id tn
            /\ (cookie ∉ for_each_netns tn')
            /\ (forall c, c <> cookie -> c ∈ for_each_netns tn -> c ∈ for_each_netns tn'))
    as (s' & tn' & Hrun & Hinv' & Hl' & Hid' & Hgone & Hkeep).
  { unfold bpftuner_netns_fini.
    mstep. unfold gets at 1. rewrite Hsup. simpl (negb _). cbv beta iota.
    mstep. unfold load_tuner at 1. rewrite Hl. cbv beta iota.
    assert ((netns_cookie tn =? cookie)%N = false) as -> by (apply N.eqb_neq; congruence).
    destruct (unlink_first cookie (netns_next tn)) as [r|] eqn:Hr.
    - unfold store_tuner. rewrite Hl.
      destruct (unlink_first_Some cookie (netns_next tn) r Hr Hnd) as [Hnot Hkeep].
      eexists _, (set_netns_next r tn).
      split; [reflexivity|]. split; [|split; [|split; [|split]]].
      + apply (netns_inv_update ts s _ l tn (set_netns_next r tn));
          [exact Hinv | exact Hl | reflexivity | | reflexivity..].
        unfold for_each_netns. cbn [netns_cookie netns_next set_netns_next].
        eapply sublist_NoDup; [exact (Huniq l tn Hl)|].
        apply sublist_skip. by apply (unlink_first_sublist cookie).
      + fields. apply lookup_insert_eq.
      + reflexivity.
      + unfold for_each_netns. cbn [netns_cookie netns_next set_netns_next].
        apply not_elem_of_cons. split; [congruence | exact Hnot].
      + intros c Hne Hc. unfold for_each_netns in *.
        cbn [netns_cookie netns_next set_netns_next].
        apply elem_of_cons in Hc as [->|Hc]; [by left | right; by apply Hkeep].
    - unfold bpftune_log, modify.
      eexists _, tn. split; [reflexivity|]. split; [|split; [|split; [|split]]].
      + by apply (netns_inv_frame ts s).
      + exact Hl.
      + reflexivity.
      + unfold for_each_netns. apply not_elem_of_cons.
        split; [congruence | by apply unlink_first_None].
      + auto. }
  exists s', tn'. split; [exact Hrun|]. split; [exact Hl'|]. split; [exact Hgone|].
  split; [exact Hkeep|].
  assert (l ∈ ts) as Hin2 by exact Hin.
  destruct (netns_from_cookie_spec ts s' l tn' cookie Hinv' Hl' Hin2)
    as [(k & _ & Hk) | (Hret & _)].
  - apply N.eqb_neq in Hnz as Hnz'. rewrite Hnz' in Hk.
    exfalso. apply Hgone. by eapply list_elem_of_lookup_2.
  - by rewrite <- Hid'.
Qed.

(** X23 for the example tuner after cookie 7 was added. *)
Lemma netns_fini_then_lookup_misses_witness :
  exists s' tn',
    bpftuner_netns_fini 1 7%N
      (set_heap {[ 1 := set_netns_next [7%N] demo_tuner ]} demo_state) = Ret tt s'
    /\ heap s' !! 1 = Some tn'
    /\ (7%N ∉ for_each_netns tn')
    /\ (forall c, c <> 7%N -> c ∈ for_each_netns (set_netns_next [7%N] demo_tuner) ->
          c ∈ for_each_netns tn')
    /\ returned (bpftuner_netns_from_cookie (id (set_netns_next [7%N] demo_tuner)) 7%N s')
       = Some None.
Proof.
  apply (netns_fini_then_lookup_misses
           (set_heap {[ 1 := set_netns_next [7%N] demo_tuner ]} demo_state) 1
           (set_netns_next [7%N] demo_tuner) 7%N).
  - split; [reflexivity|]. split; [reflexivity|]. split.
    + split.
      * intros l Hl. vm_compute in Hl. apply list_elem_of_singleton in Hl as ->.
        by eexists.
      * intros l1 l2 t1 t2 H1 H2 _ _ _. vm_compute in H1, H2.
        apply list_elem_of_singleton in H1 as ->.
        apply list_elem_of_singleton in H2 as ->. reflexivity.
    + intros l tn Hl.
      destruct (decide (l = 1)) as [->|Hne].
      * vm_compute in Hl. injection Hl as <-. vm_compute.
        apply NoDup_cons. split.
        -- intros H. apply list_elem_of_singleton in H. discriminate.
        -- apply NoDup_singleton.
      * cbn [heap set_heap] in Hl.
        rewrite lookup_singleton_ne in Hl by done. done.
  - vm_compute. apply list_elem_of_here.
  - reflexivity.
  - discriminate.
  - discriminate.
Defined.

(** The lookup loop for cookie 0: it stops at the tuner that carries the
    id and answers with the head of its list. *)
Lemma netns_from_cookie_loop_head s l tn : forall ts,
  heap s !! l = Some tn ->
  l ∈ ts ->
  (forall t, t ∈ ts -> is_Some (heap s !! t)) ->
  (forall t tn', t ∈ ts -> heap s !! t = Some tn' -> id tn' = id tn -> t = l) ->
  netns_from_cookie_loop (id tn) 0%N ts s = Ret (Some (l, 0)) s.
Proof.
  intros ts Hl. induction ts as [|t0 rest IH]; intros Hin Hall Hids.
  - by apply elem_of_nil in Hin.
  - cbn [netns_from_cookie_loop].
    mstep. unfold load_tuner at 1.
    destruct (Hall t0 (list_elem_of_here _ _)) as [tn0 Htn0]. rewrite Htn0. cbv beta iota.
    destruct (id tn0 =? id tn) eqn:E; simpl (negb _); cbv beta iota.
    + apply Nat.eqb_eq in E.
      rewrite (Hids t0 tn0 (list_elem_of_here _ _) Htn0 E). reflexivity.
    + apply Nat.eqb_neq in E.
      apply elem_of_cons in Hin as [->|Hin]; [congruence|].
      apply IH; [exact Hin | |].
      * intros t Ht. apply Hall. by right.
      * intros t tn' Ht. apply Hids. by right.
Qed.

(** X24: the head of a tuner's namespace list stands for the global
    namespace and is never unlinked.  For a registered tuner of a registry
    whose tuners are allocated and carry distinct ids, the lookup of
    cookie 0 under the tuner's id returns the head of its list once cookie
    support has been detected, and null before that (the lookup answers
    null for every cookie while [netns_cookie_supported] is unset); in
    both modes [bpftuner_netns_fini] of the cookie the head carries
    changes nothing. *)
Theorem netns_head_is_global_and_permanent :
  forall (s : state) (l : loc) (tn : bpftuner),
    registry_ok s ->
    l ∈ for_each_tuner s ->
    heap s !! l = Some tn ->
    bpftuner_netns_from_cookie (id tn) 0%N s
    = Ret (if netns_cookie_supported s then Some (l, 0) else None) s
    /\ bpftuner_netns_fini l (netns_cookie tn) s = Ret tt s.
Proof.
  intros s l tn [Halloc Hids] Hin Hl.
  split.
  - unfold bpftuner_netns_from_cookie.
    mstep. unfold gets at 1. cbv beta iota.
    destruct (netns_cookie_supported s); simpl (negb _); cbv beta iota; [|reflexivity].
    mstep. unfold gets at 1. cbv beta iota.
    mstep. rewrite (netns_from_cookie_loop_head s l tn (for_each_tuner s) Hl Hin Halloc).
    + reflexivity.
    + intros t tn' Ht Htn' E. by apply (Hids t l tn' tn).
  - unfold bpftuner_netns_fini.
    mstep. unfold gets at 1. cbv beta iota.
    destruct (netns_cookie_supported s); simpl (negb _); cbv beta iota; [|reflexivity].
    mstep. unfold load_tuner at 1. rewrite Hl. cbv beta iota.
    rewrite N.eqb_refl. unfold store_tuner. rewrite Hl. f_equal.
    state_eq. by apply insert_id.
Qed.

(** X24 for the example tuner, with cookie support detected and before
    that. *)
Lemma netns_head_is_global_and_permanent_witness :
  (bpftuner_netns_from_cookie (id demo_tuner) 0%N demo_state
   = Ret (if netns_cookie_supported demo_state then Some (1, 0) else None) demo_state
   /\ bpftuner_netns_fini 1 (netns_cookie demo_tuner) demo_state = Ret tt demo_state)
  /\ (bpftuner_netns_from_cookie (id demo_tuner) 0%N unsupported_state
      = Ret (if netns_cookie_supported unsupported_state then Some (1, 0) else None)
            unsupported_state
      /\ bpftuner_netns_fini 1 (netns_cookie demo_tuner) unsupported_state
         = Ret tt unsupported_state).
Proof.
  split.
  - apply (netns_head_is_global_and_permanent demo_state 1 demo_tuner).
    + exact (proj1 (proj2 (proj2 netns_inv_demo))).
    + exact for_each_tuner_demo.
    + reflexivity.
  - apply (netns_head_is_global_and_permanent unsupported_state 1 demo_tuner).
    + exact (proj1 (proj2 (proj2 netns_inv_demo))).
    + exact for_each_tuner_demo.
    + reflexivity.
Defined.

(** ** Namespace discovery *)

Lemma netns_info_unfold k pid fd cookie :
  bpftune_netns_info k pid fd cookie
  = (let reuse := (pid =? 0)%Z && match fd with Some v => (0 <? v)%Z | None => false end in
     netns_fd <- (if reuse then ret (default 0%Z fd) else bpftune_netns_fd k pid) ;;
     if negb reuse && (netns_fd <=? 0)%Z then ret (netns_fd, fd, cookie)
     else netns_info_tail k netns_fd (negb reuse) fd cookie).
Proof. reflexivity. Qed.

Lemma switch_ok_fields s s' :
  switch_ok s ->
  fds s' = fds s -> (next_fd s <= next_fd s')%Z -> self_ns_ok s' = self_ns_ok s ->
  switch_ok s'.
Proof.
  intros [[[Hp Hlt] Hpos] Hself] Hf Hn Hs. unfold switch_ok, fds_ok, wf_fds.
  rewrite Hf, Hs. repeat split; try done; try lia.
  intros fd ns H. apply Hlt in H. lia.
Qed.

(** The tail when everything works: the cookie of the namespace behind
    the descriptor is read there, the thread comes back, and the origin
    descriptor is closed; the descriptor itself is closed too when the
    function opened it and the caller did not ask for it. *)
Lemma netns_info_tail_reads k netns_fd ns c fdnew fd cookie0 s :
  switch_ok s ->
  netns_fd <> 0%Z ->
  fds s !! netns_fd = Some ns ->
  k_socket k ns = 0%Z ->
  k_cookie k ns = Some c ->
  netns_info_tail k netns_fd fdnew fd (Some cookie0) s
  = Ret (0%Z,
         (if fdnew then match fd with Some _ => Some netns_fd | None => None end else fd),
         Some c)
        (emits [EvSetns netns_fd true; EvSetns (next_fd s) true]
           (set_next_fd (next_fd s + 3)
              (set_fds (if fdnew && negb (bool_decide (is_Some fd))
                        then delete netns_fd (fds s) else fds s) s))).
Proof.
  intros [Hok Hself] Hnz Hfd Hsock Hcookie.
  pose proof (fds_ok_fresh s Hok) as Hfresh.
  pose proof Hok as [Hwf Hpos]. pose proof Hwf as [Hp Hlt].
  assert (netns_fd <> next_fd s) as Hne by (apply Hlt in Hfd; lia).
  unfold netns_info_tail.
  mstep. rewrite (netns_set_switch netns_fd ns s Hnz Hwf Hself Hfd).
  cbv beta iota zeta. cbn [fst snd]. change (0 =? 0)%Z with true. cbv beta iota.
  set (s1 := entered netns_fd ns s).
  destruct (entered_fields netns_fd ns s) as (E1 & E2 & E3 & E4 & E5 & E6).
  fold s1 in E1, E2, E3, E4, E5, E6.
  mstep. mstep. unfold sys_socket at 1. rewrite E1, Hsock.
  change (0 =? 0)%Z with true. cbv beta iota.
  assert ((next_fd s1 <? 0)%Z = false) as -> by (apply Z.ltb_ge; rewrite E3; lia).
  mstep. unfold sys_getsockopt_netns_cookie at 1. mstep. fields.
  change (cur_netns s1) with ns. rewrite Hcookie. cbv beta iota. cbn [fst snd].
  change (0 <? 0)%Z with false. cbv beta iota.
  mstep. unfold ret at 1. cbv beta iota.
  mstep. unfold sys_close_socket at 1, ret at 1. cbv beta iota.
  unfold ret at 1. cbv beta iota.
  set (s2 := set_next_fd (next_fd s1 + 1) s1).
  assert (wf_fds s2) as Hwf2.
  { apply (wf_fds_next s1); [by apply (wf_fds_opened s) | reflexivity | reflexivity]. }
  assert (fds s2 !! next_fd s = Some (cur_netns s)) as Hfd2
    by (change (fds s2) with (fds s1); rewrite E2; apply lookup_insert_eq).
  assert (self_ns_ok s2 = true) as Hself2 by exact Hself.
  assert (next_fd s <> 0%Z) as Hnz2 by lia.
  mstep. rewrite (netns_set_restore (next_fd s) (cur_netns s) s2 Hnz2 Hwf2 Hself2 Hfd2).
  cbv beta iota. unfold ret at 1. cbv beta iota. cbn [fst snd].
  change (0 =? 0)%Z with true. cbn [andb].
  assert ((0 <? next_fd s)%Z = true) as -> by (apply Z.ltb_lt; lia).
  assert (fds s2 = <[next_fd s := cur_netns s]> (fds s)) as F2 by reflexivity.
  destruct fdnew, fd as [v|]; cbn [andb negb];
    rewrite ?bool_decide_eq_true_2 by (by eexists);
    rewrite ?bool_decide_eq_false_2 by (by intros [? ?]);
    cbn [andb negb].
  - mstep. unfold ret at 1. cbv beta iota.
    mstep. unfold sys_close at 1, restored. fields.
    rewrite Hfd2. cbv beta iota. unfold ret. f_equal.
    rewrite F2. unfold s2, s1, entered. state_eq.
    + by rewrite delete_insert_eq, delete_id.
    + lia.
    + by rewrite <- app_assoc.
  - mstep. unfold sys_close at 1, restored. fields.
    rewrite F2, lookup_insert_ne by done. rewrite Hfd. cbv beta iota.
    mstep. unfold sys_close at 1. fields.
    rewrite lookup_delete_ne by done. rewrite lookup_insert_eq. cbv beta iota.
    unfold ret. f_equal.
    unfold s2, s1, entered. state_eq.
    + rewrite (delete_insert_ne _ netns_fd (next_fd s)) by done.
      rewrite delete_insert_eq. apply delete_id.
      by rewrite lookup_delete_ne.
    + lia.
    + by rewrite <- app_assoc.
  - mstep. unfold ret at 1. cbv beta iota.
    mstep. unfold sys_close at 1, restored. fields.
    rewrite Hfd2. cbv beta iota. unfold ret. f_equal.
    rewrite F2. unfold s2, s1, entered. state_eq.
    + by rewrite delete_insert_eq, delete_id.
    + lia.
    + by rewrite <- app_assoc.
  - mstep. unfold ret at 1. cbv beta iota.
    mstep. unfold sys_close at 1, restored. fields.
    rewrite Hfd2. cbv beta iota. unfold ret. f_equal.
    rewrite F2. unfold s2, s1, entered. state_eq.
    + by rewrite delete_insert_eq, delete_id.
    + lia.
    + by rewrite <- app_assoc.
Qed.

Lemma switch_ok_opened s ns :
  switch_ok s ->
  switch_ok (set_next_fd (next_fd s + 1) (set_fds (<[next_fd s := ns]> (fds s)) s)).
Proof.
  intros [[[Hp Hlt] Hpos] Hself]. split; [|exact Hself]. split; [split|]; fields.
  - lia.
  - intros fd ns' H. destruct (decide (fd = next_fd s)) as [->|Hne]; [lia|].
    rewrite lookup_insert_ne in H by done. apply Hlt in H. lia.
  - intros fd ns' H. destruct (decide (fd = next_fd s)) as [->|Hne]; [lia|].
    rewrite lookup_insert_ne in H by done. by apply Hpos in H.
Qed.

(** [bpftune_netns_info] for a process whose namespace can be opened and
    read. *)
Lemma netns_info_pid_reads k p ns c fd cookie0 s :
  switch_ok s ->
  k_open_pid k p = inr ns ->
  k_socket k ns = 0%Z ->
  k_cookie k ns = Some c ->
  bpftune_netns_info k (Zpos p) fd (Some cookie0) s
  = Ret (0%Z, match fd with Some _ => Some (next_fd s) | None => None end, Some c)
        (emits [EvSetns (next_fd s) true; EvSetns (next_fd s + 1) true]
           (set_next_fd (next_fd s + 4)
              (set_fds (match fd with
                        | Some _ => <[next_fd s := ns]> (fds s)
                        | None => fds s
                        end) s))).
Proof.
  intros Hok Hopen Hsock Hcookie.
  pose proof (fds_ok_fresh s (proj1 Hok)) as Hfresh.
  pose proof Hok as [[[Hp Hlt] Hpos] Hself].
  rewrite netns_info_unfold. cbv zeta.
  change (Z.pos p =? 0)%Z with false. cbn [andb negb].
  mstep. unfold bpftune_netns_fd. change (Z.pos p =? 0)%Z with false. cbv beta iota.
  mstep. unfold sys_open_pid_ns at 1. rewrite Hopen. cbv beta iota.
  assert ((next_fd s <? 0)%Z = false) as -> by (apply Z.ltb_ge; lia).
  unfold ret at 1. cbv beta iota.
  assert ((next_fd s <=? 0)%Z = false) as -> by (apply Z.leb_gt; lia).
  cbv beta iota.
  set (s1 := set_next_fd (next_fd s + 1) (set_fds (<[next_fd s := ns]> (fds s)) s)).
  assert (switch_ok s1) as Hok1 by (by apply switch_ok_opened).
  assert (fds s1 !! next_fd s = Some ns) as Hfd1 by apply lookup_insert_eq.
  assert (next_fd s <> 0%Z) as Hnz by lia.
  rewrite (netns_info_tail_reads k (next_fd s) ns c true fd cookie0 s1 Hok1 Hnz Hfd1
             Hsock Hcookie).
  f_equal.
  unfold s1. state_eq.
  - destruct fd as [v|]; cbn [andb negb].
    + rewrite bool_decide_eq_true_2 by (by eexists). reflexivity.
    + rewrite bool_decide_eq_false_2 by (by intros [? ?]). cbn [negb].
      by rewrite delete_insert_eq, delete_id.
  - lia.
Qed.

Lemma netns_info_pid_gone k p e fd cookie s :
  k_open_pid k p = inl e ->
  (0 < e)%Z ->
  bpftune_netns_info k (Zpos p) fd cookie s = Ret ((- e)%Z, fd, cookie) (set_errno e s).
Proof.
  intros Hopen He.
  rewrite netns_info_unfold. cbv zeta.
  change (Z.pos p =? 0)%Z with false. cbn [andb negb].
  mstep. unfold bpftune_netns_fd. change (Z.pos p =? 0)%Z with false. cbv beta iota.
  mstep. unfold sys_open_pid_ns at 1. rewrite Hopen. cbv beta iota.
  change (-1 <? 0)%Z with true. cbv beta iota.
  mstep. unfold gets at 1. cbv beta iota. fields. unfold ret at 1. cbv beta iota.
  assert ((- e <=? 0)%Z = true) as -> by (apply Z.leb_le; lia).
  reflexivity.
Qed.

(** X25: [bpftune_netns_info] for a process whose namespace can be opened
    and has a cookie returns 0 and the cookie of that namespace, read
    from inside it, and leaves the thread in the namespace it was in and
    no descriptor behind but the one it hands to the caller: none when
    [fd] is null, else the descriptor of the namespace stored in
    [*fd]. *)
Theorem netns_info_reads_cookie_and_cleans_up :
  forall (k : kernel) (p : positive) (ns : netns) (c cookie0 : N) (s : state),
    switch_ok s ->
    k_open_pid k p = inr ns ->
    k_socket k ns = 0%Z ->
    k_cookie k ns = Some c ->
    (exists s',
        bpftune_netns_info k (Zpos p) None (Some cookie0) s = Ret (0%Z, None, Some c) s'
        /\ cur_netns s' = cur_netns s
        /\ fds s' = fds s)
    /\ (forall fd0,
          exists s',
            bpftune_netns_info k (Zpos p) (Some fd0) (Some cookie0) s
            = Ret (0%Z, Some (next_fd s), Some c) s'
            /\ cur_netns s' = cur_netns s
            /\ fds s !! next_fd s = None
            /\ fds s' = <[next_fd s := ns]> (fds s)).
Proof.
  intros k p ns c cookie0 s Hok Hopen Hsock Hcookie.
  split.
  - rewrite (netns_info_pid_reads k p ns c None cookie0 s Hok Hopen Hsock Hcookie).
    eexists. split; [reflexivity|]. by split.
  - intros fd0.
    rewrite (netns_info_pid_reads k p ns c (Some fd0) cookie0 s Hok Hopen Hsock Hcookie).
    eexists. split; [reflexivity|]. split; [reflexivity|].
    split; [apply fds_ok_fresh, Hok | reflexivity].
Qed.

Lemma switch_ok_demo : switch_ok demo_state.
Proof. split; [exact fds_ok_demo | reflexivity]. Defined.

(** X25 for process 200 of the example kernel. *)
Lemma netns_info_reads_cookie_and_cleans_up_witness :
  (exists s',
      bpftune_netns_info demo_kernel (Zpos 200) None (Some 0%N) demo_state
      = Ret (0%Z, None, Some 12%N) s'
      /\ cur_netns s' = cur_netns demo_state
      /\ fds s' = fds demo_state)
  /\ (forall fd0,
        exists s',
          bpftune_netns_info demo_kernel (Zpos 200) (Some fd0) (Some 0%N) demo_state
          = Ret (0%Z, Some (next_fd demo_state), Some 12%N) s'
          /\ cur_netns s' = cur_netns demo_state
          /\ fds demo_state !! next_fd demo_state = None
          /\ fds s' = <[next_fd demo_state := 1]> (fds demo_state)).
Proof.
  apply (netns_info_reads_cookie_and_cleans_up demo_kernel 200 1 12%N 0%N demo_state).
  - exact switch_ok_demo.
  - reflexivity.
  - reflexivity.
  - reflexivity.
Defined.

(** X26: [bpftune_netns_init_all] finds out whether the kernel has
    namespace cookies and, if so, records the cookie of the process's own
    namespace as the global one; it returns 0.  It discovers no other
    namespace, whatever /proc/mounts and /proc hold: its sweep is
    [bpftune_netns_find(0)], which returns at its first test, so no
    tuner gets a namespace node; the thread and its descriptors are as
    before. *)
Theorem netns_init_all_records_own_cookie_only :
  forall (lg : logger) (k : kernel) (s : state),
    switch_ok s ->
    k_open_pid k (k_getpid k) = inr (cur_netns s) ->
    exists s',
      bpftune_netns_init_all k lg s = Ret 0%Z s'
      /\ netns_cookie_supported s'
         = (k_socket k (cur_netns s) =? 0)%Z
           && bool_decide (is_Some (k_cookie k (cur_netns s)))
      /\ (netns_cookie_supported s' = true ->
          k_cookie k (cur_netns s) = Some (global_netns_cookie s'))
      /\ heap s' = heap s
      /\ cur_netns s' = cur_netns s
      /\ fds s' = fds s.
Proof.
  intros lg k s Hok Hopen.
  unfold bpftune_netns_init_all.
  mstep. unfold bpftune_netns_cookie_supported.
  mstep. unfold sys_socket at 1.
  destruct (k_socket k (cur_netns s) =? 0)%Z eqn:Hsock; cbv beta iota.
  - pose proof Hok as [[[Hp _] _] _].
    assert ((next_fd s <? 0)%Z = false) as -> by (apply Z.ltb_ge; lia).
    mstep. unfold sys_getsockopt_netns_cookie at 1. fields.
    destruct (k_cookie k (cur_netns s)) as [c|] eqn:Hcookie; cbv beta iota; cbn [fst snd].
    + mstep. unfold sys_close_socket at 1, ret at 1. cbv beta iota.
      change (0 <? 0)%Z with false. cbv beta iota. unfold ret at 1. cbv beta iota.
      mstep. unfold modify at 1. cbv beta iota. cbn [negb].
      set (s1 := set_netns_cookie_supported true (set_next_fd (next_fd s + 1) s)).
      assert (switch_ok s1) as Hok1.
      { apply (switch_ok_fields s); [exact Hok | reflexivity | simpl; lia | reflexivity]. }
      apply Z.eqb_eq in Hsock.
      mstep.
      rewrite (netns_info_pid_reads k (k_getpid k) (cur_netns s) c None
                 (k_indeterminate k) s1 Hok1 Hopen Hsock Hcookie).
      cbv beta iota. cbn [fst snd]. change (0 =? 0)%Z with true. cbv beta iota.
      mstep. mstep. unfold modify at 1. cbv beta iota.
      unfold bpftune_log at 1, modify at 1. cbv beta iota.
      unfold bpftune_netns_find.
      mstep. unfold gets at 1. cbv beta iota.
      mstep. unfold gets at 1. cbv beta iota.
      rewrite orb_true_r. cbn [orb]. unfold ret.
      eexists. split; [reflexivity|].
      rewrite bool_decide_eq_true_2 by (by eexists).
      by repeat split.
    + mstep. unfold sys_close_socket at 1, ret at 1. cbv beta iota.
      change (-1 <? 0)%Z with true. cbv beta iota.
      mstep. unfold bpftune_log at 1, modify at 1. cbv beta iota.
      unfold ret at 1. cbv beta iota.
      mstep. unfold modify at 1. cbv beta iota. cbn [negb]. unfold ret.
      eexists. split; [reflexivity|].
      rewrite bool_decide_eq_false_2 by (by intros [? ?]).
      by repeat split.
  - change (-1 <? 0)%Z with true. cbv beta iota.
    mstep. unfold gets at 1. cbv beta iota.
    mstep. unfold bpftune_log at 1, modify at 1. cbv beta iota.
    unfold ret at 1. cbv beta iota.
    mstep. unfold modify at 1. cbv beta iota. cbn [negb]. unfold ret.
    eexists. split; [reflexivity|]. by repeat split.
Qed.

(** X26 for the example kernel, whose /proc shows a process in another
    namespace. *)
Lemma netns_init_all_records_own_cookie_only_witness :
  exists s',
    bpftune_netns_init_all demo_kernel default_logger demo_state = Ret 0%Z s'
    /\ netns_cookie_supported s'
       = (k_socket demo_kernel (cur_netns demo_state) =? 0)%Z
         && bool_decide (is_Some (k_cookie demo_kernel (cur_netns demo_state)))
    /\ (netns_cookie_supported s' = true ->
        k_cookie demo_kernel (cur_netns demo_state) = Some (global_netns_cookie s'))
    /\ heap s' = heap demo_state
    /\ cur_netns s' = cur_netns demo_state
    /\ fds s' = fds demo_state.
Proof.
  apply (netns_init_all_records_own_cookie_only default_logger demo_kernel demo_state).
  - exact switch_ok_demo.
  - reflexivity.
Defined.

Lemma find_in_mounts_no_nsfs k lg cookie ret_ nc : forall mounts s,
  Forall (fun m => is_nsfs m = false) mounts ->
  find_in_mounts k lg cookie mounts ret_ nc s = Ret (None, ret_, nc) s.
Proof.
  induction mounts as [|m mounts IH]; intros s Hall; [reflexivity|].
  apply Forall_cons in Hall as [Hm Hrest].
  cbn [find_in_mounts]. unfold is_nsfs in Hm. rewrite Hm. cbn [negb].
  by apply IH.
Qed.

(** The loop over /proc when the kernel behaves: the descriptor it
    returns is a new one of a namespace that carries the cookie, opened
    for a process of the listing, and everything else it opened is
    closed again. *)
Lemma find_in_proc_spec k cookie :
  kernel_sane k ->
  cookie <> 0%N ->
  forall ents s nc,
    switch_ok s ->
    exists r s',
      find_in_proc k cookie ents (- ENOENT)%Z nc s = Ret r s'
      /\ cur_netns s' = cur_netns s
      /\ heap s' = heap s
      /\ ((r = (- ENOENT)%Z /\ fds s' = fds s /\ no_process_has k cookie ents)
          \/ ((0 < r)%Z /\ fds s !! r = None
              /\ exists p ns, DPid p ∈ ents /\ k_open_pid k p = inr ns
                              /\ k_cookie k ns = Some cookie
                              /\ fds s' = <[r := ns]> (fds s))).
Proof.
  intros (Herr & Hsock & Hcook) Hnz. apply N.eqb_neq in Hnz as Hnz'.
  induction ents as [|d ents IH]; intros s nc Hok.
  - exists (- ENOENT)%Z, s. split; [reflexivity|]. split; [reflexivity|].
    split; [reflexivity|]. left. split; [reflexivity|].
    split; [reflexivity | apply Forall_nil_2].
  - destruct d as [p|name].
    2: { cbn [find_in_proc].
         destruct (IH s nc Hok) as (r & s' & Hrun & Hcur & Hheap & Hres).
         exists r, s'. split; [exact Hrun|]. split; [exact Hcur|]. split; [exact Hheap|].
         destruct Hres as [(Hr & Hf & Hno) | (Hr & Hfresh & p & ns & Hin & Hrest)].
         - left. split; [exact Hr|]. split; [exact Hf|]. by apply Forall_cons.
         - right. split; [exact Hr|]. split; [exact Hfresh|].
           exists p, ns. split; [by right | exact Hrest]. }
    cbn [find_in_proc]. mstep.
    destruct (k_open_pid k p) as [e|ns] eqn:Hopen.
    + rewrite (netns_info_pid_gone k p e (Some 0%Z) (Some nc) s Hopen (Herr p e Hopen)).
      cbv beta iota zeta. cbn [fst snd default from_option Datatypes.id].
      assert ((- e =? 0)%Z = false) as ->
        by (apply Z.eqb_neq; specialize (Herr p e Hopen); lia).
      cbn [negb].
      assert (switch_ok (set_errno e s)) as Hok1
        by (apply (switch_ok_fields s); [exact Hok | reflexivity | simpl; lia | reflexivity]).
      destruct (IH (set_errno e s) nc Hok1) as (r & s' & Hrun & Hcur & Hheap & Hres).
      exists r, s'. split; [exact Hrun|]. split; [exact Hcur|]. split; [exact Hheap|].
      destruct Hres as [(Hr & Hf & Hno) | (Hr & Hfresh & p' & ns & Hin & Hrest)].
      * left. split; [exact Hr|]. split; [exact Hf|]. apply Forall_cons.
        split; [|exact Hno]. unfold cookie_of_pid. by rewrite Hopen.
      * right. split; [exact Hr|]. split; [exact Hfresh|].
        exists p', ns. split; [by right | exact Hrest].
    + destruct (Hcook ns) as [c Hc].
      rewrite (netns_info_pid_reads k p ns c (Some 0%Z) nc s Hok Hopen (Hsock ns) Hc).
      cbv beta iota zeta. cbn [fst snd default from_option Datatypes.id].
      change (0 =? 0)%Z with true. cbn [negb]. rewrite Hnz'.
      pose proof (fds_ok_fresh s (proj1 Hok)) as Hfresh.
      pose proof Hok as [[[Hp _] _] _].
      destruct (c =? cookie)%N eqn:Ec.
      * apply N.eqb_eq in Ec as ->.
        mstep. unfold bpftune_log at 1, modify at 1, ret. cbv beta iota.
        eexists _, _. split; [reflexivity|]. split; [reflexivity|]. split; [reflexivity|].
        right. split; [lia|]. split; [exact Hfresh|].
        exists p, ns. split; [by left|]. by repeat split.
      * mstep. unfold sys_close at 1. fields. rewrite lookup_insert_eq. cbv beta iota.
        set (s1 := set_fds _ _).
        assert (fds s1 = fds s) as F1
          by (unfold s1; fields; by rewrite delete_insert_eq, delete_id).
        assert (switch_ok s1) as Hok1
          by (apply (switch_ok_fields s); [exact Hok | exact F1 | simpl; lia | reflexivity]).
        destruct (IH s1 c Hok1) as (r & s' & Hrun & Hcur & Hheap & Hres).
        exists r, s'. split; [exact Hrun|]. split; [exact Hcur|]. split; [exact Hheap|].
        rewrite F1 in Hres.
        destruct Hres as [(Hr & Hf & Hno) | (Hr & Hfr & p' & ns' & Hin & Hrest)].
        -- left. split; [exact Hr|]. split; [exact Hf|]. apply Forall_cons.
           split; [|exact Hno]. unfold cookie_of_pid. rewrite Hopen, Hc.
           apply N.eqb_neq in Ec. congruence.
        -- right. split; [exact Hr|]. split; [exact Hfr|].
           exists p', ns'. split; [by right | exact Hrest].
Qed.

(** X27: with no nsfs mount in the way, the lookup of a descriptor for a
    cookie walks the processes of /proc.  When it returns a descriptor,
    this is a new descriptor of a namespace that carries the requested
    cookie, and the only descriptor the call leaves open; when no
    process lives in a namespace of that cookie it returns [-ENOENT] and
    leaves no descriptor behind.  The thread stays in its namespace. *)
Theorem netns_fd_from_cookie_finds_matching_namespace :
  forall (lg : logger) (k : kernel) (mounts : list mntent) (ents : list dirent)
         (cookie : N) (s : state),
    kernel_sane k ->
    k_mounts k = inr mounts ->
    Forall (fun m => is_nsfs m = false) mounts ->
    k_proc k = inr ents ->
    switch_ok s ->
    searchable s cookie ->
    exists r s',
      bpftune_netns_fd_from_cookie k lg cookie s = Ret r s'
      /\ cur_netns s' = cur_netns s
      /\ ((r = (- ENOENT)%Z /\ fds s' = fds s /\ no_process_has k cookie ents)
          \/ ((0 < r)%Z /\ fds s !! r = None
              /\ exists ns, fds s' = <[r := ns]> (fds s) /\ k_cookie k ns = Some cookie)).
Proof.
  intros lg k mounts ents cookie s Hsane Hm Hno Hp Hok (Hsup & Hnz & Hglob).
  unfold bpftune_netns_fd_from_cookie, bpftune_netns_find.
  mstep. unfold gets at 1. cbv beta iota.
  mstep. unfold gets at 1. cbv beta iota.
  rewrite Hsup. cbn [negb orb].
  apply N.eqb_neq in Hnz as Hnz'. rewrite Hnz'. cbn [orb].
  assert (negb (global_netns_cookie s =? 0)%N && (cookie =? global_netns_cookie s)%N = false)
    as ->.
  { destruct Hglob as [-> | Hne]; [reflexivity|].
    apply N.eqb_neq in Hne as ->. apply andb_false_r. }
  mstep. unfold sys_setmntent at 1. rewrite Hm. cbv beta iota.
  mstep. rewrite (find_in_mounts_no_nsfs k lg cookie _ _ mounts _ Hno).
  cbv beta iota. cbn [fst snd].
  mstep. unfold sys_opendir at 1. rewrite Hp. cbv beta iota. fields.
  set (s0 := set_next_fd _ _).
  assert (switch_ok s0) as Hok0
    by (apply (switch_ok_fields s); [exact Hok | reflexivity | simpl; lia | reflexivity]).
  destruct (find_in_proc_spec k cookie Hsane Hnz ents s0 (k_indeterminate k) Hok0)
    as (r & s' & Hrun & Hcur & _ & Hres).
  exists r, s'. split; [exact Hrun|]. split; [exact Hcur|].
  destruct Hres as [H | (Hr & Hfresh & p & ns & _ & _ & Hc & Hf)]; [by left|].
  right. split; [exact Hr|]. split; [exact Hfresh|]. by exists ns.
Qed.

Lemma kernel_sane_demo : kernel_sane demo_kernel.
Proof.
  split; [|split].
  - intros pid e. unfold demo_kernel. cbn [k_open_pid].
    destruct (decide (pid = 100%positive)); [discriminate|].
    destruct (decide (pid = 200%positive)); [discriminate|].
    intros [= <-]. reflexivity.
  - reflexivity.
  - intros ns. by eexists.
Defined.

(** X27 for cookie 12 in the example kernel, where process 200 lives in
    the namespace of that cookie. *)
Lemma netns_fd_from_cookie_finds_matching_namespace_witness :
  exists r s',
    bpftune_netns_fd_from_cookie demo_kernel default_logger 12%N demo_state = Ret r s'
    /\ cur_netns s' = cur_netns demo_state
    /\ ((r = (- ENOENT)%Z /\ fds s' = fds demo_state
         /\ no_process_has demo_kernel 12%N
              [DOther "."; DOther ".."; DPid 100; DOther "self"; DPid 150; DPid 200])
        \/ ((0 < r)%Z /\ fds demo_state !! r = None
            /\ exists ns, fds s' = <[r := ns]> (fds demo_state)
                          /\ k_cookie demo_kernel ns = Some 12%N)).
Proof.
  apply (netns_fd_from_cookie_finds_matching_namespace default_logger demo_kernel
           [Mntent "proc" "/proc" (inl EACCES)]
           [DOther "."; DOther ".."; DPid 100; DOther "self"; DPid 150; DPid 200]
           12%N demo_state).
  - exact kernel_sane_demo.
  - reflexivity.
  - apply Forall_cons. split; [reflexivity | apply Forall_nil_2].
  - reflexivity.
  - exact switch_ok_demo.
  - split; [reflexivity|]. split; [discriminate | by left].
Defined.

(** The tail when the cookie cannot be read: the thread comes back and
    the origin descriptor is closed all the same. *)
Lemma netns_info_tail_fails k netns_fd ns fdnew fd cookie0 s :
  switch_ok s ->
  netns_fd <> 0%Z ->
  fds s !! netns_fd = Some ns ->
  cookie_errno k ns <> 0%Z ->
  exists es n,
    (next_fd s <= n)%Z
    /\ netns_info_tail k netns_fd fdnew fd (Some cookie0) s
       = Ret ((- cookie_errno k ns)%Z, fd, Some cookie0)
             (emits es
                (set_errno (cookie_errno k ns)
                   (set_next_fd n
                      (set_fds (if fdnew && negb (bool_decide (is_Some fd))
                                then delete netns_fd (fds s) else fds s) s)))).
Proof.
  intros [Hok Hself] Hnz Hfd Herr.
  pose proof (fds_ok_fresh s Hok) as Hfresh.
  pose proof Hok as [Hwf Hpos]. pose proof Hwf as [Hp Hlt].
  assert (netns_fd <> next_fd s) as Hne by (apply Hlt in Hfd; lia).
  unfold netns_info_tail.
  mstep. rewrite (netns_set_switch netns_fd ns s Hnz Hwf Hself Hfd).
  cbv beta iota zeta. cbn [fst snd]. change (0 =? 0)%Z with true. cbv beta iota.
  set (s1 := entered netns_fd ns s).
  destruct (entered_fields netns_fd ns s) as (E1 & E2 & E3 & E4 & E5 & E6).
  fold s1 in E1, E2, E3, E4, E5, E6.
  assert (exists s2 es2 n2,
            (s0 <- sys_socket k ;;
             r <- (if (s0 <? 0)%Z
                   then e <- gets errno ;;
                        bpftune_log LOG_ERR "could not open socket in netns: %s\n" [AErr e] ;;
                        ret ((- e)%Z, None)
                   else
                     g <- sys_getsockopt_netns_cookie k ;;
                     r <- (if (fst g <? 0)%Z
                           then e <- gets errno ;;
                                bpftune_log LOG_DEBUG "could not get SO_NETNS_COOKIE: %s\n"
                                            [AErr e] ;;
                                ret (- e)%Z
                           else ret (fst g)) ;;
                     sys_close_socket s0 ;;
                     ret (r, snd g)) ;;
             bpftune_netns_set (next_fd s) false ;;
             ret r) s1
            = (bpftune_netns_set (next_fd s) false ;;
               ret ((- cookie_errno k ns)%Z, @None N)) s2
            /\ s2 = emits es2 (set_errno (cookie_errno k ns) (set_next_fd n2 s1))
            /\ (next_fd s1 <= n2)%Z)
    as (s2 & es2 & n2 & Hinner & Hs2 & Hn2).
  { unfold cookie_errno in *.
    mstep. unfold sys_socket at 1. rewrite E1.
    destruct (k_socket k ns =? 0)%Z eqn:Hsock; cbv beta iota.
    - assert ((next_fd s1 <? 0)%Z = false) as -> by (apply Z.ltb_ge; rewrite E3; lia).
      mstep. mstep. unfold sys_getsockopt_netns_cookie at 1. fields.
      change (cur_netns s1) with ns.
      destruct (k_cookie k ns) as [c|]; [done|]. cbv beta iota. cbn [fst snd].
      change (-1 <? 0)%Z with true. cbv beta iota.
      mstep. mstep. unfold gets at 1. cbv beta iota. fields.
      mstep. unfold bpftune_log at 1, modify at 1. cbv beta iota.
      unfold ret at 1. cbv beta iota.
      mstep. unfold sys_close_socket at 1, ret at 1. cbv beta iota.
      unfold ret at 1. cbv beta iota.
      eexists _, [_], (next_fd s1 + 1)%Z. split; [reflexivity|].
      split; [by state_eq | lia].
    - change (-1 <? 0)%Z with true. cbv beta iota.
      mstep. mstep. unfold gets at 1. cbv beta iota. fields.
      mstep. unfold bpftune_log at 1, modify at 1. cbv beta iota.
      unfold ret at 1. cbv beta iota.
      eexists _, [_], (next_fd s1). split; [reflexivity|].
      split; [by state_eq | lia]. }
  mstep. rewrite Hinner.
  assert (wf_fds s2) as Hwf2.
  { pose proof (wf_fds_opened s s1 Hwf E2 E3) as [Hp1 Hlt1].
    subst s2. split; fields; [lia|]. intros fd' ns' H. apply Hlt1 in H. lia. }
  assert (fds s2 = <[next_fd s := cur_netns s]> (fds s)) as F2 by (by subst s2).
  assert (fds s2 !! next_fd s = Some (cur_netns s)) as Hfd2
    by (rewrite F2; apply lookup_insert_eq).
  assert (self_ns_ok s2 = true) as Hself2 by (by subst s2).
  assert (next_fd s <> 0%Z) as Hnz2 by lia.
  mstep. rewrite (netns_set_restore (next_fd s) (cur_netns s) s2 Hnz2 Hwf2 Hself2 Hfd2).
  cbv beta iota. unfold ret at 1. cbv beta iota. cbn [fst snd].
  apply Z.eqb_neq in Herr as Herr'.
  assert ((- cookie_errno k ns =? 0)%Z = false) as ->
    by (apply Z.eqb_neq; apply Z.eqb_neq in Herr'; lia).
  cbn [andb].
  assert ((0 <? next_fd s)%Z = true) as -> by (apply Z.ltb_lt; lia).
  assert (fdnew && negb (bool_decide (is_Some fd)) = true
          \/ fdnew && negb (bool_decide (is_Some fd)) = false) as [Hc|Hc]
    by (destruct (fdnew && negb (bool_decide (is_Some fd))); auto).
  - rewrite Hc.
    mstep. unfold sys_close at 1, restored. fields.
    rewrite F2, lookup_insert_ne by done. rewrite Hfd. cbv beta iota.
    mstep. unfold sys_close at 1. fields.
    rewrite lookup_delete_ne by done. rewrite lookup_insert_eq. cbv beta iota.
    unfold ret.
    exists (EvSetns netns_fd true :: es2 ++ [EvSetns (next_fd s) true]), (n2 + 1)%Z.
    split; [rewrite E3 in Hn2; lia|].
    f_equal. subst s2. unfold s1, entered. state_eq.
    + rewrite (delete_insert_ne _ netns_fd (next_fd s)) by done.
      rewrite delete_insert_eq. apply delete_id. by rewrite lookup_delete_ne.
    + rewrite <- !app_assoc. reflexivity.
  - rewrite Hc.
    mstep. unfold ret at 1. cbv beta iota.
    mstep. unfold sys_close at 1, restored. fields.
    rewrite Hfd2. cbv beta iota. unfold ret.
    exists (EvSetns netns_fd true :: es2 ++ [EvSetns (next_fd s) true]), (n2 + 1)%Z.
    split; [rewrite E3 in Hn2; lia|].
    f_equal. rewrite F2. subst s2. unfold s1, entered. state_eq.
    + by rewrite delete_insert_eq, delete_id.
    + rewrite <- !app_assoc. reflexivity.
Qed.

(** X29: when the cookie of the namespace of a process cannot be read (no
    socket can be opened there, or the kernel has no namespace cookies)
    [bpftune_netns_info] returns the negated errno and leaves [*fd] and
    [*cookie] as they were; the thread is back in its namespace.  With a
    null [fd] no descriptor is left open; with [fd] given, the
    descriptor of the namespace the function opened stays open although
    the caller is not told of it. *)
Theorem netns_info_unreadable_cookie :
  forall (k : kernel) (p : positive) (ns : netns) (fd0 : Z) (cookie0 : N) (s : state),
    switch_ok s ->
    k_open_pid k p = inr ns ->
    cookie_errno k ns <> 0%Z ->
    (exists s',
        bpftune_netns_info k (Zpos p) None (Some cookie0) s
        = Ret ((- cookie_errno k ns)%Z, None, Some cookie0) s'
        /\ cur_netns s' = cur_netns s
        /\ fds s' = fds s)
    /\ (exists s',
          bpftune_netns_info k (Zpos p) (Some fd0) (Some cookie0) s
          = Ret ((- cookie_errno k ns)%Z, Some fd0, Some cookie0) s'
          /\ cur_netns s' = cur_netns s
          /\ fds s !! next_fd s = None
          /\ fds s' = <[next_fd s := ns]> (fds s)).
Proof.
  intros k p ns fd0 cookie0 s Hok Hopen Herr.
  pose proof (fds_ok_fresh s (proj1 Hok)) as Hfresh.
  pose proof Hok as [[[Hp Hlt] Hpos] Hself].
  set (s1 := set_next_fd (next_fd s + 1) (set_fds (<[next_fd s := ns]> (fds s)) s)).
  assert (switch_ok s1) as Hok1 by (by apply switch_ok_opened).
  assert (fds s1 !! next_fd s = Some ns) as Hfd1 by apply lookup_insert_eq.
  assert (next_fd s <> 0%Z) as Hnz by lia.
  assert (forall fd,
            bpftune_netns_info k (Zpos p) fd (Some cookie0) s
            = netns_info_tail k (next_fd s) true fd (Some cookie0) s1) as Hrun.
  { intros fd. rewrite netns_info_unfold. cbv zeta.
    change (Z.pos p =? 0)%Z with false. cbn [andb negb].
    mstep. unfold bpftune_netns_fd. change (Z.pos p =? 0)%Z with false. cbv beta iota.
    mstep. unfold sys_open_pid_ns at 1. rewrite Hopen. cbv beta iota.
    assert ((next_fd s <? 0)%Z = false) as -> by (apply Z.ltb_ge; lia).
    unfold ret at 1. cbv beta iota.
    assert ((next_fd s <=? 0)%Z = false) as -> by (apply Z.leb_gt; lia).
    reflexivity. }
  split.
  - rewrite Hrun.
    destruct (netns_info_tail_fails k (next_fd s) ns true None cookie0 s1 Hok1 Hnz Hfd1 Herr)
      as (es & n & _ & ->).
    eexists. split; [reflexivity|]. fields. split; [reflexivity|].
    cbn [andb]. rewrite bool_decide_eq_false_2 by (by intros [? ?]). cbn [negb].
    unfold s1. fields. by rewrite delete_insert_eq, delete_id.
  - rewrite Hrun.
    destruct (netns_info_tail_fails k (next_fd s) ns true (Some fd0) cookie0 s1 Hok1 Hnz Hfd1
                Herr) as (es & n & _ & ->).
    eexists. split; [reflexivity|]. fields. split; [reflexivity|].
    split; [exact Hfresh|].
    cbn [andb]. rewrite bool_decide_eq_true_2 by (by eexists). reflexivity.
Qed.

(** X29 for process 200 on a kernel without namespace cookies. *)
Lemma netns_info_unreadable_cookie_witness :
  (exists s',
      bpftune_netns_info old_kernel (Zpos 200) None (Some 0%N) demo_state
      = Ret ((- cookie_errno old_kernel 1%nat)%Z, None, Some 0%N) s'
      /\ cur_netns s' = cur_netns demo_state
      /\ fds s' = fds demo_state)
  /\ (exists s',
        bpftune_netns_info old_kernel (Zpos 200) (Some 0%Z) (Some 0%N) demo_state
        = Ret ((- cookie_errno old_kernel 1%nat)%Z, Some 0%Z, Some 0%N) s'
        /\ cur_netns s' = cur_netns demo_state
        /\ fds demo_state !! next_fd demo_state = None
        /\ fds s' = <[next_fd demo_state := 1]> (fds demo_state)).
Proof.
  apply (netns_info_unreadable_cookie old_kernel 200 1 0%Z 0%N demo_state).
  - exact switch_ok_demo.
  - reflexivity.
  - discriminate.
Defined.

(** [bpftune_netns_info(0, &fd, &cookie)] on a descriptor the caller
    holds. *)
Lemma netns_info_fd_reads k netns_fd ns c cookie0 s :
  switch_ok s ->
  (0 < netns_fd)%Z ->
  fds s !! netns_fd = Some ns ->
  k_socket k ns = 0%Z ->
  k_cookie k ns = Some c ->
  bpftune_netns_info k 0 (Some netns_fd) (Some cookie0) s
  = Ret (0%Z, Some netns_fd, Some c)
        (emits [EvSetns netns_fd true; EvSetns (next_fd s) true]
           (set_next_fd (next_fd s + 3) (set_fds (fds s) s))).
Proof.
  intros Hok Hpos Hfd Hsock Hcookie.
  rewrite netns_info_unfold. cbv zeta.
  change (0 =? 0)%Z with true. cbn [andb].
  assert ((0 <? netns_fd)%Z = true) as -> by (apply Z.ltb_lt; lia).
  cbn [negb andb default from_option Datatypes.id].
  mstep. unfold ret at 1. cbv beta iota.
  assert (netns_fd <> 0%Z) as Hnz by lia.
  rewrite (netns_info_tail_reads k netns_fd ns c false (Some netns_fd) cookie0 s Hok Hnz Hfd
             Hsock Hcookie).
  reflexivity.
Qed.

(** The same when the cookie cannot be read: the caller keeps its
    descriptor and its cookie. *)
Lemma netns_info_fd_fails k netns_fd ns cookie0 s :
  switch_ok s ->
  (0 < netns_fd)%Z ->
  fds s !! netns_fd = Some ns ->
  cookie_errno k ns <> 0%Z ->
  exists es n,
    (next_fd s <= n)%Z
    /\ bpftune_netns_info k 0 (Some netns_fd) (Some cookie0) s
       = Ret ((- cookie_errno k ns)%Z, Some netns_fd, Some cookie0)
             (emits es (set_errno (cookie_errno k ns) (set_next_fd n (set_fds (fds s) s)))).
Proof.
  intros Hok Hpos Hfd Herr.
  rewrite netns_info_unfold. cbv zeta.
  change (0 =? 0)%Z with true. cbn [andb].
  assert ((0 <? netns_fd)%Z = true) as -> by (apply Z.ltb_lt; lia).
  cbn [negb andb default from_option Datatypes.id].
  mstep. unfold ret at 1. cbv beta iota.
  assert (netns_fd <> 0%Z) as Hnz by lia.
  destruct (netns_info_tail_fails k netns_fd ns false (Some netns_fd) cookie0 s Hok Hnz Hfd Herr)
    as (es & n & Hn & Hrun).
  exists es, n. split; [exact Hn | exact Hrun].
Qed.

(** The first loop of [bpftune_netns_find] over entries it passes over:
    the locals are as before, and so are the thread's namespace and the
    table of descriptors. *)
Lemma find_in_mounts_passes k lg cookie ret_ nc tail : forall pre s,
  Forall (passed_over k) pre ->
  switch_ok s ->
  exists s',
    find_in_mounts k lg cookie (pre ++ tail) ret_ nc s
    = find_in_mounts k lg cookie tail ret_ nc s'
    /\ switch_ok s'
    /\ fds s' = fds s
    /\ cur_netns s' = cur_netns s
    /\ (next_fd s <= next_fd s')%Z.
Proof.
  induction pre as [|m pre IH]; intros s Hall Hok.
  - exists s. split; [reflexivity|]. split; [exact Hok|]. repeat split. lia.
  - apply Forall_cons in Hall as [Hm Hrest].
    cbn [app find_in_mounts]. fold (is_nsfs m).
    destruct (is_nsfs m) eqn:Hnsfs; cbn [negb].
    2: { by apply IH. }
    destruct Hm as [Hm | [[e He] | (ns & Hopen & Herr)]]; [congruence | |].
    + (* the mount point cannot be opened *)
      mstep. unfold bpftune_log at 1, modify at 1. cbv beta iota.
      mstep. unfold sys_open_mnt at 1. rewrite He. cbv beta iota.
      change (-1 <? 0)%Z with true. cbv beta iota.
      set (s1 := set_errno e _).
      assert (switch_ok s1) as Hok1
        by (apply (switch_ok_fields s); [exact Hok | reflexivity | simpl; lia | reflexivity]).
      destruct (IH s1 Hrest Hok1) as (s' & Hrun & Hok' & Hf & Hc & Hn).
      exists s'. split; [exact Hrun|]. split; [exact Hok'|].
      split; [exact Hf|]. split; [exact Hc | exact Hn].
    + (* the cookie of its namespace cannot be read *)
      pose proof (fds_ok_fresh s (proj1 Hok)) as Hfresh.
      pose proof Hok as [[[Hp _] _] _].
      mstep. unfold bpftune_log at 1, modify at 1. cbv beta iota.
      mstep. unfold sys_open_mnt at 1. rewrite Hopen. cbv beta iota. fields.
      assert ((next_fd s <? 0)%Z = false) as -> by (apply Z.ltb_ge; lia).
      set (s1 := set_next_fd _ _).
      assert (switch_ok s1) as Hok1.
      { pose proof (switch_ok_opened s ns Hok) as H.
        destruct H as [[[H1 H2] H3] H4]. by repeat split. }
      assert (fds s1 !! next_fd s = Some ns) as Hfd1 by apply lookup_insert_eq.
      destruct (netns_info_fd_fails k (next_fd s) ns nc s1 Hok1 Hp Hfd1 Herr)
        as (es & n & Hn1 & Hinfo).
      mstep. rewrite Hinfo.
      cbv beta iota zeta. cbn [fst snd default from_option Datatypes.id].
      assert ((- cookie_errno k ns =? 0)%Z = false) as -> by (apply Z.eqb_neq; lia).
      cbn [negb].
      mstep. unfold sys_close at 1. fields.
      change (fds s1) with (<[next_fd s := ns]> (fds s)).
      rewrite lookup_insert_eq. cbv beta iota.
      set (s2 := set_fds _ _).
      assert (fds s2 = fds s) as F2
        by (unfold s2; fields; by rewrite delete_insert_eq, delete_id).
      assert (switch_ok s2) as Hok2.
      { apply (switch_ok_fields s); [exact Hok | exact F2 | | reflexivity].
        unfold s2. fields. change (next_fd s1) with (next_fd s + 1)%Z in Hn1. lia. }
      destruct (IH s2 Hrest Hok2) as (s' & Hrun & Hok' & Hf & Hc & Hn).
      exists s'. split; [exact Hrun|]. split; [exact Hok'|].
      split; [by rewrite Hf|]. split; [by rewrite Hc|].
      assert (next_fd s <= next_fd s2)%Z
        by (unfold s2; fields; change (next_fd s1) with (next_fd s + 1)%Z in Hn1; lia).
      lia.
Qed.

(** X28: when /proc/mounts shows an nsfs mount that can be opened and
    whose namespace has a cookie that can be read, the lookup of a
    descriptor for a cookie ends at the first such mount; the entries
    before it that are no nsfs mounts, cannot be opened or have no
    readable cookie are passed over.  The cookie of the mount's namespace
    is read and reported and never compared with the cookie asked for,
    and /proc is not looked at.  The report has a [%s] for which no
    argument is passed: with a sink that formats debug messages the call
    ends there; with one that drops them, as the sink and level the
    library starts with do, it returns a descriptor that was not open
    before and refers to the namespace of the mount.  Either way that
    descriptor is open afterwards and the thread is in its own
    namespace. *)
Theorem netns_fd_from_cookie_takes_first_nsfs_mount :
  forall (lg : logger) (k : kernel) (pre : list mntent) (m : mntent) (rest : list mntent)
         (ns : netns) (c cookie : N) (s : state),
    k_mounts k = inr (pre ++ m :: rest) ->
    Forall (passed_over k) pre ->
    is_nsfs m = true ->
    mnt_open m = inr ns ->
    k_socket k ns = 0%Z ->
    k_cookie k ns = Some c ->
    switch_ok s ->
    searchable s cookie ->
    exists r s',
      bpftune_netns_fd_from_cookie k lg cookie s
      = (if formats lg LOG_DEBUG then Fault BadVarArg s' else Ret r s')
      /\ (0 < r)%Z
      /\ fds s !! r = None
      /\ fds s' = <[r := ns]> (fds s)
      /\ cur_netns s' = cur_netns s
      /\ last (trace s')
         = Some (EvLog LOG_DEBUG "found netns fd %d for cookie %ld via mnt %s\n"
                   [AInt (Z.of_N c); AStr (mnt_dir m)]).
Proof.
  intros lg k pre m rest ns c cookie s Hm Hpre Hnsfs Hopen Hsock Hcookie Hok
    (Hsup & Hnz & Hglob).
  unfold bpftune_netns_fd_from_cookie, bpftune_netns_find.
  mstep. unfold gets at 1. cbv beta iota.
  mstep. unfold gets at 1. cbv beta iota.
  rewrite Hsup. cbn [negb orb].
  apply N.eqb_neq in Hnz as Hnz'. rewrite Hnz'. cbn [orb].
  assert (negb (global_netns_cookie s =? 0)%N && (cookie =? global_netns_cookie s)%N = false)
    as ->.
  { destruct Hglob as [-> | Hne]; [reflexivity|].
    apply N.eqb_neq in Hne as ->. apply andb_false_r. }
  mstep. unfold sys_setmntent at 1. rewrite Hm. cbv beta iota.
  set (s0 := set_next_fd (next_fd s + 1) s).
  assert (switch_ok s0) as Hok0
    by (apply (switch_ok_fields s); [exact Hok | reflexivity | simpl; lia | reflexivity]).
  destruct (find_in_mounts_passes k lg cookie (- ENOENT)%Z (k_indeterminate k) (m :: rest)
              pre s0 Hpre Hok0) as (sp & Hpass & Hokp & Hfp & Hcp & Hnp).
  mstep. rewrite Hpass. clear Hpass.
  change (fds s0) with (fds s) in Hfp. change (cur_netns s0) with (cur_netns s) in Hcp.
  change (next_fd s0) with (next_fd s + 1)%Z in Hnp.
  pose proof (fds_ok_fresh sp (proj1 Hokp)) as Hfresh.
  pose proof Hokp as [[[Hp _] _] _].
  pose proof Hok as [[[_ Hlt] _] _].
  cbn [find_in_mounts]. unfold is_nsfs in Hnsfs. rewrite Hnsfs. cbn [negb].
  mstep. unfold bpftune_log at 1, modify at 1. cbv beta iota.
  mstep. unfold sys_open_mnt at 1. rewrite Hopen. cbv beta iota. fields.
  assert ((next_fd sp <? 0)%Z = false) as -> by (apply Z.ltb_ge; lia).
  set (s1 := set_next_fd _ _).
  assert (switch_ok s1) as Hok1.
  { pose proof (switch_ok_opened sp ns Hokp) as H.
    destruct H as [[[H1 H2] H3] H4]. by repeat split. }
  assert (fds s1 !! next_fd sp = Some ns) as Hfd1 by apply lookup_insert_eq.
  mstep. rewrite (netns_info_fd_reads k (next_fd sp) ns c (k_indeterminate k) s1 Hok1 Hp Hfd1
                    Hsock Hcookie).
  cbv beta iota zeta. cbn [fst snd default from_option Datatypes.id].
  change (0 =? 0)%Z with true. cbn [negb].
  mstep. unfold bpftune_log_mismatch.
  mstep. unfold bpftune_log at 1, modify at 1. cbv beta iota.
  assert (fds s !! next_fd sp = None) as Hnew.
  { destruct (fds s !! next_fd sp) as [ns'|] eqn:E; [|reflexivity].
    apply Hlt in E. lia. }
  exists (next_fd sp).
  destruct (formats lg LOG_DEBUG).
  - unfold crash at 1. cbv beta iota.
    eexists. split; [reflexivity|]. split; [lia|]. split; [exact Hnew|].
    unfold s1. fields. rewrite Hfp, Hcp.
    split; [reflexivity|]. split; [reflexivity | apply last_snoc].
  - unfold ret at 1. cbv beta iota. rewrite Hnz'. unfold ret at 1. cbv beta iota.
    cbn [fst snd]. unfold ret.
    eexists. split; [reflexivity|]. split; [lia|]. split; [exact Hnew|].
    unfold s1. fields. rewrite Hfp, Hcp.
    split; [reflexivity|]. split; [reflexivity | apply last_snoc].
Qed.

(** X28 in the example kernel with the namespace of cookie 12 mounted
    behind a mount that cannot be opened, with the sink and level the
    library starts with: a request for cookie 11 gets a descriptor of the
    namespace of cookie 12. *)
Lemma netns_fd_from_cookie_takes_first_nsfs_mount_witness :
  exists r s',
    bpftune_netns_fd_from_cookie nsfs_kernel default_logger 11%N demo_state
    = (if formats default_logger LOG_DEBUG then Fault BadVarArg s' else Ret r s')
    /\ (0 < r)%Z
    /\ fds demo_state !! r = None
    /\ fds s' = <[r := 1]> (fds demo_state)
    /\ cur_netns s' = cur_netns demo_state
    /\ last (trace s')
       = Some (EvLog LOG_DEBUG "found netns fd %d for cookie %ld via mnt %s\n"
                 [AInt (Z.of_N 12); AStr (mnt_dir (Mntent "nsfs" "/run/netns/blue" (inr 1)))]).
Proof.
  apply (netns_fd_from_cookie_takes_first_nsfs_mount default_logger nsfs_kernel
           [Mntent "proc" "/proc" (inl EACCES); Mntent "nsfs" "/run/netns/gone" (inl ENOENT)]
           (Mntent "nsfs" "/run/netns/blue" (inr 1)) [] 1 12%N 11%N demo_state).
  - reflexivity.
  - apply Forall_cons. split; [by left|].
    apply Forall_cons. split; [right; left; by eexists | apply Forall_nil_2].
  - reflexivity.
  - reflexivity.
  - reflexivity.
  - reflexivity.
  - exact switch_ok_demo.
  - split; [reflexivity|]. split; [discriminate | by left].
Defined.

(** The same run read off, and the run with the debug level set: the
    descriptor returned is the one after the stream's, and with the debug
    level the call ends in the report. *)
Example netns_fd_from_cookie_nsfs_demo :
  returned (bpftune_netns_fd_from_cookie nsfs_kernel default_logger 11%N demo_state)
  = Some 7%Z
  /\ faulted (bpftune_netns_fd_from_cookie nsfs_kernel (Logger bpftune_log_stderr LOG_DEBUG)
                11%N demo_state)
     = Some BadVarArg
  /\ faulted (bpftune_netns_fd_from_cookie nsfs_kernel (Logger bpftune_log_syslog LOG_INFO)
                11%N demo_state)
     = Some BadVarArg.
Proof. vm_compute. auto. Qed.

(** ** Polling *)






